(** * Van monitor firmware (main.py): a shallow embedding and its properties

    The firmware is one MicroPython module.  It is embedded here function by
    function:

    - Python values the program handles are given Rocq types: [bool], [Z]
      for [int], [string] for [str] and [bytes], [float] (IEEE binary64, the
      kernel's primitive floats) for [float], records with optional fields
      for the dictionaries whose keys the program fixes.
    - The hardware and the network are collaborators: the n-th call to one of
      them is answered by an oracle of the environment [env]; the calls made
      are recorded in a trace of [event]s.
    - Statements run in a state-and-exception monad over the [world] (the
      module's globals, the call counters and the trace), so that what a
      statement has written stays written when a later one raises.
    - The distance formula has two models.  [Binary64.calculate_distance_feet]
      evaluates it as the runtime does, in binary64 and with the domain
      errors of [math]; the C library's [sin], [cos] and [atan2], of which
      there is no bit-exact account, are its parameters.  The statements
      about the distance are about this model.
      [Geo.calculate_distance_feet_f] takes the formula over the real numbers
      on the exact values of its float arguments and leaves rounding out; it
      stands in the program's proximity test, and a statement that depends
      on the answer of that test takes the answer as a hypothesis. *)

From Stdlib Require Import ZArith Bool List String Ascii Lia DecimalString.
From Stdlib Require Import Floats.
From Stdlib Require Import Reals Lra.
From Stdlib Require Import RelationClasses.
Import ListNotations.

Set Warnings "-inexact-float".
Local Open Scope string_scope.
Local Open Scope list_scope.
Local Open Scope Z_scope.

(* ================================================================== *)
(** * Python runtime: exceptions, strings, numbers                      *)
(* ================================================================== *)

Module Py.

(** Exception classes the program can meet.  All of them derive from
    [Exception]; [UnicodeError] derives from [ValueError]. *)
Inductive exn_class :=
| ValueError | IndexError | KeyError | UnicodeError
| OSError | ImportError | OverflowError.

(** An exception instance: its class and [str(e)]. *)
Record exn := Exn { exn_cls : exn_class; exn_msg : string }.

Definition exn_class_eqb (a b : exn_class) : bool :=
  match a, b with
  | ValueError, ValueError | IndexError, IndexError | KeyError, KeyError
  | UnicodeError, UnicodeError | OSError, OSError
  | ImportError, ImportError | OverflowError, OverflowError => true
  | _, _ => false
  end.

(** [isinstance(e, c)]. *)
Definition isinstance (e : exn) (c : exn_class) : bool :=
  exn_class_eqb (exn_cls e) c
  || (exn_class_eqb (exn_cls e) UnicodeError && exn_class_eqb c ValueError).

(** The result of an expression that may raise. *)
Inductive result (A : Type) :=
| Ok (a : A)
| Err (e : exn).
Arguments Ok {A} a.
Arguments Err {A} e.

Definition rbind {A B} (r : result A) (k : A -> result B) : result B :=
  match r with
  | Ok a => k a
  | Err e => Err e
  end.

(** ** [str] and [bytes] *)

Definition is_space (c : ascii) : bool :=
  let n := N_of_ascii c in
  (N.eqb n 32 || (N.leb 9 n && N.leb n 13))%N.

Definition is_digit (c : ascii) : bool :=
  let n := N_of_ascii c in (N.leb 48 n && N.leb n 57)%N.

Definition digit_val (c : ascii) : Z := Z.of_N (N_of_ascii c) - 48.

Definition lower (c : ascii) : ascii :=
  let n := N_of_ascii c in
  if (N.leb 65 n && N.leb n 90)%N then ascii_of_N (n + 32) else c.

Fixpoint lstrip (s : string) : string :=
  match s with
  | String c s' => if is_space c then lstrip s' else s
  | EmptyString => EmptyString
  end.

(** [rstrip] drops the blanks that only blanks follow. *)
Fixpoint rstrip (s : string) : string :=
  match s with
  | EmptyString => EmptyString
  | String c s' =>
      match rstrip s' with
      | EmptyString => if is_space c then EmptyString else String c EmptyString
      | r => String c r
      end
  end.

(** [s.strip()] *)
Definition strip (s : string) : string := rstrip (lstrip s).

(** [s.startswith(p)] *)
Definition startswith (s p : string) : bool := String.prefix p s.

(** [s.startswith((p1, p2))] *)
Definition startswith_any (s : string) (ps : list string) : bool :=
  existsb (startswith s) ps.

(** [s.split(sep)] for a one-character separator: never the empty list. *)
Fixpoint split (sep : ascii) (s : string) : list string :=
  match s with
  | EmptyString => [EmptyString]
  | String c s' =>
      if Ascii.eqb c sep then EmptyString :: split sep s'
      else match split sep s' with
           | p :: ps => String c p :: ps
           | [] => [String c EmptyString]
           end
  end.

(** [len(s)] and [len(l)] *)
Definition len (s : string) : Z := Z.of_nat (String.length s).
Definition llen {A} (l : list A) : Z := Z.of_nat (List.length l).

(** [s[:n]] and [s[n:]] for [n >= 0]; a slice never raises. *)
Fixpoint take (n : nat) (s : string) : string :=
  match n, s with
  | S n', String c s' => String c (take n' s')
  | _, _ => EmptyString
  end.

Fixpoint drop (n : nat) (s : string) : string :=
  match n, s with
  | S n', String _ s' => drop n' s'
  | _, _ => s
  end.

(** [s[i:j]] *)
Definition slice (i j : nat) (s : string) : string := take (j - i) (drop i s).

(** [l[i]] *)
Definition index {A} (l : list A) (i : nat) : result A :=
  match nth_error l i with
  | Some a => Ok a
  | None => Err (Exn IndexError "list index out of range")
  end.

Fixpoint all_chars (p : ascii -> bool) (s : string) : bool :=
  match s with
  | EmptyString => true
  | String c s' => p c && all_chars p s'
  end.

(** [s.isdigit()] on an ASCII string: non-empty and all decimal digits. *)
Definition isdigit (s : string) : bool :=
  negb (String.eqb s "") && all_chars is_digit s.

(** [b.decode('ascii')]: a byte above 127 raises [UnicodeError]. *)
Definition decode_ascii (b : string) : result string :=
  if all_chars (fun c => (N_of_ascii c <? 128)%N) b then Ok b
  else Err (Exn UnicodeError "'ascii' codec can't decode byte").

(** Truth value of a [str]/[bytes]: non-empty. *)
Definition truthy_str (s : string) : bool := negb (String.eqb s "").

(** ** [int] *)

Fixpoint digits_val (acc : Z) (s : string) : Z :=
  match s with
  | EmptyString => acc
  | String c s' => digits_val (10 * acc + digit_val c) s'
  end.

(** Underscores in a numeral: one may stand between two digits, nowhere
    else.  [Some] of the text without its underscores, [None] where one is
    misplaced; [prev] is the character before [s]. *)
Fixpoint without_underscores (prev : ascii) (s : string) : option string :=
  match s with
  | EmptyString => if Ascii.eqb prev "_" then None else Some EmptyString
  | String c s' =>
      if Ascii.eqb c "_" then
        if is_digit prev then without_underscores c s' else None
      else if Ascii.eqb prev "_" && negb (is_digit c) then None
      else option_map (String c) (without_underscores c s')
  end.

(** [int(s)]: optional blanks and sign around decimal digits, which
    underscores may group. *)
Definition int_of_str (s : string) : result Z :=
  match without_underscores "000" (strip s) with
  | None => Err (Exn ValueError "invalid literal for int()")
  | Some t =>
      let '(neg, body) :=
        match t with
        | String "-" r => (true, r)
        | String "+" r => (false, r)
        | _ => (false, t)
        end in
      if isdigit body
      then Ok (if neg then - digits_val 0 body else digits_val 0 body)
      else Err (Exn ValueError "invalid literal for int()")
  end.

(** ** [float]

    [float(s)] reads an optional sign, then [inf], [infinity] or [nan] (in
    any case), or a decimal numeral [digits[.digits]] or [.digits] with an
    optional exponent [e[+-]digits]; blanks around it are dropped,
    underscores between digits are ignored, and anything else raises
    [ValueError].  The numeral denotes the rational
    [m * 10^e]; its value is that rational rounded to the nearest binary64
    (ties to even), computed with the library's specification of IEEE
    rounding and division. *)

Fixpoint span_digits (s : string) : string * string :=
  match s with
  | String c s' =>
      if is_digit c then let '(d, r) := span_digits s' in (String c d, r)
      else (EmptyString, s)
  | EmptyString => (EmptyString, EmptyString)
  end.

Definition lower_str (s : string) : string :=
  string_of_list_ascii (List.map lower (list_ascii_of_string s)).

(** The rational [(-1)^neg * m * 10^e10] as a binary64. *)
Definition float_of_decimal (neg : bool) (m : Z) (e10 : Z) : float :=
  match m with
  | Zpos p =>
      if 0 <=? e10
      then SF2Prim (binary_normalize prec emax
                      (if neg then - (m * 10 ^ e10) else m * 10 ^ e10) 0 neg)
      else
        match 10 ^ (- e10) with
        | Zpos q =>
            SF2Prim (SFdiv prec emax (S754_finite neg p 0) (S754_finite false q 0))
        | _ => PrimFloat.nan
        end
  | _ => if neg then PrimFloat.neg_zero else PrimFloat.zero
  end.

(** [num / den] rounded to the nearest integer, ties to the even one, for
    [0 <= num] and [0 < den]. *)
Definition round_half_even (num den : Z) : Z :=
  let q := num / den in
  match 2 * (num mod den) ?= den with
  | Lt => q
  | Gt => q + 1
  | Eq => if Z.even q then q else q + 1
  end.

(** [round(x, ndigits)] on a float, for [0 <= ndigits]: the decimal with
    [ndigits] digits after the point that is nearest to [x], ties to the
    even one, and of it the nearest float.  NaN and the infinities round to
    themselves. *)
Definition round_ndigits (x : float) (ndigits : Z) : float :=
  match Prim2SF x with
  | S754_finite s m e =>
      float_of_decimal s
        (round_half_even (Zpos m * 10 ^ ndigits * 2 ^ Z.max 0 e) (2 ^ Z.max 0 (- e)))
        (- ndigits)
  | _ => x
  end.

(** The exponent part: [""] or [e[+-]digits]. *)
Definition parse_exponent (s : string) : option Z :=
  match s with
  | EmptyString => Some 0
  | String c r =>
      if Ascii.eqb (lower c) "e" then
        let '(eneg, body) :=
          match r with
          | String "-" r' => (true, r')
          | String "+" r' => (false, r')
          | _ => (false, r)
          end in
        if isdigit body
        then Some (if eneg then - digits_val 0 body else digits_val 0 body)
        else None
      else None
  end.

Definition float_of_str (s : string) : result float :=
  let bad := Err (Exn ValueError "could not convert string to float") in
  match without_underscores "000" (strip s) with
  | None => bad
  | Some t =>
      let '(neg, body) :=
        match t with
        | String "-" r => (true, r)
        | String "+" r => (false, r)
        | _ => (false, t)
        end in
      let word := lower_str body in
      if String.eqb word "inf" || String.eqb word "infinity"
      then Ok (if neg then PrimFloat.neg_infinity else PrimFloat.infinity)
      else if String.eqb word "nan" then Ok PrimFloat.nan
      else
        let '(ip, r1) := span_digits body in
        let '(fp, r2) :=
          match r1 with
          | String "." r => span_digits r
          | _ => (EmptyString, r1)
          end in
        if String.eqb ip "" && String.eqb fp "" then bad
        else
          match parse_exponent r2 with
          | Some e =>
              Ok (float_of_decimal neg (digits_val 0 (ip ++ fp))
                    (e - Z.of_nat (String.length fp)))
          | None => bad
          end
  end.

(** Truth value of a [float]: anything but [0.0] and [-0.0]. *)
Definition truthy_float (f : float) : bool := negb (PrimFloat.eqb f PrimFloat.zero).

(** Truth value of [d.get(k)] for a float-valued key. *)
Definition truthy_opt_float (o : option float) : bool :=
  match o with
  | Some f => truthy_float f
  | None => false
  end.

(** Truth value of an [int]. *)
Definition truthy_int (z : Z) : bool := negb (z =? 0).

(** [float(n)] for an [int]. *)
Definition float_of_int (n : Z) : float :=
  SF2Prim (binary_normalize prec emax n 0 false).

(** [int(x)] for a [float]: truncation toward zero. *)
Definition int_of_float (f : float) : result Z :=
  match Prim2SF f with
  | S754_zero _ => Ok 0
  | S754_finite s m e =>
      let v := if 0 <=? e then Z.shiftl (Zpos m) e else Z.shiftr (Zpos m) (- e) in
      Ok (if s then - v else v)
  | S754_infinity _ => Err (Exn OverflowError "cannot convert float infinity to integer")
  | S754_nan => Err (Exn ValueError "cannot convert float NaN to integer")
  end.

(** [s.endswith(suf)] *)
Definition endswith (s suf : string) : bool :=
  (String.length suf <=? String.length s)%nat
  && String.eqb (drop (String.length s - String.length suf) s) suf.

(** [needle in s] *)
Fixpoint contains (needle s : string) : bool :=
  String.prefix needle s
  || match s with
     | EmptyString => false
     | String _ s' => contains needle s'
     end.

(** [s.count(c)] for a one-character [c]. *)
Fixpoint count_char (c : ascii) (s : string) : Z :=
  match s with
  | EmptyString => 0
  | String c' s' => (if Ascii.eqb c c' then 1 else 0) + count_char c s'
  end.

(** [str(n)] for an [int]. *)
Definition str_of_int (n : Z) : string :=
  DecimalString.NilZero.string_of_int (Z.to_int n).

Fixpoint zeros (n : nat) : string :=
  match n with
  | O => EmptyString
  | S n' => String "0" (zeros n')
  end.

(** [f"{n:0Wd}"]: zero padding to width [W], after the sign. *)
Definition format_0d (width : nat) (n : Z) : string :=
  let digits := str_of_int (Z.abs n) in
  if n <? 0
  then "-" ++ zeros (width - 1 - String.length digits) ++ digits
  else zeros (width - String.length digits) ++ digits.

End Py.

Import Py.

(* ================================================================== *)
(** * The monotonic millisecond counter                                 *)
(* ================================================================== *)

Module Ticks.

(** Modelled from the spec: [time.ticks_ms] is a built-in of the MicroPython
    runtime, not code of this repository.  The counter has a fixed bit width
    [W] and wraps at [2^W]. *)
Definition period (W : Z) : Z := 2 ^ W.

Definition wrap (W : Z) (t : Z) : Z := t mod period W.

(** Modelled from the spec: [time.ticks_diff], a built-in of the runtime
    as well.  [ticks_diff a b] is the difference [a - b] read as a signed
    value over the counter's modulus, that is, the representative of
    [a - b] in [[-2^(W-1), 2^(W-1))]. *)
Definition ticks_diff_w (W : Z) (a b : Z) : Z :=
  (a - b + period W / 2) mod period W - period W / 2.

(** The counter of the MicroPython ports is 30 bits wide. *)
Definition TICKS_BITS : Z := 30.

Definition ticks_wrap : Z -> Z := wrap TICKS_BITS.
Definition ticks_diff : Z -> Z -> Z := ticks_diff_w TICKS_BITS.

End Ticks.

Import Ticks.

(* ================================================================== *)
(** * Configuration and constants of main.py                            *)
(* ================================================================== *)

(** [local_secrets.py]: credentials and the home position. *)
Record local_secrets := {
  WIFI_SSID : string;
  WIFI_PASS : string;
  HOME_LAT : float;
  HOME_LON : float;
  FTP_HOST : string;
  FTP_USER : string;
  FTP_PASS : string;
  FTP_DIR : string
}.

(** The values main.py falls back to when [local_secrets] is missing. *)
Definition fallback_secrets : local_secrets := {|
  WIFI_SSID := "YOUR_WIFI_SSID";
  WIFI_PASS := "YOUR_WIFI_PASSWORD";
  HOME_LAT := 40.7128%float;
  HOME_LON := (-74.0060)%float;
  FTP_HOST := "your-ftp-server.com";
  FTP_USER := "van_monitor";
  FTP_PASS := "your_ftp_password";
  FTP_DIR := "/van_data"
|}.

Definition AXP2101_ADDR : Z := 0x34.
Definition HOME_RADIUS_FT : Z := 2000.
Definition WIFI_RETRY_INTERVAL : Z := 30000.
Definition SHUTDOWN_DELAY : Z := 30000.
Definition LOG_INTERVAL : Z := 60000.
Definition SD_MOUNT_PATH : string := "/sd".
Definition LOG_RETENTION_DAYS : Z := 28.
Definition CLEANUP_INTERVAL : Z := 86400000.
Definition SENSOR_UPDATE_INTERVAL : Z := 5000.
Definition DISPLAY_UPDATE_INTERVAL : Z := 250.
Definition DEEP_SLEEP_INTERVAL : Z := 10000.

(** The elapsed-time tests of the program, each written in main.py as
    [time.ticks_diff(now, then) < INTERVAL] or [... > INTERVAL]. *)
Definition sensor_update_not_due (now last_update : Z) : bool :=
  ticks_diff now last_update <? SENSOR_UPDATE_INTERVAL.
Definition gps_window_open (now start_time timeout : Z) : bool :=
  ticks_diff now start_time <? timeout.
Definition log_not_due (now last_log_time : Z) : bool :=
  ticks_diff now last_log_time <? LOG_INTERVAL.
Definition cleanup_not_due (now last_cleanup_time : Z) : bool :=
  ticks_diff now last_cleanup_time <? CLEANUP_INTERVAL.
Definition shutdown_delay_passed (now engine_off_time : Z) : bool :=
  ticks_diff now engine_off_time >? SHUTDOWN_DELAY.
Definition wifi_retry_due (now last_wifi_attempt : Z) : bool :=
  ticks_diff now last_wifi_attempt >? WIFI_RETRY_INTERVAL.

(* ================================================================== *)
(** * GPS fixes and the proximity test                                  *)
(* ================================================================== *)

(** The dictionary [read_gps] builds.  [gps_fix_valid] and [satellites] are
    always present; the other keys are present once set ([None] stands for a
    missing key, so [d.get(k)] is the field and [d[k]] raises [KeyError] on
    [None]). *)
Record gps_dict := {
  gps_fix_valid : bool;
  satellites : Z;
  latitude : option float;
  longitude : option float;
  speed : option float;
  time : option string;
  error : option string
}.

(** [{"gps_fix_valid": False, "satellites": 0}] *)
Definition no_fix : gps_dict := {|
  gps_fix_valid := false; satellites := 0;
  latitude := None; longitude := None; speed := None; time := None;
  error := None
|}.

(** [d[k]] for an optional key. *)
Definition getitem {A} (k : string) (o : option A) : result A :=
  match o with
  | Some a => Ok a
  | None => Err (Exn KeyError k)
  end.

Module Geo.

Local Open Scope R_scope.

(** The real number a finite binary64 stands for. *)
Definition SF2R (x : spec_float) : R :=
  match x with
  | S754_finite s m e =>
      (if s then -1 else 1) * IZR (Zpos m) * powerRZ 2 e
  | _ => 0
  end.

Definition F2R (f : float) : R := SF2R (Prim2SF f).

(** [math.radians] *)
Definition radians (x : R) : R := x * (PI / 180).

(** [math.atan2] *)
Definition atan2 (y x : R) : R :=
  if Rlt_dec 0 x then atan (y / x)
  else if Rlt_dec x 0 then
    (if Rle_dec 0 y then atan (y / x) + PI else atan (y / x) - PI)
  else if Rlt_dec 0 y then PI / 2
  else if Rlt_dec y 0 then - (PI / 2)
  else 0.

(** [calculate_distance_feet], on the values of its arguments. *)
Definition calculate_distance_feet (lat1 lon1 lat2 lon2 : R) : R :=
  let R := 3959 in
  let dlat := radians (lat2 - lat1) in
  let dlon := radians (lon2 - lon1) in
  let a := sin (dlat / 2) * sin (dlat / 2) +
           cos (radians lat1) * cos (radians lat2) *
           sin (dlon / 2) * sin (dlon / 2) in
  let c := 2 * atan2 (sqrt a) (sqrt (1 - a)) in
  let distance_miles := R * c in
  distance_miles * 5280.

(** What a float computation through [math] yields: a real value or NaN. *)
Inductive num :=
| Real (r : R)
| NaN.

(** [x <= n] for an integer constant [n]; false on NaN. *)
Definition num_le (x : num) (n : Z) : bool :=
  match x with
  | Real r => if Rle_dec r (IZR n) then true else false
  | NaN => false
  end.

(** [int(x)] used only for its exception: NaN cannot be converted. *)
Definition int_check (x : num) : result unit :=
  match x with
  | Real _ => Ok tt
  | NaN => Err (Exn ValueError "cannot convert float NaN to integer")
  end.

Local Open Scope bool_scope.

(** The call [calculate_distance_feet(lat1, lon1, lat2, lon2)] on floats,
    with the formula taken over the reals.  [math.sin] and [math.cos] raise
    [ValueError] on an infinite argument: [sin(dlat/2)], [cos(radians(lat1))],
    [cos(radians(lat2))] and [sin(dlon/2)] are evaluated in that order.  A NaN
    argument gives NaN.  On all other arguments this model answers with the
    value of the formula over the reals: it leaves out the rounding of the
    binary64 evaluation, and with it the [ValueError] of [math.sqrt(1 - a)]
    when rounding carries [a] above 1.  [Binary64.calculate_distance_feet]
    below is the evaluation in binary64 with that error.  Statements on code
    that depends on the answer of the proximity test take that answer as a
    hypothesis, or hold for every distance function. *)
Definition distance_raises (lat1 lon1 lat2 lon2 : float) : bool :=
  is_infinity (lat2 - lat1)%float || is_infinity lat1 || is_infinity lat2
  || is_infinity (lon2 - lon1)%float.

Definition calculate_distance_feet_f (lat1 lon1 lat2 lon2 : float) : result num :=
  if distance_raises lat1 lon1 lat2 lon2
  then Err (Exn ValueError "math domain error")
  else if is_nan lat1 || is_nan lon1 || is_nan lat2 || is_nan lon2
  then Ok NaN
  else Ok (Real (calculate_distance_feet (F2R lat1) (F2R lon1) (F2R lat2) (F2R lon2))).

(** [is_close_to_home], with the distance function it calls as a parameter
    ([calculate_distance_feet] is looked up when the call is made). *)
Definition is_close_to_home_with
    (distance : float -> float -> float -> float -> result num)
    (cfg : local_secrets) (gps_data : gps_dict) : result bool :=
  if negb (gps_fix_valid gps_data)
     || negb (truthy_opt_float (latitude gps_data))
     || negb (truthy_opt_float (longitude gps_data))
  then Ok false
  else
    rbind (getitem "latitude" (latitude gps_data)) (fun lat =>
    rbind (getitem "longitude" (longitude gps_data)) (fun lon =>
    rbind (distance lat lon (HOME_LAT cfg) (HOME_LON cfg)) (fun distance_ft =>
    Ok (num_le distance_ft HOME_RADIUS_FT)))).

Definition is_close_to_home : local_secrets -> gps_dict -> result bool :=
  is_close_to_home_with calculate_distance_feet_f.

End Geo.

Import Geo.

(* ================================================================== *)
(** * The distance as the runtime computes it                           *)
(* ================================================================== *)

(** [calculate_distance_feet] computes in binary64.  Its arithmetic and
    [math.sqrt] are operations of IEEE 754, which the kernel's floats
    implement bit for bit; [math.radians] multiplies by the constant
    [pi / 180].  [math.sin], [math.cos] and [math.atan2] come from the C
    library of the runtime, which fixes no bit-exact result for them: they
    are parameters of the model.  A function of [math] raises when its
    result is NaN for arguments that are not, or infinite for finite
    arguments; so [math.sin] and [math.cos] raise on an infinite argument,
    and [math.sqrt] on a negative one: the term [1 - a] is negative when
    rounding carries [a] above 1, as it can for points nearly opposite on
    the globe. *)
Module Binary64.

(** The C library's functions. *)
Record libm := {
  libm_sin : float -> float;
  libm_cos : float -> float;
  libm_atan2 : float -> float -> float
}.

Definition domain_error : exn := Exn ValueError "math domain error".
Definition range_error : exn := Exn OverflowError "math range error".

(** A one-argument function of [math] that cannot overflow. *)
Definition math_1 (f : float -> float) (x : float) : result float :=
  let r := f x in
  if is_nan r && negb (is_nan x) then Err domain_error
  else if is_infinity r && is_finite x then Err domain_error
  else Ok r.

(** A two-argument function of [math]. *)
Definition math_2 (f : float -> float -> float) (x y : float) : result float :=
  let r := f x y in
  if is_nan r then
    if negb (is_nan x) && negb (is_nan y) then Err domain_error else Ok r
  else if is_infinity r then
    if is_finite x && is_finite y then Err range_error else Ok r
  else Ok r.

(** [math.sqrt] *)
Definition sqrt (x : float) : result float := math_1 PrimFloat.sqrt x.

(** [math.radians] *)
Definition radians (x : float) : float := (x * (3.141592653589793 / 180))%float.

(** [calculate_distance_feet(lat1, lon1, lat2, lon2)]: the calls of [math]
    in the order Python makes them. *)
Definition calculate_distance_feet (m : libm) (lat1 lon1 lat2 lon2 : float)
  : result float :=
  let R := 3959%float in
  let dlat := radians (lat2 - lat1) in
  let dlon := radians (lon2 - lon1) in
  rbind (math_1 (libm_sin m) (dlat / 2)) (fun sin_dlat =>
  rbind (math_1 (libm_sin m) (dlat / 2)) (fun sin_dlat' =>
  rbind (math_1 (libm_cos m) (radians lat1)) (fun cos_lat1 =>
  rbind (math_1 (libm_cos m) (radians lat2)) (fun cos_lat2 =>
  rbind (math_1 (libm_sin m) (dlon / 2)) (fun sin_dlon =>
  rbind (math_1 (libm_sin m) (dlon / 2)) (fun sin_dlon' =>
  let a := (sin_dlat * sin_dlat' +
            cos_lat1 * cos_lat2 * sin_dlon * sin_dlon')%float in
  rbind (sqrt a) (fun sqrt_a =>
  rbind (sqrt (1 - a)) (fun sqrt_1_a =>
  rbind (math_2 (libm_atan2 m) sqrt_a sqrt_1_a) (fun atan2_ =>
  let c := (2 * atan2_)%float in
  let distance_miles := (R * c)%float in
  Ok (distance_miles * 5280)%float))))))))).

(** One value is the other, or its opposite. *)
Definition same_or_opposite (x x' : float) : Prop :=
  x' = x \/ x' = (- x)%float.

End Binary64.

(* ================================================================== *)
(** * Statements: state, exceptions, deep sleep                         *)
(* ================================================================== *)

(** How a statement ends: normally with a value, with an exception, by
    powering the chip down ([machine.deepsleep] does not return: the device
    restarts from reset when it wakes), or not within the iterations the
    model was given for its one unbounded loop. *)
Inductive outcome (A : Type) :=
| Ret (a : A)
| Raise (e : exn)
| Halt
| OutOfFuel.
Arguments Ret {A} a.
Arguments Raise {A} e.
Arguments Halt {A}.
Arguments OutOfFuel {A}.

(** A statement over the state [S]: the state it leaves is returned in
    every case, so writes made before an exception are kept. *)
Definition M (S A : Type) : Type := S -> outcome A * S.

Definition ret {S A} (a : A) : M S A := fun s => (Ret a, s).

Definition raise {S A} (e : exn) : M S A := fun s => (Raise e, s).

Definition bind {S A B} (m : M S A) (k : A -> M S B) : M S B :=
  fun s =>
    match m s with
    | (Ret a, s') => k a s'
    | (Raise e, s') => (Raise e, s')
    | (Halt, s') => (Halt, s')
    | (OutOfFuel, s') => (OutOfFuel, s')
    end.

(** [try: m except: h] and [try: m except Exception as e: h e] (every
    exception of the model is an [Exception]). *)
Definition try_except {S A} (m : M S A) (h : exn -> M S A) : M S A :=
  fun s =>
    match m s with
    | (Raise e, s') => h e s'
    | r => r
    end.

(** [try: m except (c1, c2, ...): h]; other exceptions pass. *)
Definition try_except_in {S A} (cs : list exn_class) (m : M S A) (h : exn -> M S A)
  : M S A :=
  try_except m (fun e => if existsb (isinstance e) cs then h e else raise e).

(** An expression that may raise, as a statement. *)
Definition eval {S A} (r : result A) : M S A :=
  match r with
  | Ok a => ret a
  | Err e => raise e
  end.

Definition get {S} : M S S := fun s => (Ret s, s).
Definition modify {S} (f : S -> S) : M S unit := fun s => (Ret tt, f s).

Declare Scope stmt_scope.
Delimit Scope stmt_scope with stmt.
Notation "x <- m ;; k" := (bind m (fun x => k))
  (at level 61, m at next level, right associativity) : stmt_scope.
Notation "m ;; k" := (bind m (fun _ => k))
  (at level 61, right associativity) : stmt_scope.
Local Open Scope stmt_scope.

(* ================================================================== *)
(** * The NMEA decoder: what [read_gps] does with one line              *)
(* ================================================================== *)

Module Nmea.

(** The local variables of [read_gps] that outlive an iteration. *)
Record gps_locals := {
  gps_data : gps_dict;
  lines_processed : Z;
  gprmc_found : bool;
  gpgga_found : bool
}.

Definition initial_locals : gps_locals := {|
  gps_data := no_fix; lines_processed := 0;
  gprmc_found := false; gpgga_found := false
|}.

(** How an iteration of the [while] loop ends. *)
Inductive ctl :=
| Continue
| ReturnFix (d : gps_dict).

(** What an RMC sentence contributes. *)
Record rmc_fix := {
  rmc_lat : float;
  rmc_lon : float;
  rmc_speed : float;
  rmc_time : string
}.

(** Lines 312-316: the speed field, knots to km/h. *)
Definition rmc_speed_kmh (speed_str : string) : result float :=
  if truthy_str speed_str then
    rbind (float_of_str speed_str) (fun speed_knots =>
    let speed_kmh := (speed_knots * 1.852)%float in
    Ok (if (1.0 <? speed_kmh)%float then speed_kmh else 0.0%float))
  else Ok 0.0%float.

(** Lines 319-321: [HHMMSS] to [HH:MM:SS]. *)
Definition rmc_time_formatted (time_str : string) : string :=
  if truthy_str time_str && (len time_str >=? 6)
  then take 2 time_str ++ ":" ++ slice 2 4 time_str ++ ":" ++ slice 4 6 time_str
  else "??:??:??".

(** Lines 302-321: the body of the inner [try] up to the dictionary update;
    [None] when the length test fails. *)
Definition parse_rmc (time_str lat_str lat_dir lon_str lon_dir speed_str : string)
  : result (option rmc_fix) :=
  if (len lat_str >=? 4) && (len lon_str >=? 5) then
    rbind (float_of_str (take 2 lat_str)) (fun lat_deg =>
    rbind (float_of_str (drop 2 lat_str)) (fun lat_min =>
    let lat := (lat_deg + lat_min / 60.0)%float in
    let lat := if String.eqb lat_dir "S" then (- lat)%float else lat in
    rbind (float_of_str (take 3 lon_str)) (fun lon_deg =>
    rbind (float_of_str (drop 3 lon_str)) (fun lon_min =>
    let lon := (lon_deg + lon_min / 60.0)%float in
    let lon := if String.eqb lon_dir "W" then (- lon)%float else lon in
    rbind (rmc_speed_kmh speed_str) (fun speed =>
    Ok (Some {| rmc_lat := lat; rmc_lon := lon; rmc_speed := speed;
                rmc_time := rmc_time_formatted time_str |}))))))
  else Ok None.

(** [gps_data.update({...})], lines 323-329. *)
Definition update_fix (f : rmc_fix) (d : gps_dict) : gps_dict := {|
  gps_fix_valid := true;
  satellites := satellites d;
  latitude := Some (rmc_lat f);
  longitude := Some (rmc_lon f);
  speed := Some (rmc_speed f);
  time := Some (rmc_time f);
  error := error d
|}.

(** [gps_data["satellites"] = sat_count] *)
Definition set_satellites (n : Z) (d : gps_dict) : gps_dict := {|
  gps_fix_valid := gps_fix_valid d;
  satellites := n;
  latitude := latitude d;
  longitude := longitude d;
  speed := speed d;
  time := time d;
  error := error d
|}.

Definition set_gps_data (f : gps_dict -> gps_dict) (st : gps_locals) : gps_locals :=
  {| gps_data := f (gps_data st); lines_processed := lines_processed st;
     gprmc_found := gprmc_found st; gpgga_found := gpgga_found st |}.
Definition count_line (st : gps_locals) : gps_locals :=
  {| gps_data := gps_data st; lines_processed := lines_processed st + 1;
     gprmc_found := gprmc_found st; gpgga_found := gpgga_found st |}.
Definition found_gprmc (st : gps_locals) : gps_locals :=
  {| gps_data := gps_data st; lines_processed := lines_processed st;
     gprmc_found := true; gpgga_found := gpgga_found st |}.
Definition found_gpgga (st : gps_locals) : gps_locals :=
  {| gps_data := gps_data st; lines_processed := lines_processed st;
     gprmc_found := gprmc_found st; gpgga_found := true |}.

(** Where a branch of the line body leaves control: at the statement after
    it, or at the next iteration ([continue]). *)
Inductive branch_end :=
| FallThrough
| Continued.

(** Lines 288-332: the RMC branch. *)
Definition rmc_branch (line_str : string) : M gps_locals branch_end :=
  let parts := split "," line_str in
  if llen parts >=? 13 then
    time_str <- eval (index parts 1) ;;
    status <- eval (index parts 2) ;;
    lat_str <- eval (index parts 3) ;;
    lat_dir <- eval (index parts 4) ;;
    lon_str <- eval (index parts 5) ;;
    lon_dir <- eval (index parts 6) ;;
    speed_str <- eval (index parts 7) ;;
    if String.eqb status "A" && truthy_str lat_str && truthy_str lon_str then
      try_except_in [ValueError; IndexError]
        (fix_ <- eval (parse_rmc time_str lat_str lat_dir lon_str lon_dir speed_str) ;;
         match fix_ with
         | Some f =>
             modify (set_gps_data (update_fix f)) ;;
             modify found_gprmc ;;
             ret FallThrough
         | None => ret FallThrough
         end)
        (fun _ => ret Continued)
    else ret FallThrough
  else ret FallThrough.

(** Lines 335-345: the GGA branch. *)
Definition gga_branch (line_str : string) : M gps_locals branch_end :=
  let parts := split "," line_str in
  if llen parts >=? 8 then
    try_except_in [ValueError; IndexError]
      (satellites_ <- (if llen parts >? 7 then eval (index parts 7) else ret "") ;;
       if truthy_str satellites_ && isdigit satellites_ then
         sat_count <- eval (int_of_str satellites_) ;;
         modify (set_gps_data (set_satellites sat_count)) ;;
         modify found_gpgga ;;
         ret FallThrough
       else ret FallThrough)
      (fun _ => ret Continued)
  else ret FallThrough.

(** Lines 282-349: the body of the [try] that wraps the handling of a line. *)
Definition line_body (line : string) : M gps_locals ctl :=
  decoded <- eval (decode_ascii line) ;;
  let line_str := strip decoded in
  if startswith line_str "$" then
    modify count_line ;;
    b <- (if startswith_any line_str ["$GPRMC"; "$GNRMC"] then rmc_branch line_str
          else if startswith_any line_str ["$GPGGA"; "$GNGGA"] then gga_branch line_str
          else ret FallThrough) ;;
    match b with
    | Continued => ret Continue
    | FallThrough =>
        st <- get ;;
        if gprmc_found st && gpgga_found st
        then ret (ReturnFix (gps_data st))
        else ret Continue
    end
  else ret Continue.

(** Lines 281-352: the [try] with its bare [except: continue]. *)
Definition process_line (line : string) : M gps_locals ctl :=
  try_except (line_body line) (fun _ => ret Continue).

End Nmea.

Import Nmea.

(* ================================================================== *)
(** * The world: globals of main.py, collaborators, trace               *)
(* ================================================================== *)

(** What [read_battery_status] returns.  The dictionary holds the
    percentage and the rounded voltage twice each, under two keys. *)
Record battery_status := {
  percentage : Z;
  bat_voltage : float;
  charging_state : string;
  pmu_status_raw : Z
}.

(** The global [sensor_data]. *)
Record sensor_dict := {
  engine : bool;
  battery : option battery_status;
  wifi : bool;
  gps : gps_dict;
  last_update : Z
}.

(** An entry of a daily log file. *)
Record log_entry := {
  log_timestamp : Z;
  log_date : string;
  log_engine : bool;
  log_battery : option battery_status;
  log_wifi : bool;
  log_gps : gps_dict;
  log_close_to_home : bool
}.

(** The collaborators. *)
Inductive device := Clock | Rtc | Uart | I2c | Wlan | Fs | Sock | Lcd.

Definition device_eqb (a b : device) : bool :=
  match a, b with
  | Clock, Clock | Rtc, Rtc | Uart, Uart | I2c, I2c
  | Wlan, Wlan | Fs, Fs | Sock, Sock | Lcd, Lcd => true
  | _, _ => false
  end.

(** What the program does to its collaborators, in the order it does it. *)
Inductive event :=
| Lcd_clear (color : Z)
| Lcd_setTextColor (fg bg : Z)
| Lcd_setCursor (x y : Z)
| Lcd_print (text : string)
| draw_status_screen (shown : sensor_dict)
| time_sleep (ms : Z)
| machine_deepsleep (ms : Z)
| SDCard_init
| os_mount (path : string)
| file_open (path mode : string)
| file_write (path data : string)
| ujson_load (path : string)
| ujson_dump (path : string) (logs : list log_entry)
| os_remove (path : string)
| os_listdir (path : string)
| WLAN_active (on : bool)
| WLAN_connect (ssid password : string)
| socket_connect (host : string) (port : Z)
| socket_send (data : string)
| socket_close.

(** The environment: the secrets file, and for each collaborator what its
    n-th call answers (a value, or the exception it raises). *)
Record env := {
  secrets : local_secrets;
  ticks_ms_at : nat -> Z;
  time_at : nat -> Z;
  localtime : Z -> Z * Z * Z;
  mktime : Z -> Z -> Z -> result Z;
  uart_readline_at : nat -> result (option string);
  i2c_readfrom_mem_at : nat -> Z -> Z -> Z -> result (list Z);
  wlan_cmd_at : nat -> result unit;
  wlan_query_at : nat -> result bool;
  fs_cmd_at : nat -> result unit;
  fs_load_at : nat -> result (list log_entry);
  fs_listdir_at : nat -> result (list string);
  sock_cmd_at : nat -> result unit;
  sock_recv_at : nat -> result string;
  lcd_at : nat -> result unit
}.

(** The state: the module's globals, how often each collaborator has been
    called, and the trace. *)
Record world := {
  sensor_data : sensor_dict;
  last_wifi_attempt : Z;
  engine_off_time : option Z;
  is_shutting_down : bool;
  last_log_time : Z;
  last_cleanup_time : Z;
  calls : device -> nat;
  trace : list event
}.

(** The globals as main.py initialises them, nothing called yet. *)
Definition initial_world : world := {|
  sensor_data := {| engine := false; battery := None; wifi := false;
                    gps := no_fix; last_update := 0 |};
  last_wifi_attempt := 0;
  engine_off_time := None;
  is_shutting_down := false;
  last_log_time := 0;
  last_cleanup_time := 0;
  calls := fun _ => O;
  trace := []
|}.

Definition set_sensor_data (f : sensor_dict -> sensor_dict) (w : world) : world :=
  {| sensor_data := f (sensor_data w); last_wifi_attempt := last_wifi_attempt w;
     engine_off_time := engine_off_time w; is_shutting_down := is_shutting_down w;
     last_log_time := last_log_time w; last_cleanup_time := last_cleanup_time w;
     calls := calls w; trace := trace w |}.
Definition set_last_wifi_attempt (t : Z) (w : world) : world :=
  {| sensor_data := sensor_data w; last_wifi_attempt := t;
     engine_off_time := engine_off_time w; is_shutting_down := is_shutting_down w;
     last_log_time := last_log_time w; last_cleanup_time := last_cleanup_time w;
     calls := calls w; trace := trace w |}.
Definition set_engine_off_time (t : option Z) (w : world) : world :=
  {| sensor_data := sensor_data w; last_wifi_attempt := last_wifi_attempt w;
     engine_off_time := t; is_shutting_down := is_shutting_down w;
     last_log_time := last_log_time w; last_cleanup_time := last_cleanup_time w;
     calls := calls w; trace := trace w |}.
Definition set_is_shutting_down (b : bool) (w : world) : world :=
  {| sensor_data := sensor_data w; last_wifi_attempt := last_wifi_attempt w;
     engine_off_time := engine_off_time w; is_shutting_down := b;
     last_log_time := last_log_time w; last_cleanup_time := last_cleanup_time w;
     calls := calls w; trace := trace w |}.
Definition set_last_log_time (t : Z) (w : world) : world :=
  {| sensor_data := sensor_data w; last_wifi_attempt := last_wifi_attempt w;
     engine_off_time := engine_off_time w; is_shutting_down := is_shutting_down w;
     last_log_time := t; last_cleanup_time := last_cleanup_time w;
     calls := calls w; trace := trace w |}.
Definition set_last_cleanup_time (t : Z) (w : world) : world :=
  {| sensor_data := sensor_data w; last_wifi_attempt := last_wifi_attempt w;
     engine_off_time := engine_off_time w; is_shutting_down := is_shutting_down w;
     last_log_time := last_log_time w; last_cleanup_time := t;
     calls := calls w; trace := trace w |}.
Definition called (d : device) (w : world) : world :=
  {| sensor_data := sensor_data w; last_wifi_attempt := last_wifi_attempt w;
     engine_off_time := engine_off_time w; is_shutting_down := is_shutting_down w;
     last_log_time := last_log_time w; last_cleanup_time := last_cleanup_time w;
     calls := fun d' => if device_eqb d d' then S (calls w d') else calls w d';
     trace := trace w |}.
Definition logged (ev : event) (w : world) : world :=
  {| sensor_data := sensor_data w; last_wifi_attempt := last_wifi_attempt w;
     engine_off_time := engine_off_time w; is_shutting_down := is_shutting_down w;
     last_log_time := last_log_time w; last_cleanup_time := last_cleanup_time w;
     calls := calls w; trace := trace w ++ [ev] |}.

Definition set_engine (b : bool) (d : sensor_dict) : sensor_dict :=
  {| engine := b; battery := battery d; wifi := wifi d; gps := gps d;
     last_update := last_update d |}.
Definition set_battery (b : option battery_status) (d : sensor_dict) : sensor_dict :=
  {| engine := engine d; battery := b; wifi := wifi d; gps := gps d;
     last_update := last_update d |}.
Definition set_wifi (b : bool) (d : sensor_dict) : sensor_dict :=
  {| engine := engine d; battery := battery d; wifi := b; gps := gps d;
     last_update := last_update d |}.
Definition set_gps (g : gps_dict) (d : sensor_dict) : sensor_dict :=
  {| engine := engine d; battery := battery d; wifi := wifi d; gps := g;
     last_update := last_update d |}.
Definition set_last_update (t : Z) (d : sensor_dict) : sensor_dict :=
  {| engine := engine d; battery := battery d; wifi := wifi d; gps := gps d;
     last_update := t |}.

(** A statement of main.py. *)
Definition stmt (A : Type) : Type := M world A.

(** Record an action in the trace. *)
Definition emit (ev : event) : stmt unit := modify (logged ev).

(** Call a collaborator: its counter advances and its oracle answers. *)
Definition ask {A} (d : device) (oracle : nat -> result A) : stmt A :=
  fun w =>
    (match oracle (calls w d) with
     | Ok a => Ret a
     | Err e => Raise e
     end, called d w).

(** [for x in l: body x] *)
Fixpoint for_each {A} (l : list A) (body : A -> stmt unit) : stmt unit :=
  match l with
  | [] => ret tt
  | x :: l' => body x ;; for_each l' body
  end.

(* ================================================================== *)
(** * The functions of main.py                                          *)
(* ================================================================== *)

Section Program.

Variable E : env.

(** ** Collaborator calls *)

(** [time.ticks_ms()]: a reading of the wrapping counter. *)
Definition ticks_ms : stmt Z :=
  ask Clock (fun n => Ok (ticks_wrap (ticks_ms_at E n))).

(** [time.time()] *)
Definition time_time : stmt Z := ask Rtc (fun n => Ok (time_at E n)).

(** [time.sleep(s)], in milliseconds. *)
Definition sleep (ms : Z) : stmt unit := emit (time_sleep ms).

(** A call of the display library. *)
Definition lcd (ev : event) : stmt unit := emit ev ;; ask Lcd (lcd_at E).

(** A call of the filesystem that returns nothing the program uses. *)
Definition fs (ev : event) : stmt unit := emit ev ;; ask Fs (fs_cmd_at E).

(** [network.WLAN(network.STA_IF)] and the methods of the station. *)
Definition WLAN : stmt unit := ask Wlan (wlan_cmd_at E).
Definition sta_active_on : stmt unit :=
  emit (WLAN_active true) ;; ask Wlan (wlan_cmd_at E).
Definition sta_active : stmt bool := ask Wlan (wlan_query_at E).
Definition sta_isconnected : stmt bool := ask Wlan (wlan_query_at E).
Definition sta_connect (ssid password : string) : stmt unit :=
  emit (WLAN_connect ssid password) ;; ask Wlan (wlan_cmd_at E).

(** The socket of the FTP session. *)
Definition sock (ev : option event) : stmt unit :=
  match ev with
  | Some e => emit e ;; ask Sock (sock_cmd_at E)
  | None => ask Sock (sock_cmd_at E)
  end.
Definition sock_recv_decode : stmt string := ask Sock (sock_recv_at E).

(** [i2c.readfrom_mem(addr, reg, n)] *)
Definition i2c_readfrom_mem (addr reg n : Z) : stmt (list Z) :=
  ask I2c (fun k => i2c_readfrom_mem_at E k addr reg n).

(** [gps_uart.readline()] *)
Definition uart_readline : stmt (option string) := ask Uart (uart_readline_at E).

(** ** Display *)

(** [init_display] *)
Definition init_display : stmt bool :=
  try_except
    (lcd (Lcd_clear 0x0000) ;;
     lcd (Lcd_setTextColor 0xFFFF 0x0000) ;;
     ret true)
    (fun _ => ret false).

(** [update_display]: [draw_status_screen] only reads the snapshot and
    drives the display; it is one call of the display collaborator here. *)
Definition update_display : stmt unit :=
  w <- get ;;
  lcd (draw_status_screen (sensor_data w)).

(** ** Hardware *)

(** [engine_is_on] *)
Definition engine_is_on : stmt bool :=
  try_except
    (status <- i2c_readfrom_mem AXP2101_ADDR 0x00 1 ;;
     b0 <- eval (index status 0) ;;
     ret (truthy_int (Z.land b0 0x20)))
    (fun _ => ret false).

(** ** GPS *)

(** Lines 278-354: the [while] loop of [read_gps]; [fuel] bounds its
    iterations. *)
Fixpoint read_gps_loop (fuel : nat) (start_time timeout : Z) (st : gps_locals)
  : stmt gps_dict :=
  match fuel with
  | O => fun w => (OutOfFuel, w)
  | S fuel' =>
      now <- ticks_ms ;;
      if gps_window_open now start_time timeout then
        line <- uart_readline ;;
        match line with
        | Some bytes =>
            if truthy_str bytes then
              match process_line bytes st with
              | (Ret (ReturnFix d), _) => ret d
              | (_, st') => read_gps_loop fuel' start_time timeout st'
              end
            else sleep 10 ;; read_gps_loop fuel' start_time timeout st
        | None => sleep 10 ;; read_gps_loop fuel' start_time timeout st
        end
      else ret (gps_data st)
  end.

(** [{"gps_fix_valid": False, "satellites": 0, "error": str(e)}] *)
Definition gps_error (e : exn) : gps_dict := {|
  gps_fix_valid := false; satellites := 0;
  latitude := None; longitude := None; speed := None; time := None;
  error := Some (exn_msg e)
|}.

(** [read_gps(timeout)] *)
Definition read_gps_for (fuel : nat) (timeout : Z) : stmt gps_dict :=
  try_except
    (start_time <- ticks_ms ;;
     read_gps_loop fuel start_time timeout initial_locals)
    (fun e => ret (gps_error e)).

(** [read_gps()], with the default [timeout=3000]. *)
Definition read_gps (fuel : nat) : stmt gps_dict := read_gps_for fuel 3000.

(** ** Battery *)

Definition charge_states (code : Z) : string :=
  match code with
  | 0 => "trickle" | 1 => "pre-charge" | 2 => "const-current"
  | 3 => "const-voltage" | 4 => "done" | 5 => "not-charging"
  | _ => "unknown"
  end.

(** [struct.unpack(">H", raw)[0]] *)
Definition unpack_be16 (raw : list Z) : result Z :=
  match raw with
  | [hi; lo] => Ok (hi * 256 + lo)
  | _ => Err (Exn ValueError "buffer size must match format")
  end.

(** [read_battery_status] *)
Definition read_battery_status : stmt (option battery_status) :=
  try_except
    (r0 <- i2c_readfrom_mem AXP2101_ADDR 0x00 1 ;;
     pmu_status <- eval (index r0 0) ;;
     r1 <- i2c_readfrom_mem AXP2101_ADDR 0x01 1 ;;
     charge_status <- eval (index r1 0) ;;
     bat_v_raw <- i2c_readfrom_mem AXP2101_ADDR 0x34 2 ;;
     raw <- eval (unpack_be16 bat_v_raw) ;;
     let bat_voltage := (float_of_int raw * 0.001)%float in
     pct <- eval (int_of_float ((bat_voltage - 3.0) / 1.2 * float_of_int 100)%float) ;;
     let voltage_percentage := Z.max 0 (Z.min 100 pct) in
     ret (Some {| percentage := voltage_percentage;
                  bat_voltage := round_ndigits bat_voltage 3;
                  charging_state := charge_states (Z.land charge_status 0x07);
                  pmu_status_raw := pmu_status |}))
    (fun _ => ret None).

(** ** SD card and logging *)

(** [init_sd_card] *)
Definition init_sd_card : stmt bool :=
  try_except
    (fs SDCard_init ;;
     fs (os_mount SD_MOUNT_PATH) ;;
     let test_file := (SD_MOUNT_PATH ++ "/test.txt")%string in
     fs (file_open test_file "w") ;;
     fs (file_write test_file "Van Monitor SD Test") ;;
     fs (os_remove test_file) ;;
     ret true)
    (fun _ => ret false).

(** [get_date_string(timestamp)] *)
Definition get_date_string (timestamp : Z) : string :=
  let '(year, month, day) := localtime E timestamp in
  format_0d 4 year ++ "-" ++ format_0d 2 month ++ "-" ++ format_0d 2 day.

(** Lines 462-476: what [cleanup_old_logs] does with one file name. *)
Definition cleanup_file (cutoff_timestamp : Z) (filename : string) : stmt unit :=
  try_except
    (let date_part := slice 8 (String.length filename - 5) filename in
     if (len date_part =? 10) && (count_char "-" date_part =? 2) then
       match split "-" date_part with
       | [year; month; day] =>
           y <- eval (int_of_str year) ;;
           m <- eval (int_of_str month) ;;
           d <- eval (int_of_str day) ;;
           file_timestamp <- eval (mktime E y m d) ;;
           if file_timestamp <? cutoff_timestamp
           then fs (os_remove (SD_MOUNT_PATH ++ "/" ++ filename)%string)
           else ret tt
       | _ => raise (Exn ValueError "need more than 2 values to unpack")
       end
     else ret tt)
    (fun _ => ret tt).

(** [cleanup_old_logs] *)
Definition cleanup_old_logs : stmt unit :=
  current_time <- ticks_ms ;;
  w <- get ;;
  if cleanup_not_due current_time (last_cleanup_time w) then ret tt
  else
    try_except
      (current_timestamp <- time_time ;;
       let cutoff_timestamp := current_timestamp - LOG_RETENTION_DAYS * 86400 in
       emit (os_listdir SD_MOUNT_PATH) ;;
       files <- ask Fs (fs_listdir_at E) ;;
       let log_files :=
         filter (fun f => startswith f "van_log_" && endswith f ".json") files in
       for_each log_files (cleanup_file cutoff_timestamp) ;;
       modify (set_last_cleanup_time current_time))
      (fun _ => ret tt).

(** [is_close_to_home(d) if d.get("gps_fix_valid") else False], with the
    distance function [is_close_to_home] calls as a parameter. *)
Definition close_to_home_if_valid_with
    (distance : float -> float -> float -> float -> result num)
    (d : gps_dict) : stmt bool :=
  if gps_fix_valid d
  then eval (is_close_to_home_with distance (secrets E) d)
  else ret false.

Definition close_to_home_if_valid : gps_dict -> stmt bool :=
  close_to_home_if_valid_with calculate_distance_feet_f.

(** [log_sensor_data] *)
Definition log_sensor_data : stmt unit :=
  current_time <- ticks_ms ;;
  w <- get ;;
  if log_not_due current_time (last_log_time w) then ret tt
  else
    try_except
      (timestamp <- time_time ;;
       let date_str := get_date_string timestamp in
       w <- get ;;
       let sd := sensor_data w in
       close <- close_to_home_if_valid (gps sd) ;;
       let entry := {| log_timestamp := timestamp; log_date := date_str;
                       log_engine := engine sd; log_battery := battery sd;
                       log_wifi := wifi sd; log_gps := gps sd;
                       log_close_to_home := close |} in
       let log_filename := (SD_MOUNT_PATH ++ "/van_log_" ++ date_str ++ ".json")%string in
       logs <- try_except
                 (fs (file_open log_filename "r") ;;
                  emit (ujson_load log_filename) ;;
                  ask Fs (fs_load_at E))
                 (fun _ => ret []) ;;
       let logs := logs ++ [entry] in
       fs (file_open log_filename "w") ;;
       fs (ujson_dump log_filename logs) ;;
       modify (set_last_log_time current_time) ;;
       cleanup_old_logs)
      (fun _ => ret tt).

(** ["\r\n"] *)
Definition crlf : string := String "013" (String "010" EmptyString).

(** [upload_files_ftp] *)
Definition upload_files_ftp : stmt bool :=
  try_except
    (sock None ;;                                   (* import socket *)
     sock None ;;                                   (* socket.socket() *)
     sock (Some (socket_connect (FTP_HOST (secrets E)) 21)) ;;
     _ <- sock_recv_decode ;;
     sock (Some (socket_send ("USER " ++ FTP_USER (secrets E) ++ crlf)%string)) ;;
     _ <- sock_recv_decode ;;
     sock (Some (socket_send ("PASS " ++ FTP_PASS (secrets E) ++ crlf)%string)) ;;
     response <- sock_recv_decode ;;
     (if contains "230" response then
        sock (Some (socket_send ("CWD " ++ FTP_DIR (secrets E) ++ crlf)%string)) ;;
        _ <- sock_recv_decode ;;
        try_except
          (emit (os_listdir SD_MOUNT_PATH) ;;
           _ <- ask Fs (fs_listdir_at E) ;;
           ret tt)
          (fun _ => ret tt)
      else ret tt) ;;
     sock (Some socket_close) ;;
     ret true)
    (fun _ => ret false).

(** ** Network *)

(** Lines 674-679: [while timeout > 0]; [Some true] when it returned. *)
Fixpoint wifi_wait (timeout : nat) : stmt (option bool) :=
  match timeout with
  | O => ret None
  | S timeout' =>
      connected <- sta_isconnected ;;
      if connected then ret (Some true)
      else sleep 1000 ;; wifi_wait timeout'
  end.

(** [check_wifi] *)
Definition check_wifi : stmt bool :=
  returned <- try_except
    (WLAN ;;
     sta_active_on ;;
     connected <- sta_isconnected ;;
     if connected then ret (Some true)
     else
       sta_connect (WIFI_SSID (secrets E)) (WIFI_PASS (secrets E)) ;;
       wifi_wait 10)
    (fun _ => ret None) ;;
  match returned with
  | Some b => ret b
  | None => ret false
  end.

(** ** Power management *)

(** [enter_deep_sleep] *)
Definition enter_deep_sleep : stmt unit :=
  lcd (Lcd_clear 0x0000) ;;
  lcd (Lcd_setTextColor 0xFFFF 0x0000) ;;
  lcd (Lcd_setCursor 80 100) ;;
  lcd (Lcd_print "DEEP SLEEP") ;;
  lcd (Lcd_setCursor 60 120) ;;
  lcd (Lcd_print "ENGINE OFF") ;;
  sleep 1000 ;;
  emit (machine_deepsleep DEEP_SLEEP_INTERVAL) ;;
  fun w => (Halt, w).

(** [handle_shutdown_sequence], with the distance function its proximity
    test calls as a parameter. *)
Definition handle_shutdown_sequence_with
    (distance : float -> float -> float -> float -> result num) : stmt unit :=
  modify (set_is_shutting_down true) ;;
  lcd (Lcd_clear 0x0000) ;;
  lcd (Lcd_setTextColor 0xFFE0 0x0000) ;;
  lcd (Lcd_setCursor 70 80) ;;
  lcd (Lcd_print "SHUTTING DOWN") ;;
  lcd (Lcd_setCursor 60 100) ;;
  lcd (Lcd_print "Checking WiFi...") ;;
  w <- get ;;
  close <- close_to_home_if_valid_with distance (gps (sensor_data w)) ;;
  (if close then
     lcd (Lcd_setCursor 50 120) ;;
     lcd (Lcd_print "Uploading data...") ;;
     connected <- check_wifi ;;
     if connected then
       upload_success <- upload_files_ftp ;;
       (if upload_success then
          lcd (Lcd_setCursor 60 140) ;;
          lcd (Lcd_print "Upload complete")
        else
          lcd (Lcd_setCursor 60 140) ;;
          lcd (Lcd_print "Upload failed")) ;;
       sleep 2000
     else
       lcd (Lcd_setCursor 60 140) ;;
       lcd (Lcd_print "No WiFi") ;;
       sleep 1000
   else
     lcd (Lcd_setCursor 60 120) ;;
     lcd (Lcd_print "Away from home") ;;
     sleep 1000) ;;
  enter_deep_sleep.

(** [handle_shutdown_sequence] *)
Definition handle_shutdown_sequence : stmt unit :=
  handle_shutdown_sequence_with calculate_distance_feet_f.

(** ** Main application *)

(** Line 713: [engine_off_time and ticks_diff(current_time, engine_off_time)
    > SHUTDOWN_DELAY], as a truth value. *)
Definition shutdown_timer_expired (current_time : Z) (engine_off_time : option Z) : bool :=
  match engine_off_time with
  | Some t => truthy_int t && shutdown_delay_passed current_time t
  | None => false
  end.

(** Lines 700-717 of [update_sensors]: sample the engine and track the power
    state; [true] when the shutdown sequence was started (the function then
    returns early). *)
Definition track_power_state (current_time : Z) : stmt bool :=
  w <- get ;;
  let prev_engine_state := engine (sensor_data w) in
  on <- engine_is_on ;;
  modify (set_sensor_data (set_engine on)) ;;
  if on then
    modify (set_engine_off_time None) ;;
    ret false
  else
    w <- get ;;
    if prev_engine_state && negb on then
      modify (set_engine_off_time (Some current_time)) ;;
      ret false
    else if shutdown_timer_expired current_time (engine_off_time w) then
      handle_shutdown_sequence ;;
      ret true
    else ret false.

(** Lines 735-743: the home status and distance printed for a valid fix. *)
Definition show_home_status : stmt unit :=
  w <- get ;;
  let g := gps (sensor_data w) in
  if gps_fix_valid g then
    _ <- eval (is_close_to_home (secrets E) g) ;;
    lat <- eval (getitem "latitude" (latitude g)) ;;
    lon <- eval (getitem "longitude" (longitude g)) ;;
    distance_ft <- eval (calculate_distance_feet_f lat lon
                           (HOME_LAT (secrets E)) (HOME_LON (secrets E))) ;;
    eval (int_check distance_ft)
  else ret tt.

(** Lines 745-761: connect when close to home, else look at the link. *)
Definition refresh_wifi (current_time : Z) : stmt unit :=
  w <- get ;;
  close_to_home <- close_to_home_if_valid (gps (sensor_data w)) ;;
  if close_to_home && wifi_retry_due current_time (last_wifi_attempt w) then
    modify (set_last_wifi_attempt current_time) ;;
    connected <- check_wifi ;;
    modify (set_sensor_data (set_wifi connected))
  else
    WLAN ;;
    active <- sta_active ;;
    connected <- (if active then sta_isconnected else ret false) ;;
    modify (set_sensor_data (set_wifi connected)).

(** Lines 719-766 of [update_sensors]: battery, GPS, Wi-Fi, log. *)
Definition refresh_readings (fuel : nat) (current_time : Z) : stmt unit :=
  b <- read_battery_status ;;
  modify (set_sensor_data (set_battery b)) ;;
  g <- read_gps fuel ;;
  modify (set_sensor_data (set_gps g)) ;;
  show_home_status ;;
  refresh_wifi current_time ;;
  log_sensor_data ;;
  modify (set_sensor_data (set_last_update current_time)).

(** [update_sensors] *)
Definition update_sensors (fuel : nat) : stmt unit :=
  current_time <- ticks_ms ;;
  w <- get ;;
  if sensor_update_not_due current_time (last_update (sensor_data w)) then ret tt
  else
    shutting_down <- track_power_state current_time ;;
    if shutting_down then ret tt
    else refresh_readings fuel current_time.

(** Lines 779-804 of [main]: everything before the monitoring loop. *)
Definition main_startup (fuel : nat) : stmt unit :=
  _ <- init_display ;;
  sd_available <- init_sd_card ;;
  lcd (Lcd_clear 0x0000) ;;
  lcd (Lcd_setTextColor 0xFFFF 0x0000) ;;
  lcd (Lcd_setCursor 100 100) ;;
  lcd (Lcd_print "VAN MONITOR") ;;
  lcd (Lcd_setCursor 110 120) ;;
  lcd (Lcd_print "Starting...") ;;
  (if sd_available then
     lcd (Lcd_setCursor 100 140) ;;
     lcd (Lcd_print "SD: Ready")
   else ret tt) ;;
  sleep 2000 ;;
  update_sensors fuel ;;
  update_display.

(** Lines 811-819: the first [iterations] rounds of [while True]. *)
Fixpoint main_loop (fuel : nat) (iterations : nat) : stmt unit :=
  match iterations with
  | O => ret tt
  | S n =>
      update_sensors fuel ;;
      update_display ;;
      sleep DISPLAY_UPDATE_INTERVAL ;;
      main_loop fuel n
  end.

(** [main], run for [iterations] rounds of its loop. *)
Definition main (fuel : nat) (iterations : nat) : stmt unit :=
  main_startup fuel ;;
  main_loop fuel iterations.

End Program.

(* ================================================================== *)
(** * Reasoning about statements                                        *)
(* ================================================================== *)

(** A statement is [mild] when it ends with a value or an exception, and
    [safe] when it ends with a value: it then neither sleeps nor runs out
    of fuel. *)
Definition mild {S A} (m : M S A) : Prop :=
  forall s, (exists a, fst (m s) = Ret a) \/ (exists e, fst (m s) = Raise e).

Definition safe {S A} (m : M S A) : Prop :=
  forall s, exists a, fst (m s) = Ret a.

(** A statement [keeps] a relation when every run of it, however it ends,
    leaves a state related to the one it started from. *)
Definition keeps {S A} (R : S -> S -> Prop) (m : M S A) : Prop :=
  forall s, R s (snd (m s)).

Definition is_deepsleep (ev : event) : bool :=
  match ev with
  | machine_deepsleep _ => true
  | _ => false
  end.

(** How often the chip was sent to deep sleep. *)
Definition deepsleep_count (evs : list event) : nat :=
  List.length (filter is_deepsleep evs).

(** What an ordinary statement of main.py leaves alone: it only adds to the
    trace, never a deep sleep, and it does not write the power state. *)
Record frame (w w' : world) : Prop := {
  frame_trace : exists evs, trace w' = trace w ++ evs /\ deepsleep_count evs = O;
  frame_engine : engine (sensor_data w') = engine (sensor_data w);
  frame_engine_off_time : engine_off_time w' = engine_off_time w;
  frame_is_shutting_down : is_shutting_down w' = is_shutting_down w
}.

(** The RMC/GGA data gathered so far and the two flags. *)
Definition same_fix (st st' : gps_locals) : Prop :=
  gps_data st' = gps_data st /\
  gprmc_found st' = gprmc_found st /\
  gpgga_found st' = gpgga_found st.

(** The display works: no call of it raises. *)
Definition lcd_ok (E : env) : Prop := forall n, lcd_at E n = Ok tt.

(** The n-th reading of the counter. *)
Definition clock (E : env) (n : nat) : Z := ticks_wrap (ticks_ms_at E n).

(** The events of [enter_deep_sleep]. *)
Definition deep_sleep_events : list event :=
  [Lcd_clear 0x0000; Lcd_setTextColor 0xFFFF 0x0000;
   Lcd_setCursor 80 100; Lcd_print "DEEP SLEEP";
   Lcd_setCursor 60 120; Lcd_print "ENGINE OFF";
   time_sleep 1000; machine_deepsleep DEEP_SLEEP_INTERVAL].

(** Every [readline] made between [w] and [w'] was answered. *)
Definition reads_answered (E : env) (w w' : world) : Prop :=
  forall n, (calls w Uart <= n < calls w' Uart)%nat ->
            exists line, uart_readline_at E n = Ok line.

(** The last [readline] made between [w] and [w'] raised [e]. *)
Definition last_read_raised (E : env) (w w' : world) (e : exn) : Prop :=
  (calls w Uart < calls w' Uart)%nat /\
  uart_readline_at E (pred (calls w' Uart)) = Err e.

(** A statement of the line handler [skips] cleanly when a run that ends
    with an exception has left the data gathered so far as it was. *)
Definition skips {A} (m : M gps_locals A) : Prop :=
  forall st e, fst (m st) = Raise e -> same_fix st (snd (m st)).

(** The fields of a split sentence, and the call of [parse_rmc] lines
    291-321 make on an RMC sentence that passed the tests of lines 290 and
    299. *)
Definition field (parts : list string) (i : nat) : string := nth i parts "".

Definition parse_rmc_line (line_str : string) : result (option rmc_fix) :=
  let parts := split "," line_str in
  parse_rmc (field parts 1) (field parts 3) (field parts 4)
    (field parts 5) (field parts 6) (field parts 7).

(** What the handling of a line can do to the data gathered so far: leave
    it as it was, take over a whole RMC fix whose fields all parsed, or
    take over the satellite count of a GGA sentence. *)
Inductive line_effect (line : string) (st st' : gps_locals) : Prop :=
| effect_none :
    same_fix st st' -> line_effect line st st'
| effect_rmc (s : string) (f : rmc_fix) :
    decode_ascii line = Ok s ->
    parse_rmc_line (strip s) = Ok (Some f) ->
    gps_data st' = update_fix f (gps_data st) ->
    gprmc_found st' = true ->
    gpgga_found st' = gpgga_found st ->
    line_effect line st st'
| effect_gga (s : string) (sat_count : Z) :
    decode_ascii line = Ok s ->
    int_of_str (field (split "," (strip s)) 7) = Ok sat_count ->
    gps_data st' = set_satellites sat_count (gps_data st) ->
    gprmc_found st' = gprmc_found st ->
    gpgga_found st' = true ->
    line_effect line st st'.

(** The [error] key of the dictionary being built. *)
Definition same_error (st st' : gps_locals) : Prop :=
  error (gps_data st') = error (gps_data st).

(** The power state of the specification, read off the globals.  The
    program also has a state the specification does not name: engine off
    with no timer running (the state after reset). *)
Inductive power_state :=
| EngineOn
| EngineOffTimer (started_at : Z)
| ShuttingDown
| EngineOffNoTimer.

Definition power_state_of (w : world) : power_state :=
  if is_shutting_down w then ShuttingDown
  else if engine (sensor_data w) then EngineOn
  else match engine_off_time w with
       | Some t => EngineOffTimer t
       | None => EngineOffNoTimer
       end.

(** The sample [engine_is_on] takes when called in [w]: bit 5 of the status
    byte, false when the read fails. *)
Definition engine_sample (E : env) (w : world) : bool :=
  match i2c_readfrom_mem_at E (calls w I2c) AXP2101_ADDR 0x00 1 with
  | Ok (b0 :: _) => truthy_int (Z.land b0 0x20)
  | _ => false
  end.

(** A tick of [update_sensors] that takes a fresh sample: the reading of
    the counter it starts with, and whether the update is due. *)
Definition tick_time (E : env) (w : world) : Z := clock E (calls w Clock).

Definition tick_due (E : env) (w : world) : Prop :=
  sensor_update_not_due (tick_time E w) (last_update (sensor_data w)) = false.

(** Attempts to write a daily log file. *)
Definition is_log_write (ev : event) : bool :=
  match ev with
  | file_open path mode =>
      String.eqb mode "w" && startswith path "/sd/van_log_"
  | _ => false
  end.

Definition log_write_attempts (evs : list event) : nat :=
  List.length (filter is_log_write evs).

(* ================================================================== *)
(** * Scenarios: concrete inputs the properties are evaluated on        *)
(* ================================================================== *)

(** A valid fix on the equator, in the Gulf of Guinea. *)
Definition equator_fix : gps_dict := {|
  gps_fix_valid := true; satellites := 7;
  latitude := Some 0%float; longitude := Some 6.5%float;
  speed := Some 0%float; time := Some "12:00:00"; error := None
|}.

(** A home on the prime meridian (51 deg 30' N, 0 deg E, in London). *)
Definition meridian_home : local_secrets := {|
  WIFI_SSID := WIFI_SSID fallback_secrets;
  WIFI_PASS := WIFI_PASS fallback_secrets;
  HOME_LAT := 51.5%float;
  HOME_LON := 0%float;
  FTP_HOST := FTP_HOST fallback_secrets;
  FTP_USER := FTP_USER fallback_secrets;
  FTP_PASS := FTP_PASS fallback_secrets;
  FTP_DIR := FTP_DIR fallback_secrets
|}.

(** The RMC sentence a receiver standing at that home sends. *)
Definition meridian_sentence : string :=
  "$GPRMC,120000,A,5130.000,N,00000.000,E,000.0,000.0,010126,000.0,E,A*1B".

Definition meridian_fix : gps_dict := {|
  gps_fix_valid := true; satellites := 0;
  latitude := Some 51.5%float; longitude := Some 0%float;
  speed := Some 0%float; time := Some "12:00:00"; error := None
|}.

(** A bench around the device.  The clock reads [clock n] at its n-th
    reading; the UART answers [uart n] to its n-th [readline]; the power
    chip reports no external power and an empty battery; the Wi-Fi station
    is idle and reaches nothing; an SD card is in the slot or not; the
    display works. *)
Definition bench (cfg : local_secrets) (clock : nat -> Z)
    (uart : nat -> result (option string)) (sd_present : bool) : env := {|
  secrets := cfg;
  ticks_ms_at := clock;
  time_at := fun _ => 820454400;
  localtime := fun _ => (2026, 1, 1);
  mktime := fun _ _ _ => Ok 820454400;
  uart_readline_at := uart;
  i2c_readfrom_mem_at := fun _ _ _ n => Ok (repeat 0 (Z.to_nat n));
  wlan_cmd_at := fun _ => Ok tt;
  wlan_query_at := fun _ => Ok false;
  fs_cmd_at := fun _ =>
    if sd_present then Ok tt else Err (Exn OSError "[Errno 19] ENODEV");
  fs_load_at := fun _ =>
    if sd_present then Ok [] else Err (Exn OSError "[Errno 19] ENODEV");
  fs_listdir_at := fun _ =>
    if sd_present then Ok [] else Err (Exn OSError "[Errno 19] ENODEV");
  sock_cmd_at := fun _ => Err (Exn OSError "[Errno 113] EHOSTUNREACH");
  sock_recv_at := fun _ => Err (Exn OSError "[Errno 113] EHOSTUNREACH");
  lcd_at := fun _ => Ok tt
|}.

(** A receiver that sends one sentence, then nothing, while the clock
    advances one second per reading: the sentence arrives in the first
    second of the three-second window of [read_gps]. *)
Definition one_sentence (sentence : string) : env :=
  bench fallback_secrets (fun n => 1000 * Z.of_nat n)
    (fun n => match n with
              | O => Ok (Some (sentence ++ crlf)%string)
              | _ => Ok None
              end)
    true.

(** The RMC sentence of the specification: 12 comma-separated fields. *)
Definition rmc_sentence_12 : string :=
  "$GPRMC,123519,A,4807.038,N,01131.000,E,022.4,084.4,230394,003.1,W*6A".

(** The same fix as an NMEA 2.3 receiver sends it, with the mode field:
    13 fields. *)
Definition rmc_sentence_13 : string :=
  "$GPRMC,123519,A,4807.038,N,01131.000,E,022.4,084.4,230394,003.1,W,A*07".

(** The fix the specification expects from its sentence: valid, latitude
    about 48.1173, longitude about 11.5167, time 12:35:19, and a speed that
    is 22.4 knots in km/h, not clamped to zero. *)
Definition decodes_as_specified (d : gps_dict) : Prop :=
  gps_fix_valid d = true /\
  (exists lat, latitude d = Some lat /\
     (PrimFloat.abs (lat - 48.1173) <? 0.0001)%float = true) /\
  (exists lon, longitude d = Some lon /\
     (PrimFloat.abs (lon - 11.5167) <? 0.0001)%float = true) /\
  time d = Some "12:35:19" /\
  (exists v, speed d = Some v /\ v = (22.4 * 1.852)%float /\ (1.0 <? v)%float = true).

(** What [read_gps] returns for the 13-field sentence. *)
Definition rmc_fix_13 : gps_dict := {|
  gps_fix_valid := true; satellites := 0;
  latitude := Some 48.1173%float; longitude := Some 11.516666666666667%float;
  speed := Some 41.4848%float; time := Some "12:35:19"; error := None
|}.

(** The specification's wording of the speed clamp: below 1.0 km/h the
    speed becomes 0.0, at 1.0 km/h or above it is kept. *)
Definition clamped_as_specified (speed_kmh speed : float) : Prop :=
  ((speed_kmh <? 1.0)%float = true -> speed = 0.0%float) /\
  ((1.0 <=? speed_kmh)%float = true -> speed = speed_kmh).

(** A speed field whose conversion is exactly 1.0 km/h. *)
Definition boundary_knots : string := "0.5399568034557235".

Definition boundary_sentence : string :=
  "$GPRMC,123519,A,4807.038,N,01131.000,E,0.5399568034557235,084.4,230394,003.1,W,A*3A".

(** The van parked at the fallback home position with a valid fix. *)
Definition home_fix : gps_dict := {|
  gps_fix_valid := true; satellites := 9;
  latitude := Some 40.7128%float; longitude := Some (-74.0060)%float;
  speed := Some 0%float; time := Some "18:30:00"; error := None
|}.

Definition parked_at_home : world :=
  set_sensor_data (set_gps home_fix) initial_world.

(** A C library for small angles: on finite arguments the first term of each
    series, sin x as x, cos x as 1 and atan2 y x as y / x; the sine and the
    cosine of an infinity are NaN, as the C standard has them. *)
Definition small_angle_libm : Binary64.libm := {|
  Binary64.libm_sin := fun x => if is_infinity x then nan else x;
  Binary64.libm_cos := fun x => if is_infinity x then nan else 1%float;
  Binary64.libm_atan2 := fun y x => (y / x)%float
|}.

(** A C library that is correctly rounded at the arguments the distance
    from (-2.5, -1.0) to (2.5, 179.0) needs: the sine of 0.04363323129985824
    (2.5 degrees) and of 1.5707963267948966 (90 degrees), and the cosine of
    0.04363323129985824 and of its opposite. *)
Definition antipodes_libm : Binary64.libm := {|
  Binary64.libm_sin := fun x =>
    if (x =? 0.04363323129985824)%float then 0.043619387365336%float
    else if (x =? 1.5707963267948966)%float then 1%float
    else x;
  Binary64.libm_cos := fun x =>
    if (abs x =? 0.04363323129985824)%float then 0.9990482215818578%float
    else 1%float;
  Binary64.libm_atan2 := fun y x => (y / x)%float
|}.

(** A distance function that answers 0 ft: the van stands at home. *)
Definition distance_at_home : float -> float -> float -> float -> result num :=
  fun _ _ _ _ => Ok (Real 0).

(** No receiver, nothing on the network, the clock one second per reading. *)
Definition idle_bench : env :=
  bench fallback_secrets (fun n => 1000 * Z.of_nat n) (fun _ => Ok None) true.

(** The same bench with the station associated to the home network, the
    FTP host still out of reach: the upload fails. *)
Definition upload_failing_bench : env := {|
  secrets := secrets idle_bench;
  ticks_ms_at := ticks_ms_at idle_bench;
  time_at := time_at idle_bench;
  localtime := localtime idle_bench;
  mktime := mktime idle_bench;
  uart_readline_at := uart_readline_at idle_bench;
  i2c_readfrom_mem_at := i2c_readfrom_mem_at idle_bench;
  wlan_cmd_at := wlan_cmd_at idle_bench;
  wlan_query_at := fun _ => Ok true;
  fs_cmd_at := fs_cmd_at idle_bench;
  fs_load_at := fs_load_at idle_bench;
  fs_listdir_at := fs_listdir_at idle_bench;
  sock_cmd_at := sock_cmd_at idle_bench;
  sock_recv_at := sock_recv_at idle_bench;
  lcd_at := lcd_at idle_bench
|}.

(** The engine is running and the counter is about to wrap: the last sensor
    update was 5 s before the wrap. *)
Definition engine_running : world :=
  set_sensor_data (fun d => set_last_update (2 ^ 30 - 5000) (set_engine true d))
    initial_world.

(** The engine has just been switched off (the power chip reports no
    external power).  The first reading of the counter is [first]; the
    following ones are 36 s, 37 s, ... after the wrap. *)
Definition engine_off_bench (first : Z) : env :=
  bench fallback_secrets
    (fun n => match n with
              | O => first
              | S _ => 35000 + 1000 * Z.of_nat n
              end)
    (fun _ => Ok None) true.

(** A device started without an SD card: every filesystem call raises.
    The counter reads 2 s at the first reading and 10 s more at each next. *)
Definition no_sd_card : env :=
  bench fallback_secrets (fun n => 2000 + 10000 * Z.of_nat n) (fun _ => Ok None) false.

(* ================================================================== *)
(** * Further scenarios                                                 *)
(* ================================================================== *)

(** The bench with external power present: bit 5 of every byte the power
    chip returns is set. *)
Definition engine_on_bench (first : Z) : env := {|
  secrets := secrets idle_bench;
  ticks_ms_at := ticks_ms_at (engine_off_bench first);
  time_at := time_at idle_bench;
  localtime := localtime idle_bench;
  mktime := mktime idle_bench;
  uart_readline_at := uart_readline_at idle_bench;
  i2c_readfrom_mem_at := fun _ _ _ n => Ok (repeat 0x20 (Z.to_nat n));
  wlan_cmd_at := wlan_cmd_at idle_bench;
  wlan_query_at := wlan_query_at idle_bench;
  fs_cmd_at := fs_cmd_at idle_bench;
  fs_load_at := fs_load_at idle_bench;
  fs_listdir_at := fs_listdir_at idle_bench;
  sock_cmd_at := sock_cmd_at idle_bench;
  sock_recv_at := sock_recv_at idle_bench;
  lcd_at := lcd_at idle_bench
|}.

(** The engine was switched off at the reading 1000 and the shutdown timer
    runs; the last sensor update was then. *)
Definition timer_running : world :=
  set_engine_off_time (Some 1000)
    (set_sensor_data (set_last_update 1000) initial_world).

(** The bench with a battery at 3.7 V on the power chip: register 0x34
    reads 3700 (mV, big-endian), the charger reports constant current. *)
Definition battery_bench : env := {|
  secrets := secrets idle_bench;
  ticks_ms_at := ticks_ms_at idle_bench;
  time_at := time_at idle_bench;
  localtime := localtime idle_bench;
  mktime := mktime idle_bench;
  uart_readline_at := uart_readline_at idle_bench;
  i2c_readfrom_mem_at := fun _ _ reg n =>
    Ok (if reg =? 0x34 then [14; 116] else if reg =? 0x01 then [2] else [0x20]);
  wlan_cmd_at := wlan_cmd_at idle_bench;
  wlan_query_at := wlan_query_at idle_bench;
  fs_cmd_at := fs_cmd_at idle_bench;
  fs_load_at := fs_load_at idle_bench;
  fs_listdir_at := fs_listdir_at idle_bench;
  sock_cmd_at := sock_cmd_at idle_bench;
  sock_recv_at := sock_recv_at idle_bench;
  lcd_at := lcd_at idle_bench
|}.

(** Lines 385-388 of [read_battery_status]: the percentage computed from
    the raw register value (mV). *)
Definition voltage_percentage_of (raw : Z) : result Z :=
  let bat_voltage := (float_of_int raw * 0.001)%float in
  rbind (int_of_float ((bat_voltage - 3.0) / 1.2 * float_of_int 100)%float)
    (fun pct => Ok (Z.max 0 (Z.min 100 pct))).

(** The percentage is the exact one, [(raw - 3000) / 12] rounded down, or
    one point below it. *)
Definition percentage_within_one (raw : Z) : bool :=
  match voltage_percentage_of raw with
  | Ok p => ((raw - 3000) / 12 - 1 <=? p) && (p <=? (raw - 3000) / 12)
  | Err _ => false
  end.

(** The milliseconds a trace spends in [time.sleep]. *)
Definition sleep_ms (ev : event) : Z :=
  match ev with
  | time_sleep ms => ms
  | _ => 0
  end.

Definition time_slept (evs : list event) : Z :=
  fold_right (fun ev acc => sleep_ms ev + acc) 0 evs.

(** A statement [only_adds] events of a kind when every run of it leaves
    the trace it found, followed by events of that kind. *)
Definition only_adds (P : event -> bool) (w w' : world) : Prop :=
  exists evs, trace w' = trace w ++ evs /\ forallb P evs = true.

(** The events of an FTP session as [upload_files_ftp] holds it: the
    connection to port 21, the commands USER, PASS and CWD, a listing of the
    card, and the close. *)
Definition ftp_session_event (cfg : local_secrets) (ev : event) : bool :=
  match ev with
  | socket_connect host port => String.eqb host (FTP_HOST cfg) && (port =? 21)
  | socket_send data =>
      String.eqb data ("USER " ++ FTP_USER cfg ++ crlf)
      || String.eqb data ("PASS " ++ FTP_PASS cfg ++ crlf)
      || String.eqb data ("CWD " ++ FTP_DIR cfg ++ crlf)
  | os_listdir path => String.eqb path SD_MOUNT_PATH
  | socket_close => true
  | _ => false
  end.

(** An FTP server that answers every command and rejects the login. *)
Definition login_rejected_bench : env := {|
  secrets := secrets idle_bench;
  ticks_ms_at := ticks_ms_at idle_bench;
  time_at := time_at idle_bench;
  localtime := localtime idle_bench;
  mktime := mktime idle_bench;
  uart_readline_at := uart_readline_at idle_bench;
  i2c_readfrom_mem_at := i2c_readfrom_mem_at idle_bench;
  wlan_cmd_at := wlan_cmd_at idle_bench;
  wlan_query_at := fun _ => Ok true;
  fs_cmd_at := fs_cmd_at idle_bench;
  fs_load_at := fs_load_at idle_bench;
  fs_listdir_at := fs_listdir_at idle_bench;
  sock_cmd_at := fun _ => Ok tt;
  sock_recv_at := fun n =>
    Ok (match n with
        | 3%nat => "220 FTP server ready"
        | 5%nat => "331 Password required"
        | _ => "530 Login incorrect"
        end);
  lcd_at := lcd_at idle_bench
|}.

(** The events of the shutdown sequence away from home, before the deep
    sleep. *)
Definition away_from_home_events : list event :=
  [Lcd_clear 0x0000; Lcd_setTextColor 0xFFE0 0x0000;
   Lcd_setCursor 70 80; Lcd_print "SHUTTING DOWN";
   Lcd_setCursor 60 100; Lcd_print "Checking WiFi...";
   Lcd_setCursor 60 120; Lcd_print "Away from home";
   time_sleep 1000].

(** The bench with a Wi-Fi driver out of order: every call of the station
    raises. *)
Definition wlan_failing_bench : env := {|
  secrets := secrets idle_bench;
  ticks_ms_at := ticks_ms_at idle_bench;
  time_at := time_at idle_bench;
  localtime := localtime idle_bench;
  mktime := mktime idle_bench;
  uart_readline_at := uart_readline_at idle_bench;
  i2c_readfrom_mem_at := i2c_readfrom_mem_at idle_bench;
  wlan_cmd_at := fun _ => Err (Exn OSError "Wifi Internal Error");
  wlan_query_at := fun _ => Err (Exn OSError "Wifi Internal Error");
  fs_cmd_at := fs_cmd_at idle_bench;
  fs_load_at := fs_load_at idle_bench;
  fs_listdir_at := fs_listdir_at idle_bench;
  sock_cmd_at := sock_cmd_at idle_bench;
  sock_recv_at := sock_recv_at idle_bench;
  lcd_at := lcd_at idle_bench
|}.

(** A dictionary as [read_gps] can return it: the position keys are present
    exactly when the fix is valid, and the satellite count is not negative. *)
Definition fix_complete (d : gps_dict) : Prop :=
  (if gps_fix_valid d
   then latitude d <> None /\ longitude d <> None /\ speed d <> None /\ time d <> None
   else latitude d = None /\ longitude d = None /\ speed d = None /\ time d = None)
  /\ 0 <= satellites d.

(** [fix_complete] is kept from one state of the read loop to the next. *)
Definition stays_complete (st st' : gps_locals) : Prop :=
  fix_complete (gps_data st) -> fix_complete (gps_data st').

(** An RMC sentence with status V (receiver warning), 13 fields. *)
Definition rmc_sentence_void : string :=
  "$GPRMC,123519,V,4807.038,N,01131.000,E,022.4,084.4,230394,003.1,W,N*13".

(** A corrupted RMC sentence: the minutes of the latitude read [nan]. *)
Definition rmc_sentence_nan : string :=
  "$GPRMC,123519,A,48nan,N,01131.000,E,022.4,084.4,230394,003.1,W,A*07".

(** The fix [read_gps] hands back for that sentence. *)
Definition nan_fix : gps_dict :=
  match fst (read_gps (one_sentence rmc_sentence_nan) 10 initial_world) with
  | Ret d => d
  | _ => no_fix
  end.

(** The engine runs, and the receiver sends the corrupted sentence.  The
    counter reads 6 s at the first reading and 1 s more at each next. *)
Definition nan_bench : env := {|
  secrets := secrets idle_bench;
  ticks_ms_at := fun n => 6000 + 1000 * Z.of_nat n;
  time_at := time_at idle_bench;
  localtime := localtime idle_bench;
  mktime := mktime idle_bench;
  uart_readline_at := uart_readline_at (one_sentence rmc_sentence_nan);
  i2c_readfrom_mem_at := fun _ _ _ n => Ok (repeat 0x20 (Z.to_nat n));
  wlan_cmd_at := wlan_cmd_at idle_bench;
  wlan_query_at := wlan_query_at idle_bench;
  fs_cmd_at := fs_cmd_at idle_bench;
  fs_load_at := fs_load_at idle_bench;
  fs_listdir_at := fs_listdir_at idle_bench;
  sock_cmd_at := sock_cmd_at idle_bench;
  sock_recv_at := sock_recv_at idle_bench;
  lcd_at := lcd_at idle_bench
|}.

(** [int(NaN)] *)
Definition nan_to_int_error : exn :=
  Exn ValueError "cannot convert float NaN to integer".

(** What [cleanup_old_logs] may do to the card: list it, and remove files
    named [van_log_*.json]. *)
Definition cleanup_event (ev : event) : bool :=
  match ev with
  | os_listdir path => String.eqb path SD_MOUNT_PATH
  | os_remove path => startswith path "/sd/van_log_" && endswith path ".json"
  | _ => false
  end.

(** What a run of the cleanup leaves alone. *)
Definition cleans (w w' : world) : Prop :=
  last_log_time w' = last_log_time w /\
  sensor_data w' = sensor_data w /\
  exists evs, trace w' = trace w ++ evs /\ forallb cleanup_event evs = true.

(** The file [log_sensor_data] writes for the date of [timestamp]. *)
Definition log_filename_of (E : env) (timestamp : Z) : string :=
  SD_MOUNT_PATH ++ "/van_log_" ++ get_date_string E timestamp ++ ".json".

(** The entry [log_sensor_data] builds when called in [w], given the
    answer of the proximity test. *)
Definition entry_of (E : env) (w : world) (close : bool) : log_entry := {|
  log_timestamp := time_at E (calls w Rtc);
  log_date := get_date_string E (time_at E (calls w Rtc));
  log_engine := engine (sensor_data w);
  log_battery := battery (sensor_data w);
  log_wifi := wifi (sensor_data w);
  log_gps := gps (sensor_data w);
  log_close_to_home := close
|}.

(** What [ujson.load] hands back to [log_sensor_data] called in [w]; the
    [except] of lines 517-519 turns a failure into the empty list. *)
Definition loaded_logs (E : env) (w : world) : list log_entry :=
  match fs_load_at E (S (calls w Fs)) with
  | Ok logs => logs
  | Err _ => []
  end.

(** A card that works, holding a log file of today that does not parse. *)
Definition corrupt_log_bench : env := {|
  secrets := secrets idle_bench;
  ticks_ms_at := fun n => 61000 + 1000 * Z.of_nat n;
  time_at := time_at idle_bench;
  localtime := localtime idle_bench;
  mktime := mktime idle_bench;
  uart_readline_at := uart_readline_at idle_bench;
  i2c_readfrom_mem_at := i2c_readfrom_mem_at idle_bench;
  wlan_cmd_at := wlan_cmd_at idle_bench;
  wlan_query_at := wlan_query_at idle_bench;
  fs_cmd_at := fun _ => Ok tt;
  fs_load_at := fun _ => Err (Exn ValueError "syntax error in JSON");
  fs_listdir_at := fun _ => Ok ["van_log_2025-11-30.json"; "notes.txt"];
  sock_cmd_at := sock_cmd_at idle_bench;
  sock_recv_at := sock_recv_at idle_bench;
  lcd_at := lcd_at idle_bench
|}.

(** A field of the date in a log file's name: [n] printed with [width]
    digits has that width, holds no dash, and reads back as [n]. *)
Definition date_field_ok (width : nat) (n : Z) : bool :=
  let s := format_0d width n in
  (String.length s =? width)%nat
  && (count_char "-" s =? 0)
  && match int_of_str s with
     | Ok v => v =? n
     | Err _ => false
     end.

(** What [cleanup_file] does with the file of a day whose midnight is
    [file_time] (or for which [mktime] raises). *)
Definition removed_if_old (cutoff : Z) (path : string) (file_time : result Z)
    (w : world) : outcome unit * world :=
  match file_time with
  | Ok file_timestamp =>
      if file_timestamp <? cutoff
      then (Ret tt, called Fs (logged (os_remove path) w))
      else (Ret tt, w)
  | Err _ => (Ret tt, w)
  end.

(* ================================================================== *)
(** * Properties                                                        *)
(* ================================================================== *)

(** ** Statements *)

Section StmtFacts.

Context {S : Type}.

Lemma bind_run {A B} (m : M S A) (k : A -> M S B) (s s' : S) (a : A) :
  m s = (Ret a, s') -> bind m k s = k a s'.
Proof. intros H. unfold bind. rewrite H. reflexivity. Qed.

Lemma bind_raise {A B} (m : M S A) (k : A -> M S B) (s s' : S) (e : exn) :
  m s = (Raise e, s') -> bind m k s = (Raise e, s').
Proof. intros H. unfold bind. rewrite H. reflexivity. Qed.

Lemma safe_mild {A} (m : M S A) : safe m -> mild m.
Proof. intros H s. left. apply H. Qed.

Lemma safe_ret {A} (a : A) : safe (ret a : M S A).
Proof. intros s. exists a. reflexivity. Qed.

Lemma mild_ret {A} (a : A) : mild (ret a : M S A).
Proof. apply safe_mild, safe_ret. Qed.

Lemma mild_raise {A} (e : exn) : mild (raise e : M S A).
Proof. intros s. right. exists e. reflexivity. Qed.

Lemma mild_eval {A} (r : result A) : mild (eval r : M S A).
Proof. destruct r; [apply mild_ret | apply mild_raise]. Qed.

Lemma safe_get : safe (get : M S S).
Proof. intros s. exists s. reflexivity. Qed.

Lemma safe_modify (f : S -> S) : safe (modify f).
Proof. intros s. exists tt. reflexivity. Qed.

Lemma safe_bind {A B} (m : M S A) (k : A -> M S B) :
  safe m -> (forall a, safe (k a)) -> safe (bind m k).
Proof.
  intros Hm Hk s. unfold bind.
  destruct (Hm s) as [a Ha]. destruct (m s) as [o s']. cbn in Ha. subst o.
  apply Hk.
Qed.

Lemma mild_bind {A B} (m : M S A) (k : A -> M S B) :
  mild m -> (forall a, mild (k a)) -> mild (bind m k).
Proof.
  intros Hm Hk s. unfold bind.
  destruct (Hm s) as [[a Ha] | [e He]]; destruct (m s) as [o s']; cbn in *; subst o.
  - apply Hk.
  - right. exists e. reflexivity.
Qed.

Lemma safe_try_except {A} (m : M S A) (h : exn -> M S A) :
  mild m -> (forall e, safe (h e)) -> safe (try_except m h).
Proof.
  intros Hm Hh s. unfold try_except.
  destruct (Hm s) as [[a Ha] | [e He]]; destruct (m s) as [o s']; cbn in *; subst o.
  - exists a. reflexivity.
  - apply Hh.
Qed.

Lemma mild_try_except {A} (m : M S A) (h : exn -> M S A) :
  mild m -> (forall e, mild (h e)) -> mild (try_except m h).
Proof.
  intros Hm Hh s. unfold try_except.
  destruct (Hm s) as [[a Ha] | [e He]]; destruct (m s) as [o s']; cbn in *; subst o.
  - left. exists a. reflexivity.
  - apply Hh.
Qed.

Lemma mild_try_except_in {A} (cs : list exn_class) (m : M S A) (h : exn -> M S A) :
  mild m -> (forall e, mild (h e)) -> mild (try_except_in cs m h).
Proof.
  intros Hm Hh. apply mild_try_except; [exact Hm |].
  intros e. destruct (existsb (isinstance e) cs); [apply Hh | apply mild_raise].
Qed.

Context (R : S -> S -> Prop) `{!PreOrder R}.

Lemma keeps_ret {A} (a : A) : keeps R (ret a : M S A).
Proof. intros s. reflexivity. Qed.

Lemma keeps_raise {A} (e : exn) : keeps R (raise e : M S A).
Proof. intros s. reflexivity. Qed.

Lemma keeps_eval {A} (r : result A) : keeps R (eval r : M S A).
Proof. destruct r; [apply keeps_ret | apply keeps_raise]. Qed.

Lemma keeps_get : keeps R (get : M S S).
Proof. intros s. reflexivity. Qed.

Lemma keeps_modify (f : S -> S) : (forall s, R s (f s)) -> keeps R (modify f).
Proof. intros H s. apply H. Qed.

Lemma keeps_bind {A B} (m : M S A) (k : A -> M S B) :
  keeps R m -> (forall a, keeps R (k a)) -> keeps R (bind m k).
Proof.
  intros Hm Hk s. unfold bind. specialize (Hm s).
  destruct (m s) as [[a | e | |] s']; cbn in *; try exact Hm.
  transitivity s'; [exact Hm | apply Hk].
Qed.

Lemma keeps_try_except {A} (m : M S A) (h : exn -> M S A) :
  keeps R m -> (forall e, keeps R (h e)) -> keeps R (try_except m h).
Proof.
  intros Hm Hh s. unfold try_except. specialize (Hm s).
  destruct (m s) as [[a | e | |] s']; cbn in *; try exact Hm.
  transitivity s'; [exact Hm | apply Hh].
Qed.

Lemma keeps_try_except_in {A} (cs : list exn_class) (m : M S A) (h : exn -> M S A) :
  keeps R m -> (forall e, keeps R (h e)) -> keeps R (try_except_in cs m h).
Proof.
  intros Hm Hh. apply keeps_try_except; [exact Hm |].
  intros e. destruct (existsb (isinstance e) cs); [apply Hh | apply keeps_raise].
Qed.

End StmtFacts.

(** ** The runtime model on known values *)

Example float_of_str_examples :
  float_of_str "022.4" = Ok 22.4%float /\
  float_of_str "07.038" = Ok 7.038%float /\
  float_of_str " -1.5e3 " = Ok (-1500)%float /\
  float_of_str ".5" = Ok 0.5%float /\
  float_of_str "5." = Ok 5%float /\
  float_of_str "INF" = Ok PrimFloat.infinity /\
  float_of_str "1e400" = Ok PrimFloat.infinity /\
  float_of_str "2.4703282292062327e-324" = Ok 0%float /\
  float_of_str "2.4703282292062328e-324" = Ok 4.9406564584124654e-324%float /\
  float_of_str "9007199254740993" = Ok 9007199254740992%float /\
  float_of_str "9007199254740995" = Ok 9007199254740996%float /\
  float_of_str "2_2.4" = Ok 22.4%float /\
  float_of_str "1_000.5e1_0" = Ok 1000.5e10%float /\
  float_of_str "" = Err (Exn ValueError "could not convert string to float") /\
  float_of_str "_1" = Err (Exn ValueError "could not convert string to float") /\
  float_of_str "1_" = Err (Exn ValueError "could not convert string to float") /\
  float_of_str "1__0" = Err (Exn ValueError "could not convert string to float") /\
  float_of_str "1_.5" = Err (Exn ValueError "could not convert string to float") /\
  float_of_str "in_f" = Err (Exn ValueError "could not convert string to float") /\
  float_of_str "1.2.3" = Err (Exn ValueError "could not convert string to float").
Proof. repeat split; vm_compute; reflexivity. Qed.

Example str_examples :
  split "," "a,b,,c" = ["a"; "b"; ""; "c"] /\
  split "," "" = [""] /\
  strip "  $GP
" = "$GP" /\
  slice 8 (String.length "van_log_2026-01-01.json" - 5) "van_log_2026-01-01.json"
    = "2026-01-01" /\
  format_0d 2 7 = "07" /\
  int_of_str " -20_5 " = Ok (-205) /\
  int_of_str "20__5" = Err (Exn ValueError "invalid literal for int()") /\
  int_of_str "_5" = Err (Exn ValueError "invalid literal for int()") /\
  int_of_float (-250.7)%float = Ok (-250).
Proof. repeat split; vm_compute; reflexivity. Qed.

Example round_examples :
  round_ndigits (float_of_int 1005 * 0.001) 3 = 1.005%float /\
  (float_of_int 1005 * 0.001 =? 1.005)%float = false /\
  round_ndigits (float_of_int 65535 * 0.001) 3 = 65.535%float /\
  round_ndigits 2.675 2 = 2.67%float /\
  round_ndigits 0.0005 3 = 0.001%float /\
  round_ndigits 1.0005 3 = 1%float /\
  round_ndigits 2.5 0 = 2%float /\
  round_ndigits 3.5 0 = 4%float /\
  round_ndigits (-0.0001) 3 = (-0)%float /\
  round_ndigits 1e300 3 = 1e300%float /\
  round_ndigits PrimFloat.infinity 3 = PrimFloat.infinity.
Proof. repeat split; vm_compute; reflexivity. Qed.

(** ** Elapsed time on the wrapping counter *)

Section TicksFacts.

Local Open Scope Z_scope.

Lemma half_period (W : Z) :
  1 <= W -> period W = 2 * (period W / 2) /\ period W / 2 = 2 ^ (W - 1).
Proof.
  intros HW. unfold period.
  assert (H : 2 ^ W = 2 ^ (W - 1) * 2).
  { replace W with (Z.succ (W - 1)) at 1 by lia.
    rewrite Z.pow_succ_r by lia. lia. }
  rewrite H, Z.div_mul by lia. lia.
Qed.

(** The signed difference recovers every elapsed time below half the
    period, whatever the counter read before and whether it wrapped. *)
Lemma ticks_diff_w_elapsed (W last d : Z) :
  1 <= W -> 0 <= d < 2 ^ (W - 1) ->
  ticks_diff_w W (wrap W (last + d)) last = d.
Proof.
  intros HW Hd. unfold ticks_diff_w, wrap.
  destruct (half_period W HW) as [HP HH].
  assert (0 < period W / 2) by (rewrite HH; apply Z.pow_pos_nonneg; lia).
  replace ((last + d) mod period W - last + period W / 2)
    with ((last + d) mod period W + (period W / 2 - last)) by lia.
  rewrite Zplus_mod_idemp_l.
  replace (last + d + (period W / 2 - last)) with (d + period W / 2) by lia.
  rewrite Z.mod_small by lia. lia.
Qed.

Lemma ticks_diff_elapsed (last d : Z) :
  0 <= d < 2 ^ 29 -> ticks_diff (ticks_wrap (last + d)) last = d.
Proof.
  intros Hd. unfold ticks_diff, ticks_wrap.
  apply ticks_diff_w_elapsed; unfold TICKS_BITS; [lia | exact Hd].
Qed.

(** Read with the modulus in place of the bit width, the same expression
    is one step back, not forward. *)
Remark ticks_diff_w_one_before (W t0 : Z) :
  1 <= W -> ticks_diff_w W (wrap W (t0 + period W - 1)) t0 = -1.
Proof.
  intros HW. unfold ticks_diff_w, wrap.
  destruct (half_period W HW) as [HP HH].
  assert (0 < period W / 2) by (rewrite HH; apply Z.pow_pos_nonneg; lia).
  replace ((t0 + period W - 1) mod period W - t0 + period W / 2)
    with ((t0 + period W - 1) mod period W + (period W / 2 - t0)) by lia.
  rewrite Zplus_mod_idemp_l.
  replace (t0 + period W - 1 + (period W / 2 - t0))
    with (period W / 2 - 1 + 1 * period W) by lia.
  rewrite Z.mod_add by lia.
  rewrite Z.mod_small by lia. lia.
Qed.

(** C5.  For a counter [W] bits wide, the signed difference over the
    modulus gives [diff(wrap(t0 + W - 1), t0) = W - 1] for every [t0]; and
    each elapsed-time test of the program ([update_sensors], [read_gps],
    [log_sensor_data], [cleanup_old_logs], the shutdown timer and the Wi-Fi
    retry) compares that difference, so that on a reading [d] milliseconds
    after [last], wrapped or not, it decides by [d] alone. *)
Theorem ticks_diff_wraparound_safe (W t0 last d timeout : Z) :
  1 <= W -> 0 <= d < 2 ^ 29 ->
  ticks_diff_w W (wrap W (t0 + W - 1)) t0 = W - 1 /\
  sensor_update_not_due (ticks_wrap (last + d)) last = (d <? SENSOR_UPDATE_INTERVAL) /\
  gps_window_open (ticks_wrap (last + d)) last timeout = (d <? timeout) /\
  log_not_due (ticks_wrap (last + d)) last = (d <? LOG_INTERVAL) /\
  cleanup_not_due (ticks_wrap (last + d)) last = (d <? CLEANUP_INTERVAL) /\
  shutdown_delay_passed (ticks_wrap (last + d)) last = (d >? SHUTDOWN_DELAY) /\
  wifi_retry_due (ticks_wrap (last + d)) last = (d >? WIFI_RETRY_INTERVAL).
Proof.
  intros HW Hd. split.
  - replace (t0 + W - 1) with (t0 + (W - 1)) by lia.
    apply ticks_diff_w_elapsed; [exact HW | split; [lia |]].
    apply Z.pow_gt_lin_r; lia.
  - unfold sensor_update_not_due, gps_window_open, log_not_due, cleanup_not_due,
      shutdown_delay_passed, wifi_retry_due.
    rewrite (ticks_diff_elapsed last d Hd). repeat split; reflexivity.
Qed.

(** A counter that has wrapped: 29 ms after [2^30 - 10], and a sensor
    update 6 s after the reading [2^30 - 1000]. *)
Lemma ticks_diff_wraparound_safe_witness :
  ticks_diff_w 30 (wrap 30 (2 ^ 30 - 10 + 30 - 1)) (2 ^ 30 - 10) = 30 - 1 /\
  sensor_update_not_due (ticks_wrap (2 ^ 30 - 1000 + 6000)) (2 ^ 30 - 1000) = false.
Proof.
  destruct (ticks_diff_wraparound_safe 30 (2 ^ 30 - 10) (2 ^ 30 - 1000) 6000 3000)
    as [H1 [H2 _]]; [lia | lia |].
  split; [exact H1 | exact H2].
Defined.

End TicksFacts.

(** ** The distance formula and the proximity test *)

Section GeoFacts.

Local Open Scope R_scope.

Lemma radians_0 : radians 0 = 0.
Proof. unfold radians. ring. Qed.

Lemma radians_swap (x y : R) : radians (x - y) / 2 = - (radians (y - x) / 2).
Proof. unfold radians. field. Qed.

(** The haversine term is even in the difference of its angles. *)
Lemma sin_half_sq_swap (x y : R) :
  sin (radians (x - y) / 2) * sin (radians (x - y) / 2) =
  sin (radians (y - x) / 2) * sin (radians (y - x) / 2).
Proof. rewrite (radians_swap x y), sin_neg. ring. Qed.

Lemma atan2_0_1 : atan2 0 1 = 0.
Proof.
  unfold atan2. destruct (Rlt_dec 0 1) as [_ | H]; [| exfalso; apply H; lra].
  replace (0 / 1) with 0 by field. exact atan_0.
Qed.

Lemma distance_swap (lat1 lon1 lat2 lon2 : R) :
  calculate_distance_feet lat1 lon1 lat2 lon2 =
  calculate_distance_feet lat2 lon2 lat1 lon1.
Proof.
  unfold calculate_distance_feet.
  assert (Ha :
    sin (radians (lat2 - lat1) / 2) * sin (radians (lat2 - lat1) / 2) +
    cos (radians lat1) * cos (radians lat2) *
    sin (radians (lon2 - lon1) / 2) * sin (radians (lon2 - lon1) / 2) =
    sin (radians (lat1 - lat2) / 2) * sin (radians (lat1 - lat2) / 2) +
    cos (radians lat2) * cos (radians lat1) *
    sin (radians (lon1 - lon2) / 2) * sin (radians (lon1 - lon2) / 2)).
  { rewrite (sin_half_sq_swap lat2 lat1).
    rewrite !Rmult_assoc.
    rewrite (sin_half_sq_swap lon2 lon1). ring. }
  rewrite Ha. reflexivity.
Qed.

Lemma distance_self (lat lon : R) : calculate_distance_feet lat lon lat lon = 0.
Proof.
  unfold calculate_distance_feet.
  replace (lat - lat) with 0 by ring.
  replace (lon - lon) with 0 by ring.
  rewrite radians_0.
  replace (0 / 2) with 0 by field.
  rewrite sin_0.
  replace (0 * 0 + cos (radians lat) * cos (radians lat) * 0 * 0) with 0 by ring.
  rewrite sqrt_0. replace (1 - 0) with 1 by ring. rewrite sqrt_1, atan2_0_1.
  ring.
Qed.

Local Open Scope bool_scope.

(** A position field whose truth value is false ends the test at once. *)
Lemma falsy_coordinate_rejected
    (distance : float -> float -> float -> float -> result num)
    (cfg : local_secrets) (gps_data : gps_dict) :
  truthy_opt_float (latitude gps_data) = false \/
  truthy_opt_float (longitude gps_data) = false ->
  is_close_to_home_with distance cfg gps_data = Ok false.
Proof.
  intros H. unfold is_close_to_home_with.
  destruct H as [H | H]; rewrite H; cbn.
  - destruct (negb (gps_fix_valid gps_data)); reflexivity.
  - rewrite orb_true_r. reflexivity.
Qed.

(** C10.  For a fix with [gps_fix_valid] true whose latitude or longitude
    is exactly 0.0, [is_close_to_home] returns false, and it does so for any
    distance function in place of [calculate_distance_feet]: the position
    fields are tested for their truth value, and no distance is computed. *)
Theorem is_close_to_home_zero_coordinate
    (distance : float -> float -> float -> float -> result num)
    (cfg : local_secrets) (gps_data : gps_dict) :
  gps_fix_valid gps_data = true ->
  (exists lat, latitude gps_data = Some lat /\ (lat =? 0)%float = true) \/
  (exists lon, longitude gps_data = Some lon /\ (lon =? 0)%float = true) ->
  is_close_to_home_with distance cfg gps_data = Ok false /\
  is_close_to_home cfg gps_data = Ok false.
Proof.
  intros _ H.
  assert (Hc : truthy_opt_float (latitude gps_data) = false \/
               truthy_opt_float (longitude gps_data) = false).
  { destruct H as [[lat [Hl Hz]] | [lon [Hl Hz]]]; [left | right];
      rewrite Hl; cbn; unfold truthy_float;
      change PrimFloat.zero with 0%float; rewrite Hz; reflexivity. }
  split; apply falsy_coordinate_rejected; exact Hc.
Qed.

Lemma is_close_to_home_zero_coordinate_witness :
  is_close_to_home_with (fun _ _ _ _ => Ok NaN) fallback_secrets equator_fix = Ok false /\
  is_close_to_home fallback_secrets equator_fix = Ok false.
Proof.
  apply (is_close_to_home_zero_coordinate (fun _ _ _ _ => Ok NaN)
           fallback_secrets equator_fix).
  - reflexivity.
  - left. exists 0%float. split; reflexivity.
Defined.

(** C6, at a failing input.  The van stands at its home on the prime
    meridian: the fix decoded from the receiver's sentence is valid and has
    both position fields, its distance to home is 0 feet, within the radius;
    [is_close_to_home] answers false. *)
Theorem is_close_to_home_misses_home_on_meridian :
  gps_data (snd (process_line meridian_sentence initial_locals)) = meridian_fix /\
  calculate_distance_feet_f 51.5 0 (HOME_LAT meridian_home) (HOME_LON meridian_home)
    = Ok (Real 0) /\
  num_le (Real 0) HOME_RADIUS_FT = true /\
  is_close_to_home meridian_home meridian_fix = Ok false.
Proof.
  split; [vm_compute; reflexivity |].
  split; [| split].
  - unfold calculate_distance_feet_f.
    assert (Hr : distance_raises 51.5 0 (HOME_LAT meridian_home) (HOME_LON meridian_home)
                 = false) by (vm_compute; reflexivity).
    assert (Hn : is_nan 51.5 || is_nan 0 || is_nan (HOME_LAT meridian_home)
                 || is_nan (HOME_LON meridian_home) = false) by (vm_compute; reflexivity).
    rewrite Hr, Hn. cbn [HOME_LAT HOME_LON meridian_home].
    rewrite distance_self. reflexivity.
  - unfold num_le, HOME_RADIUS_FT.
    destruct (Rle_dec 0 2000) as [_ | H]; [reflexivity | exfalso; apply H; lra].
  - apply falsy_coordinate_rejected. right. reflexivity.
Qed.

End GeoFacts.

(** ** The distance in binary64 *)

Section Binary64Facts.

Import Binary64.

Local Open Scope bool_scope.

(** *** Signs in the specification of the operations *)

Lemma SFopp_involutive (x : spec_float) : SFopp (SFopp x) = x.
Proof. destruct x as [s | s | | s m e]; cbn; rewrite ?negb_involutive; reflexivity. Qed.

(** Rounding does not look at the sign. *)
Lemma binary_round_aux_opp (s : bool) (m e : Z) (l : location) :
  binary_round_aux prec emax (negb s) m e l =
  SFopp (binary_round_aux prec emax s m e l).
Proof.
  unfold binary_round_aux.
  destruct (shr_fexp prec emax m e l) as [mrs' e'].
  destruct (shr_fexp prec emax _ e' loc_Exact) as [mrs'' e''].
  destruct (shr_m mrs''); [reflexivity | | reflexivity].
  destruct (e'' <=? emax - prec); reflexivity.
Qed.

Lemma binary_round_opp (s : bool) (m : positive) (e : Z) :
  binary_round prec emax (negb s) m e = SFopp (binary_round prec emax s m e).
Proof.
  unfold binary_round.
  destruct (shl_align m e _) as [mz ez]. apply binary_round_aux_opp.
Qed.

Lemma SFmul_comm (x y : spec_float) : SFmul prec emax x y = SFmul prec emax y x.
Proof.
  destruct x as [sx | sx | | sx mx ex], y as [sy | sy | | sy my ey]; cbn;
    rewrite ?(xorb_comm sx sy); try reflexivity.
  rewrite (Pos.mul_comm mx my), (Z.add_comm ex ey). reflexivity.
Qed.

Lemma SFmul_opp_l (x y : spec_float) :
  SFmul prec emax (SFopp x) y = SFopp (SFmul prec emax x y).
Proof.
  destruct x as [sx | sx | | sx mx ex], y as [sy | sy | | sy my ey]; cbn;
    rewrite <- ?negb_xorb_l; try reflexivity.
  apply binary_round_aux_opp.
Qed.

Lemma SFdiv_opp_l (x y : spec_float) :
  SFdiv prec emax (SFopp x) y = SFopp (SFdiv prec emax x y).
Proof.
  destruct x as [sx | sx | | sx mx ex], y as [sy | sy | | sy my ey]; cbn;
    rewrite <- ?negb_xorb_l; try reflexivity.
  destruct (SFdiv_core_binary prec emax (Z.pos mx) ex (Z.pos my) ey) as [[mz ez] lz].
  apply binary_round_aux_opp.
Qed.

Lemma binary_normalize_opp (z e : Z) :
  binary_normalize prec emax (- z) e false = binary_normalize prec emax z e false \/
  binary_normalize prec emax (- z) e false =
    SFopp (binary_normalize prec emax z e false).
Proof.
  destruct z as [| p | p]; cbn [Z.opp binary_normalize].
  - left. reflexivity.
  - right. apply (binary_round_opp false).
  - right. change true with (negb false).
    rewrite binary_round_opp, SFopp_involutive. reflexivity.
Qed.

Lemma SFsub_swap (x y : spec_float) :
  SFsub prec emax y x = SFsub prec emax x y \/
  SFsub prec emax y x = SFopp (SFsub prec emax x y).
Proof.
  destruct x as [sx | sx | | sx mx ex], y as [sy | sy | | sy my ey];
    try (destruct sx, sy; cbn; auto; fail);
    try (destruct sx; cbn; auto; fail);
    try (destruct sy; cbn; auto; fail);
    try (cbn; auto; fail).
  unfold SFsub. rewrite (Z.min_comm ey ex).
  set (A := cond_Zopp sx _). set (B := cond_Zopp sy _).
  replace (B - A) with (- (A - B)) by ring.
  apply binary_normalize_opp.
Qed.

(** *** The operations on floats *)

Local Open Scope float_scope.

Lemma mul_comm (x y : float) : x * y = y * x.
Proof. apply Prim2SF_inj. rewrite !mul_spec. apply SFmul_comm. Qed.

Lemma opp_involutive (x : float) : - - x = x.
Proof. apply Prim2SF_inj. rewrite !opp_spec. apply SFopp_involutive. Qed.

Lemma mul_opp_l (x y : float) : - x * y = - (x * y).
Proof.
  apply Prim2SF_inj. rewrite opp_spec, !mul_spec, opp_spec. apply SFmul_opp_l.
Qed.

Lemma mul_opp_r (x y : float) : x * - y = - (x * y).
Proof. rewrite (mul_comm x (- y)), mul_opp_l, (mul_comm y x). reflexivity. Qed.

Lemma mul_opp_opp (x y : float) : - x * - y = x * y.
Proof. rewrite mul_opp_l, mul_opp_r. apply opp_involutive. Qed.

Lemma div_opp_l (x y : float) : - x / y = - (x / y).
Proof.
  apply Prim2SF_inj. rewrite opp_spec, !div_spec, opp_spec. apply SFdiv_opp_l.
Qed.

(** Swapping the operands of a subtraction changes the sign of the result,
    or nothing: [x - x] is [+0] both ways. *)
Lemma sub_swap (x y : float) : same_or_opposite (x - y) (y - x).
Proof.
  destruct (SFsub_swap (Prim2SF x) (Prim2SF y)) as [H | H]; [left | right];
    apply Prim2SF_inj; rewrite ?opp_spec, !sub_spec; exact H.
Qed.

Lemma SFeqb_refl (x : spec_float) :
  SFeqb x x = match x with S754_nan => false | _ => true end.
Proof.
  destruct x as [s | s | | s m e]; try (destruct s; reflexivity); try reflexivity.
  unfold SFeqb, SFcompare.
  destruct s; rewrite Z.compare_refl, Pos.compare_cont_refl; reflexivity.
Qed.

Lemma is_nan_spec (x : float) :
  is_nan x = match Prim2SF x with S754_nan => true | _ => false end.
Proof.
  unfold is_nan. rewrite FloatAxioms.eqb_spec. unfold SF64eqb || idtac.
  rewrite SFeqb_refl. destruct (Prim2SF x); reflexivity.
Qed.

Lemma is_infinity_spec (x : float) :
  is_infinity x = match Prim2SF x with S754_infinity _ => true | _ => false end.
Proof.
  unfold is_infinity. rewrite FloatAxioms.eqb_spec, abs_spec.
  change (Prim2SF infinity) with (S754_infinity false).
  destruct (Prim2SF x) as [s | s | | s m e]; reflexivity.
Qed.

Lemma is_finite_spec (x : float) :
  is_finite x =
  match Prim2SF x with S754_zero _ | S754_finite _ _ _ => true | _ => false end.
Proof.
  unfold is_finite. rewrite is_nan_spec, is_infinity_spec.
  destruct (Prim2SF x); reflexivity.
Qed.

Lemma is_nan_opp (x : float) : is_nan (- x) = is_nan x.
Proof. rewrite !is_nan_spec, opp_spec. destruct (Prim2SF x); reflexivity. Qed.

Lemma is_infinity_opp (x : float) : is_infinity (- x) = is_infinity x.
Proof. rewrite !is_infinity_spec, opp_spec. destruct (Prim2SF x); reflexivity. Qed.

Lemma is_finite_opp (x : float) : is_finite (- x) = is_finite x.
Proof. rewrite !is_finite_spec, opp_spec. destruct (Prim2SF x); reflexivity. Qed.

(** A finite float minus itself is [+0]. *)
Lemma sub_diag (x : float) : is_finite x = true -> x - x = 0.
Proof.
  rewrite is_finite_spec. intros Hx.
  apply Prim2SF_inj. rewrite sub_spec.
  change (Prim2SF 0) with (S754_zero false).
  destruct (Prim2SF x) as [s | s | | s m e]; try discriminate.
  - destruct s; reflexivity.
  - unfold SF64sub, SFsub. rewrite Z.sub_diag. reflexivity.
Qed.

(** The sign of a rounded value is the sign given. *)
Lemma binary_round_aux_sign (s : bool) (m e : Z) (l : location) :
  match binary_round_aux prec emax s m e l with
  | S754_zero s' | S754_finite s' _ _ | S754_infinity s' => s' = s
  | S754_nan => True
  end.
Proof.
  unfold binary_round_aux.
  destruct (shr_fexp prec emax m e l) as [mrs' e'].
  destruct (shr_fexp prec emax _ e' loc_Exact) as [mrs'' e''].
  destruct (shr_m mrs''); [reflexivity | | exact I].
  destruct (e'' <=? emax - prec)%Z; reflexivity.
Qed.

(** A finite square times zero is [+0]. *)
Lemma square_mul_0 (x : float) : is_finite (x * x) = true -> x * x * 0 = 0.
Proof.
  rewrite is_finite_spec. intros Hx.
  apply Prim2SF_inj. rewrite mul_spec.
  change (Prim2SF 0) with (S754_zero false).
  rewrite mul_spec in *.
  destruct (Prim2SF x) as [s | s | | s m e]; cbn in Hx |- *; try discriminate.
  - rewrite xorb_nilpotent. reflexivity.
  - unfold SF64mul, SFmul in *.
    pose proof (binary_round_aux_sign (xorb s s) (Z.pos (m * m)) (e + e)%Z loc_Exact) as Hs.
    rewrite xorb_nilpotent in *.
    destruct (binary_round_aux prec emax false (Z.pos (m * m)) (e + e)%Z loc_Exact)
      as [s' | s' | | s' m' e']; try discriminate; subst s'; reflexivity.
Qed.


(** *** The functions of [math] *)

(** The only exception of a one-argument function is the domain error. *)
Lemma math_1_cases (f : float -> float) (x : float) :
  math_1 f x = Err domain_error \/ exists r, math_1 f x = Ok r.
Proof.
  unfold math_1. cbv zeta.
  destruct (is_nan (f x) && negb (is_nan x)); [left; reflexivity |].
  destruct (is_infinity (f x) && is_finite x); [left; reflexivity |].
  right. eexists. reflexivity.
Qed.

(** An odd function raises at [- x] when it does at [x], and returns the
    opposite value otherwise. *)
Lemma math_1_opp (f : float -> float) (x : float) :
  (forall x, f (- x) = - f x) ->
  math_1 f (- x) = match math_1 f x with Ok r => Ok (- r) | Err e => Err e end.
Proof.
  intros Hodd. unfold math_1. cbv zeta.
  rewrite Hodd, !is_nan_opp, is_infinity_opp, is_finite_opp.
  destruct (is_nan (f x) && negb (is_nan x)); [reflexivity |].
  destruct (is_infinity (f x) && is_finite x); reflexivity.
Qed.

(** What the two orders of the arguments give to [math.sin]. *)
Lemma half_angle_swap (x y : float) :
  same_or_opposite (radians (y - x) / 2) (radians (x - y) / 2).
Proof.
  destruct (sub_swap y x) as [H | H]; rewrite H; [left; reflexivity | right].
  unfold radians. rewrite mul_opp_l, div_opp_l. reflexivity.
Qed.

(** The two factors [sin(d/2) * sin(d/2)] of the formula, for an odd sine. *)
Lemma sin_pair_swap (f : float -> float) (x x' : float) :
  (forall x, f (- x) = - f x) ->
  same_or_opposite x x' ->
  (math_1 f x = Err domain_error /\ math_1 f x' = Err domain_error) \/
  (exists r r', math_1 f x = Ok r /\ math_1 f x' = Ok r' /\
     r' * r' = r * r /\ forall p, p * r' * r' = p * r * r).
Proof.
  intros Hodd [-> | ->].
  - destruct (math_1_cases f x) as [H | [r H]]; [left; auto |].
    right. exists r, r. auto.
  - rewrite (math_1_opp f x Hodd).
    destruct (math_1_cases f x) as [H | [r H]]; rewrite H; [left; auto |].
    right. exists r, (- r). repeat split; [apply mul_opp_opp |].
    intros p. rewrite (mul_opp_r p r). apply mul_opp_opp.
Qed.

(** *** The distance of a point from itself *)

(** A square is finite only if its root is. *)
Lemma is_finite_square (c : float) : is_finite (c * c) = true -> is_finite c = true.
Proof.
  rewrite !is_finite_spec, mul_spec.
  destruct (Prim2SF c) as [s | s | | s m e]; cbn; congruence.
Qed.

(** A finite result is returned. *)
Lemma math_1_finite (f : float -> float) (x : float) :
  is_finite (f x) = true -> math_1 f x = Ok (f x).
Proof.
  unfold is_finite, math_1. cbv zeta.
  destruct (is_nan (f x)), (is_infinity (f x)); cbn; congruence.
Qed.

(** C8.  [calculate_distance_feet], as binary64 computes it, ends the same
    way for the two orders of its coordinate pairs, whatever the floats: both
    calls return the same float, or both raise the [ValueError] of [math]
    (as they do for some finite pairs).  From a finite pair to itself the
    distance is 0.  The C library's sine is taken to be odd, for the first
    part; for the second, its sine of 0 and its [atan2(0, 1)] are 0 and the
    square of the cosine of the latitude is finite. *)
Theorem calculate_distance_feet_symmetric (m : libm) :
  (forall x, libm_sin m (- x) = - libm_sin m x) ->
  (forall lat1 lon1 lat2 lon2,
     calculate_distance_feet m lat2 lon2 lat1 lon1 =
     calculate_distance_feet m lat1 lon1 lat2 lon2) /\
  (forall lat lon,
     libm_sin m 0 = 0 -> libm_atan2 m 0 1 = 0 ->
     is_finite lat = true -> is_finite lon = true ->
     is_finite (libm_cos m (radians lat) * libm_cos m (radians lat)) = true ->
     calculate_distance_feet m lat lon lat lon = Ok 0).
Proof.
  intros Hodd. split.
  - intros lat1 lon1 lat2 lon2.
    unfold calculate_distance_feet. cbv zeta.
    destruct (sin_pair_swap (libm_sin m) _ _ Hodd (half_angle_swap lat1 lat2))
      as [[H1 H2] | (s & s' & H1 & H2 & Hs & _)]; rewrite H1, H2; [reflexivity |].
    cbn [rbind].
    destruct (math_1_cases (libm_cos m) (radians lat1)) as [Hc1 | [c1 Hc1]];
      destruct (math_1_cases (libm_cos m) (radians lat2)) as [Hc2 | [c2 Hc2]];
      rewrite Hc1, Hc2; try reflexivity.
    cbn [rbind].
    destruct (sin_pair_swap (libm_sin m) _ _ Hodd (half_angle_swap lon1 lon2))
      as [[H3 H4] | (t & t' & H3 & H4 & _ & Ht)]; rewrite H3, H4; [reflexivity |].
    cbn [rbind].
    rewrite Hs, (mul_comm c2 c1), (Ht (c1 * c2)). reflexivity.
  - intros lat lon Hsin Hatan Hlat Hlon Hcos.
    unfold calculate_distance_feet. cbv zeta.
    rewrite (sub_diag lat Hlat), (sub_diag lon Hlon).
    change (radians 0 / 2) with 0.
    rewrite (math_1_finite (libm_sin m) 0) by (rewrite Hsin; reflexivity).
    rewrite (math_1_finite (libm_cos m) (radians lat))
      by exact (is_finite_square _ Hcos).
    cbn [rbind]. rewrite Hsin, (square_mul_0 _ Hcos).
    change (0 * 0 + 0 * 0) with 0.
    change (sqrt 0) with (Ok 0 : result float).
    change (sqrt (1 - 0)) with (Ok 1 : result float).
    cbn [rbind]. unfold math_2. cbv zeta. rewrite Hatan. reflexivity.
Qed.

End Binary64Facts.

(** From the fallback home to London and back, and from the fallback home to
    itself. *)
Lemma calculate_distance_feet_symmetric_witness :
  Binary64.calculate_distance_feet small_angle_libm 51.5 0 40.7128 (-74.0060) =
  Binary64.calculate_distance_feet small_angle_libm 40.7128 (-74.0060) 51.5 0 /\
  Binary64.calculate_distance_feet small_angle_libm
    40.7128 (-74.0060) 40.7128 (-74.0060) = Ok 0%float.
Proof.
  destruct (calculate_distance_feet_symmetric small_angle_libm) as [Hsym Hself].
  - intros x. unfold small_angle_libm. cbn [Binary64.libm_sin].
    rewrite is_infinity_opp.
    destruct (is_infinity x); reflexivity.
  - split; [apply Hsym | apply Hself; reflexivity].
Defined.

(** The claim as the spec words it fails where the calls raise: the
    difference of the finite latitudes 1e308 and -1e308 is infinite, and
    [math.sin] raises on it, in both orders.  Only the sine of an infinity
    is asked of the C library. *)
Lemma calculate_distance_feet_overflow_counterexample :
  is_finite 1e308 = true /\ is_finite (-1e308) = true /\ is_finite 0 = true /\
  Binary64.calculate_distance_feet small_angle_libm 1e308 0 (-1e308) 0 =
    Err Binary64.domain_error /\
  Binary64.calculate_distance_feet small_angle_libm (-1e308) 0 1e308 0 =
    Err Binary64.domain_error.
Proof. repeat split; reflexivity. Qed.

(** ** The NMEA decoder *)

Section NmeaFacts.

(** What the RMC parse stores as speed, in terms of the speed field. *)
Lemma parse_rmc_speed (time_str lat_str lat_dir lon_str lon_dir speed_str : string)
    (f : rmc_fix) :
  parse_rmc time_str lat_str lat_dir lon_str lon_dir speed_str = Ok (Some f) ->
  rmc_speed_kmh speed_str = Ok (rmc_speed f).
Proof.
  unfold parse_rmc. intros H.
  destruct ((len lat_str >=? 4) && (len lon_str >=? 5)); [| discriminate].
  destruct (float_of_str (take 2 lat_str)); [| discriminate].
  destruct (float_of_str (drop 2 lat_str)); [| discriminate].
  destruct (float_of_str (take 3 lon_str)); [| discriminate].
  destruct (float_of_str (drop 3 lon_str)); [| discriminate].
  cbn [rbind] in H.
  destruct (rmc_speed_kmh speed_str) as [v | e]; [| discriminate].
  cbn [rbind] in H. injection H as <-. reflexivity.
Qed.

(** C7, as amended.  In RMC decoding the speed field in knots is multiplied
    by 1.852; a converted speed strictly above 1.0 km/h is kept as
    converted, and every other one (at most 1.0 km/h, or not a number) is
    replaced by exactly 0.0. *)
Theorem rmc_speed_converted_and_clamped
    (time_str lat_str lat_dir lon_str lon_dir speed_str : string)
    (f : rmc_fix) (speed_knots : float) :
  parse_rmc time_str lat_str lat_dir lon_str lon_dir speed_str = Ok (Some f) ->
  truthy_str speed_str = true ->
  float_of_str speed_str = Ok speed_knots ->
  let speed_kmh := (speed_knots * 1.852)%float in
  ((1.0 <? speed_kmh)%float = true -> rmc_speed f = speed_kmh) /\
  ((1.0 <? speed_kmh)%float = false -> rmc_speed f = 0.0%float).
Proof.
  intros Hp Ht Hk speed_kmh.
  apply parse_rmc_speed in Hp.
  unfold rmc_speed_kmh in Hp. rewrite Ht, Hk in Hp. cbn [rbind] in Hp.
  fold speed_kmh in Hp. injection Hp as Hp.
  split; intros Hc; rewrite Hc in Hp; symmetry; exact Hp.
Qed.

(** 22.4 knots, the speed field of the specification's sentence. *)
Lemma rmc_speed_converted_and_clamped_witness :
  ((1.0 <? 22.4 * 1.852)%float = true -> 41.4848%float = (22.4 * 1.852)%float) /\
  ((1.0 <? 22.4 * 1.852)%float = false -> 41.4848%float = 0.0%float).
Proof.
  apply (rmc_speed_converted_and_clamped
           "123519" "4807.038" "N" "01131.000" "E" "022.4"
           {| rmc_lat := 48.1173; rmc_lon := 11.516666666666667;
              rmc_speed := 41.4848; rmc_time := "12:35:19" |} 22.4).
  - vm_compute. reflexivity.
  - reflexivity.
  - vm_compute. reflexivity.
Defined.

(** C7, as stated, fails.  The speed field [0.5399568034557235] converts
    to exactly 1.0 km/h; the decoded speed is 0.0, not the 1.0 the
    specification keeps. *)
Lemma rmc_speed_clamp_counterexample :
  exists speed_knots v,
    float_of_str boundary_knots = Ok speed_knots /\
    (speed_knots * 1.852)%float = 1.0%float /\
    speed (gps_data (snd (process_line boundary_sentence initial_locals))) = Some v /\
    ~ clamped_as_specified (speed_knots * 1.852) v.
Proof.
  exists 0.5399568034557235%float, 0.0%float.
  split; [vm_compute; reflexivity |].
  split; [vm_compute; reflexivity |].
  split; [vm_compute; reflexivity |].
  intros [_ H].
  assert (Hge : (1.0 <=? 0.5399568034557235 * 1.852)%float = true)
    by (vm_compute; reflexivity).
  specialize (H Hge).
  assert (Hne : (0.0 =? 0.5399568034557235 * 1.852)%float = false)
    by (vm_compute; reflexivity).
  rewrite <- H in Hne. vm_compute in Hne. discriminate.
Qed.

(** C3, as stated, fails.  The sentence of the specification has 12
    fields; [read_gps] takes an RMC sentence only with 13 or more, and
    returns no fix. *)
Lemma read_gps_rmc_12_fields_counterexample :
  fst (read_gps (one_sentence rmc_sentence_12) 10 initial_world) = Ret no_fix /\
  ~ decodes_as_specified no_fix.
Proof.
  split; [vm_compute; reflexivity |].
  intros [H _]. discriminate.
Qed.

(** C3, as amended.  Decoding the sentence with its 13th field (the mode
    indicator), received alone within the read window, yields a valid fix
    with latitude 48.1173, longitude 11.5167 (to four decimals), time
    "12:35:19" and the speed 22.4 knots converted to km/h, which is above
    1.0 and kept; the 12-field sentence yields no fix. *)
Theorem read_gps_rmc_13_fields :
  fst (read_gps (one_sentence rmc_sentence_13) 10 initial_world) = Ret rmc_fix_13 /\
  decodes_as_specified rmc_fix_13 /\
  fst (read_gps (one_sentence rmc_sentence_12) 10 initial_world) = Ret no_fix.
Proof.
  split; [vm_compute; reflexivity |].
  split; [| vm_compute; reflexivity].
  unfold decodes_as_specified, rmc_fix_13; cbn.
  split; [reflexivity |].
  split; [eexists; split; [reflexivity | vm_compute; reflexivity] |].
  split; [eexists; split; [reflexivity | vm_compute; reflexivity] |].
  split; [reflexivity |].
  eexists; split; [reflexivity |]. split; vm_compute; reflexivity.
Qed.

End NmeaFacts.

(** ** [read_gps] *)

Section ReadGpsFacts.

Lemma same_fix_preorder : PreOrder same_fix.
Proof.
  split.
  - intros st. repeat split.
  - intros a b c [H1 [H2 H3]] [H4 [H5 H6]]. repeat split; congruence.
Qed.

Lemma same_error_preorder : PreOrder same_error.
Proof.
  split.
  - intros st. reflexivity.
  - intros a b c H1 H2. unfold same_error in *. congruence.
Qed.

#[local] Existing Instance same_fix_preorder.
#[local] Existing Instance same_error_preorder.

Ltac mild_tac :=
  repeat match goal with
    | |- mild (ret _) => apply mild_ret
    | |- mild (raise _) => apply mild_raise
    | |- mild (eval _) => apply mild_eval
    | |- mild get => apply safe_mild, safe_get
    | |- mild (modify _) => apply safe_mild, safe_modify
    | |- mild (bind _ _) => apply mild_bind; [| intros ?]
    | |- mild (try_except_in _ _ _) => apply mild_try_except_in; [| intros ?]
    | |- mild (try_except _ _) => apply mild_try_except; [| intros ?]
    | |- mild (if ?b then _ else _) => destruct b
    | |- mild (match ?x with _ => _ end) => destruct x
    end.

Ltac safe_tac :=
  repeat match goal with
    | |- safe (ret _) => apply safe_ret
    | |- safe get => apply safe_get
    | |- safe (modify _) => apply safe_modify
    | |- safe (bind _ _) => apply safe_bind; [| intros ?]
    | |- safe (if ?b then _ else _) => destruct b
    | |- safe (match ?x with _ => _ end) => destruct x
    end.

Ltac keeps_tac :=
  repeat match goal with
    | |- keeps _ (ret _) => apply keeps_ret; exact _
    | |- keeps _ (raise _) => apply keeps_raise; exact _
    | |- keeps _ (eval _) => apply keeps_eval; exact _
    | |- keeps _ get => apply keeps_get; exact _
    | |- keeps _ (modify _) => apply keeps_modify; intros ?; repeat split
    | |- keeps _ (bind _ _) => apply keeps_bind; [exact _ | | intros ?]
    | |- keeps _ (try_except_in _ _ _) =>
        apply keeps_try_except_in; [exact _ | | intros ?]
    | |- keeps _ (try_except _ _) => apply keeps_try_except; [exact _ | | intros ?]
    | |- keeps _ (if ?b then _ else _) => destruct b
    | |- keeps _ (match ?x with _ => _ end) => destruct x
    end.

Lemma line_body_mild (line : string) : mild (line_body line).
Proof. unfold line_body, rmc_branch, gga_branch. cbv zeta. mild_tac. Qed.

(** The handling of a line always ends normally: whatever the line holds,
    the read goes on. *)
Lemma process_line_safe (line : string) : safe (process_line line).
Proof.
  unfold process_line. apply safe_try_except; [apply line_body_mild |].
  intros e. apply safe_ret.
Qed.

Lemma process_line_same_error (line : string) : keeps same_error (process_line line).
Proof.
  unfold process_line, line_body, rmc_branch, gga_branch. cbv zeta. keeps_tac.
Qed.

Lemma skips_safe {A} (m : M gps_locals A) : safe m -> skips m.
Proof. intros H st e He. destruct (H st) as [a Ha]. congruence. Qed.

Lemma skips_kept {A} (m : M gps_locals A) : keeps same_fix m -> skips m.
Proof. intros H st e _. apply H. Qed.

Lemma skips_bind_kept {A B} (m : M gps_locals A) (k : A -> M gps_locals B) :
  keeps same_fix m -> (forall a, skips (k a)) -> skips (bind m k).
Proof.
  intros Hm Hk st e. unfold bind. specialize (Hm st).
  destruct (m st) as [[a | e' | |] st'] eqn:Hr; cbn in *; intros He; try exact Hm.
  transitivity st'; [exact Hm | apply (Hk a st' e He)].
Qed.

Lemma skips_bind_safe {A B} (m : M gps_locals A) (k : A -> M gps_locals B) :
  skips m -> (forall a, safe (k a)) -> skips (bind m k).
Proof.
  intros Hm Hk st e. unfold bind. specialize (Hm st).
  destruct (m st) as [[a | e' | |] st'] eqn:Hr; cbn in *; intros He;
    try discriminate.
  - destruct (Hk a st') as [b Hb]. congruence.
  - apply (Hm e'). reflexivity.
Qed.

Lemma skips_try_except_in {A} (cs : list exn_class) (m : M gps_locals A)
    (h : exn -> M gps_locals A) :
  skips m -> (forall e, safe (h e)) -> skips (try_except_in cs m h).
Proof.
  intros Hm Hh st e. unfold try_except_in, try_except. specialize (Hm st).
  destruct (m st) as [[a | e' | |] st'] eqn:Hr; cbn in *; intros He;
    try discriminate.
  destruct (existsb (isinstance e') cs).
  - destruct (Hh e' st') as [b Hb]. congruence.
  - cbn. apply (Hm e'). reflexivity.
Qed.

Lemma rmc_branch_skips (line_str : string) : skips (rmc_branch line_str).
Proof.
  unfold rmc_branch. cbv zeta.
  destruct (llen (split "," line_str) >=? 13); [| apply skips_safe, safe_ret].
  repeat (apply skips_bind_kept; [apply keeps_eval; exact _ | intros ?]).
  match goal with |- skips (if ?b then _ else _) => destruct b end;
    [| apply skips_safe, safe_ret].
  apply skips_try_except_in; [| intros ?; apply safe_ret].
  apply skips_bind_kept; [apply keeps_eval; exact _ | intros fix_].
  apply skips_safe. safe_tac.
Qed.

Lemma gga_branch_skips (line_str : string) : skips (gga_branch line_str).
Proof.
  unfold gga_branch. cbv zeta.
  destruct (llen (split "," line_str) >=? 8); [| apply skips_safe, safe_ret].
  apply skips_try_except_in; [| intros ?; apply safe_ret].
  apply skips_bind_kept; [keeps_tac | intros satellites_].
  match goal with |- skips (if ?b then _ else _) => destruct b end;
    [| apply skips_safe, safe_ret].
  apply skips_bind_kept; [apply keeps_eval; exact _ | intros ?].
  apply skips_safe. safe_tac.
Qed.

(** A line whose handling raises leaves the fix being built, and the two
    flags, as they were. *)
Lemma line_body_skips (line : string) : skips (line_body line).
Proof.
  unfold line_body.
  apply skips_bind_kept; [apply keeps_eval; exact _ | intros decoded].
  cbv zeta.
  destruct (startswith (strip decoded) "$"); [| apply skips_safe, safe_ret].
  apply skips_bind_kept; [keeps_tac | intros _].
  apply skips_bind_safe.
  - destruct (startswith_any _ _); [apply rmc_branch_skips |].
    destruct (startswith_any _ _); [apply gga_branch_skips |].
    apply skips_safe, safe_ret.
  - intros b. safe_tac.
Qed.

Lemma bind_ret_inv {S A B} (m : M S A) (k : A -> M S B) (s : S) (b : B) :
  fst (bind m k s) = Ret b ->
  exists a s', m s = (Ret a, s') /\ bind m k s = k a s'.
Proof.
  unfold bind. destruct (m s) as [[a | e | |] s'] eqn:Hm; cbn; intros H;
    try discriminate.
  exists a, s'. split; reflexivity.
Qed.

(** From a [bind] that ended normally to its continuation. *)
Ltac inv_bind H a s :=
  match type of H with
  | bind ?m ?k ?s0 = (Ret ?r, _) =>
      let Hf := fresh "Hf" in
      let Hk := fresh "Hk" in
      assert (Hf : fst (bind m k s0) = Ret r) by (rewrite H; reflexivity);
      apply bind_ret_inv in Hf; destruct Hf as [a [s [_ Hk]]];
      rewrite Hk in H; clear Hk
  end.

(** The fix an early return hands back is the one built so far. *)
Lemma process_line_returns_current (line : string) (st st' : gps_locals) (d : gps_dict) :
  process_line line st = (Ret (ReturnFix d), st') -> d = gps_data st'.
Proof.
  unfold process_line, try_except. intros H.
  destruct (line_body line st) as [o st1] eqn:Hb.
  destruct o as [c | e | |]; try discriminate.
  injection H as -> ->.
  unfold line_body in Hb.
  inv_bind Hb decoded s1. cbv zeta in Hb.
  destruct (startswith (strip decoded) "$"); [| discriminate].
  inv_bind Hb u s2.
  inv_bind Hb b s3.
  destruct b; [| discriminate].
  unfold bind, get in Hb.
  destruct (gprmc_found s3 && gpgga_found s3); [| discriminate].
  injection Hb as <- <-. reflexivity.
Qed.

Lemma bind_ret_l {S A B} (a : A) (k : A -> M S B) : bind (ret a) k = k a.
Proof. reflexivity. Qed.

Lemma same_fix_count_line (st : gps_locals) : same_fix st (count_line st).
Proof. repeat split. Qed.

(** The RMC branch leaves the state as it was, unless [parse_rmc] returned
    a fix: then the whole fix is taken over. *)
Lemma rmc_branch_effect (line_str : string) (st : gps_locals) :
  snd (rmc_branch line_str st) = st \/
  exists f, parse_rmc_line line_str = Ok (Some f) /\
            snd (rmc_branch line_str st) = found_gprmc (set_gps_data (update_fix f) st).
Proof.
  unfold rmc_branch, parse_rmc_line. cbv zeta.
  destruct (llen (split "," line_str) >=? 13) eqn:Hlen; [| left; reflexivity].
  destruct (split "," line_str)
    as [| p0 [| p1 [| p2 [| p3 [| p4 [| p5 [| p6 [| p7 rest]]]]]]]];
    try discriminate Hlen.
  cbn [index nth_error eval field nth]. rewrite !bind_ret_l.
  destruct (String.eqb p2 "A" && truthy_str p3 && truthy_str p5); [| left; reflexivity].
  unfold try_except_in, try_except, bind at 1.
  destruct (parse_rmc p1 p3 p4 p5 p6 p7) as [[f |] | e]; cbn [eval].
  - right. exists f. split; reflexivity.
  - left. reflexivity.
  - left. cbn. match goal with |- context [if ?b then _ else _] => destruct b end;
      reflexivity.
Qed.

(** The GGA branch leaves the state as it was, unless field 7 is a string
    of digits: then the satellite count is taken over. *)
Lemma gga_branch_effect (line_str : string) (st : gps_locals) :
  snd (gga_branch line_str st) = st \/
  exists n, int_of_str (field (split "," line_str) 7) = Ok n /\
            snd (gga_branch line_str st)
            = found_gpgga (set_gps_data (set_satellites n) st).
Proof.
  unfold gga_branch. cbv zeta.
  destruct (llen (split "," line_str) >=? 8) eqn:Hlen; [| left; reflexivity].
  destruct (split "," line_str)
    as [| p0 [| p1 [| p2 [| p3 [| p4 [| p5 [| p6 [| p7 rest]]]]]]]];
    try discriminate Hlen.
  assert (Hgt : (llen (p0 :: p1 :: p2 :: p3 :: p4 :: p5 :: p6 :: p7 :: rest) >? 7) = true).
  { unfold llen. cbn [List.length]. apply Z.gtb_lt. lia. }
  rewrite Hgt. cbn [index nth_error eval field nth].
  unfold try_except_in, try_except. rewrite bind_ret_l.
  destruct (truthy_str p7 && isdigit p7); [| left; reflexivity].
  unfold bind at 1.
  destruct (int_of_str p7) as [n | e]; cbn [eval].
  - right. exists n. split; reflexivity.
  - left. cbn. match goal with |- context [if ?b then _ else _] => destruct b end;
      reflexivity.
Qed.

Lemma startswith_any_dollar (s : string) (ps : list string) :
  startswith_any s ps = true ->
  (forall p, In p ps -> startswith p "$" = true) ->
  startswith s "$" = true.
Proof.
  unfold startswith_any. intros H Hps. apply existsb_exists in H.
  destruct H as [p [Hin Hp]]. specialize (Hps p Hin).
  unfold startswith in *.
  destruct p as [| c p]; [discriminate |]. destruct s as [| d s]; [discriminate |].
  cbn [prefix] in Hps, Hp |- *.
  destruct (ascii_dec "$" c) as [Hc | Hc]; [subst c | discriminate Hps].
  destruct (ascii_dec "$" d) as [Hd | Hd]; [destruct s; reflexivity | discriminate Hp].
Qed.

(** What the handling of one line does, in every case. *)
Lemma process_line_effect (line : string) (st : gps_locals) :
  exists c st',
    process_line line st = (Ret c, st') /\
    (forall e, decode_ascii line = Err e -> c = Continue /\ st' = st) /\
    (forall s e,
       decode_ascii line = Ok s ->
       startswith_any (strip s) ["$GPRMC"; "$GNRMC"] = true ->
       parse_rmc_line (strip s) = Err e ->
       st' = count_line st) /\
    line_effect line st st'.
Proof.
  destruct (decode_ascii line) as [s | e0] eqn:Hdec.
  2: { exists Continue, st. split.
       - unfold process_line, try_except, line_body. rewrite Hdec. reflexivity.
       - split; [intros e _; split; reflexivity |].
         split; [intros s e H; discriminate H |].
         apply effect_none. repeat split. }
  destruct (process_line_safe line st) as [c Hc].
  exists c, (snd (process_line line st)).
  split; [rewrite <- Hc; apply surjective_pairing |].
  split; [intros e H; discriminate H |].
  clear c Hc. unfold process_line, try_except, line_body.
  rewrite Hdec. cbn [eval]. rewrite bind_ret_l. cbv zeta.
  destruct (startswith (strip s) "$") eqn:Hdollar.
  2: { split.
       - intros s0 e H Hrmc _. injection H as <-.
         rewrite (startswith_any_dollar _ _ Hrmc) in Hdollar; [discriminate |].
         intros p [<- | [<- | []]]; reflexivity.
       - apply effect_none. repeat split. }
  erewrite bind_run by reflexivity.
  assert (Hend : forall (b : branch_end) (st1 : gps_locals),
            snd (let (o, s') :=
                   match b with
                   | FallThrough =>
                       st0 <- get;;
                       (if gprmc_found st0 && gpgga_found st0
                        then ret (ReturnFix (gps_data st0))
                        else ret Continue)
                   | Continued => ret Continue
                   end st1 in
                 match o with
                 | Ret a => (Ret a, s')
                 | Raise _ => ret Continue s'
                 | Halt => (Halt, s')
                 | OutOfFuel => (OutOfFuel, s')
                 end) = st1).
  { intros [|] st1; [| reflexivity]. unfold bind, get.
    destruct (gprmc_found st1 && gpgga_found st1); reflexivity. }
  assert (Hstep : forall (m : M gps_locals branch_end),
            snd (let (o, s') :=
                   bind m (fun b =>
                     match b with
                     | FallThrough =>
                         st0 <- get;;
                         (if gprmc_found st0 && gpgga_found st0
                          then ret (ReturnFix (gps_data st0))
                          else ret Continue)
                     | Continued => ret Continue
                     end) (count_line st) in
                 match o with
                 | Ret a => (Ret a, s')
                 | Raise _ => ret Continue s'
                 | Halt => (Halt, s')
                 | OutOfFuel => (OutOfFuel, s')
                 end) = snd (m (count_line st))).
  { intros m. unfold bind at 1.
    destruct (m (count_line st)) as [[b | e | |] st1]; try reflexivity.
    apply Hend. }
  rewrite Hstep. clear Hstep Hend.
  destruct (startswith_any (strip s) ["$GPRMC"; "$GNRMC"]) eqn:Hrmc.
  - destruct (rmc_branch_effect (strip s) (count_line st)) as [Hsame | [f [Hf Hst]]].
    + rewrite Hsame. split; [intros; reflexivity |].
      apply effect_none, same_fix_count_line.
    + rewrite Hst. split.
      * intros s0 e H _ Hp. injection H as <-. congruence.
      * apply (effect_rmc line st _ s f); try reflexivity; assumption.
  - split; [intros s0 e H Hr; injection H as <-; congruence |].
    destruct (startswith_any (strip s) ["$GPGGA"; "$GNGGA"]).
    + destruct (gga_branch_effect (strip s) (count_line st)) as [Hsame | [n [Hn Hst]]].
      * rewrite Hsame. apply effect_none, same_fix_count_line.
      * rewrite Hst. apply (effect_gga line st _ s n); try reflexivity; assumption.
    + apply effect_none, same_fix_count_line.
Qed.

Section Loop.

Variable E : env.

Lemma ticks_ms_run (w : world) :
  ticks_ms E w = (Ret (clock E (calls w Clock)), called Clock w).
Proof. reflexivity. Qed.

Lemma uart_readline_run (w : world) :
  uart_readline E w =
  (match uart_readline_at E (calls w Uart) with
   | Ok a => Ret a
   | Err e => Raise e
   end, called Uart w).
Proof. reflexivity. Qed.

Lemma sleep_run (ms : Z) (w : world) : sleep ms w = (Ret tt, logged (time_sleep ms) w).
Proof. reflexivity. Qed.

Lemma reads_answered_none (w w' : world) :
  calls w' Uart = calls w Uart -> reads_answered E w w'.
Proof. intros H n Hn. lia. Qed.

Lemma reads_answered_step (w w1 w' : world) (line : option string) :
  uart_readline_at E (calls w Uart) = Ok line ->
  calls w1 Uart = S (calls w Uart) ->
  reads_answered E w1 w' ->
  reads_answered E w w'.
Proof.
  intros Hu H1 Hr n Hn.
  destruct (Nat.eq_dec n (calls w Uart)) as [-> | Hne]; [exists line; exact Hu |].
  apply Hr. lia.
Qed.

Lemma last_read_raised_step (w w1 w' : world) (e : exn) :
  calls w1 Uart = S (calls w Uart) ->
  last_read_raised E w1 w' e -> last_read_raised E w w' e.
Proof. intros H1 [Hlt Hu]. split; [lia | exact Hu]. Qed.

(** Once the counter has left the window at the k-th test from here, a
    loop given more than [k] iterations ends: with the fix built so far when
    every read was answered, or with the exception a read raised. *)
Lemma read_gps_loop_ends (start_time timeout : Z) :
  forall (k fuel : nat) (st : gps_locals) (w : world),
    (k < fuel)%nat ->
    gps_window_open (clock E (calls w Clock + k)) start_time timeout = false ->
    error (gps_data st) = None ->
    exists w',
      (exists d, read_gps_loop E fuel start_time timeout st w = (Ret d, w')
                 /\ error d = None /\ reads_answered E w w') \/
      (exists e, read_gps_loop E fuel start_time timeout st w = (Raise e, w')
                 /\ last_read_raised E w w' e).
Proof.
  induction k as [| k IH]; intros fuel st w Hfuel Hclosed Herr;
    (destruct fuel as [| fuel]; [lia |]);
    cbn [read_gps_loop]; rewrite (bind_run _ _ _ _ _ (ticks_ms_run w));
    destruct (gps_window_open (clock E (calls w Clock)) start_time timeout) eqn:Hopen;
    try (eexists; left; exists (gps_data st);
         split; [reflexivity | split; [exact Herr |]];
         apply reads_answered_none; reflexivity).
  - rewrite Nat.add_0_r in Hclosed. congruence.
  - assert (Hnext : forall w1, calls w1 Clock = S (calls w Clock) ->
              gps_window_open (clock E (calls w1 Clock + k)) start_time timeout = false).
    { intros w1 ->. rewrite <- Hclosed. do 2 f_equal. lia. }
    pose proof (uart_readline_run (called Clock w)) as Hrun.
    destruct (uart_readline_at E (calls (called Clock w) Uart)) as [line | e] eqn:Hu.
    2: { rewrite (bind_raise _ _ _ _ _ Hrun).
         eexists. right. exists e. split; [reflexivity |].
         split; [cbn; lia | exact Hu]. }
    rewrite (bind_run _ _ _ _ _ Hrun). clear Hrun.
    assert (Hlift : forall (m : stmt gps_dict) (w1 : world),
              calls w1 Uart = S (calls w Uart) ->
              (exists w',
                 (exists d, m w1 = (Ret d, w') /\ error d = None /\
                            reads_answered E w1 w') \/
                 (exists e, m w1 = (Raise e, w') /\ last_read_raised E w1 w' e)) ->
              exists w',
                 (exists d, m w1 = (Ret d, w') /\ error d = None /\
                            reads_answered E w w') \/
                 (exists e, m w1 = (Raise e, w') /\ last_read_raised E w w' e)).
    { intros m w1 H1 [w' [[d [Hr [Hd Ha]]] | [e [Hr Hl]]]]; exists w'.
      - left. exists d. split; [exact Hr | split; [exact Hd |]].
        apply (reads_answered_step w w1 w' line); assumption.
      - right. exists e. split; [exact Hr |].
        apply (last_read_raised_step w w1 w' e); assumption. }
    assert (Hsleep : exists w',
              (exists d,
                 (bind (sleep 10) (fun _ => read_gps_loop E fuel start_time timeout st))
                   (called Uart (called Clock w)) = (Ret d, w') /\ error d = None /\
                 reads_answered E w w') \/
              (exists e,
                 (bind (sleep 10) (fun _ => read_gps_loop E fuel start_time timeout st))
                   (called Uart (called Clock w)) = (Raise e, w') /\
                 last_read_raised E w w' e)).
    { apply Hlift; [reflexivity |].
      rewrite (bind_run _ _ _ _ _ (sleep_run 10 _)).
      destruct (IH fuel st (logged (time_sleep 10) (called Uart (called Clock w))))
        as [w' Hw']; [lia | apply Hnext; reflexivity | exact Herr |].
      exists w'. exact Hw'. }
    destruct line as [bytes |]; [| exact Hsleep].
    destruct (truthy_str bytes); [| exact Hsleep].
    destruct (process_line bytes st) as [o st'] eqn:Hp.
    assert (Herr' : error (gps_data st') = None).
    { pose proof (process_line_same_error bytes st) as Hk.
      rewrite Hp in Hk. unfold same_error in Hk. cbn in Hk. congruence. }
    assert (Hgo : exists w',
              (exists d, read_gps_loop E fuel start_time timeout st'
                           (called Uart (called Clock w)) = (Ret d, w') /\
                         error d = None /\ reads_answered E w w') \/
              (exists e, read_gps_loop E fuel start_time timeout st'
                           (called Uart (called Clock w)) = (Raise e, w') /\
                         last_read_raised E w w' e)).
    { apply (Hlift (read_gps_loop E fuel start_time timeout st')); [reflexivity |].
      apply IH; [lia | apply Hnext; reflexivity | exact Herr']. }
    destruct o as [[| d] | e | |]; try exact Hgo.
    eexists. left. exists d. split; [reflexivity |].
    apply process_line_returns_current in Hp. subst d.
    split; [exact Herr' |].
    intros n Hn. cbn in Hn.
    assert (n = calls w Uart) as -> by lia. exists (Some bytes). exact Hu.
Qed.

End Loop.

(** C4.  [read_gps] never raises.  Whatever the stream holds, once the
    counter leaves the read window the call returns a dictionary: the fix
    gathered from the lines when every [readline] was answered, and, when a
    [readline] raised, a dictionary with [gps_fix_valid] false, [satellites]
    0 and the exception's text under [error].  The handling of one line
    always ends normally.  A line that does not decode changes nothing; an
    RMC sentence in which a field fails to parse changes only the line
    count.  In every case the data gathered so far is either left as it
    was, with the two flags, or updated whole from a sentence whose fields
    all parsed: never in part. *)
Theorem read_gps_never_raises (E : env) (timeout : Z) (w : world) (k fuel : nat) :
  (k < fuel)%nat ->
  gps_window_open (clock E (S (calls w Clock) + k)) (clock E (calls w Clock)) timeout
    = false ->
  (exists d w',
     read_gps_for E fuel timeout w = (Ret d, w') /\
     ((error d = None /\ reads_answered E w w') \/
      (exists e, last_read_raised E w w' e /\ d = gps_error e /\
                 gps_fix_valid d = false /\ satellites d = 0 /\
                 error d = Some (exn_msg e)))) /\
  (forall fuel' e, fst (read_gps_for E fuel' timeout w) <> Raise e) /\
  (forall line st,
     exists c st',
       process_line line st = (Ret c, st') /\
       (forall e, decode_ascii line = Err e -> c = Continue /\ st' = st) /\
       (forall s e,
          decode_ascii line = Ok s ->
          startswith_any (strip s) ["$GPRMC"; "$GNRMC"] = true ->
          parse_rmc_line (strip s) = Err e ->
          st' = count_line st) /\
       line_effect line st st').
Proof.
  intros Hfuel Hclosed. split; [| split].
  - unfold read_gps_for, try_except.
    rewrite (bind_run _ _ _ _ _ (ticks_ms_run E w)).
    destruct (read_gps_loop_ends E (clock E (calls w Clock)) timeout k fuel
                initial_locals (called Clock w) Hfuel Hclosed eq_refl)
      as [w' [[d [Hr [Hd Ha]]] | [e [Hr Hl]]]]; rewrite Hr.
    + exists d, w'. split; [reflexivity | left; split; [exact Hd | exact Ha]].
    + exists (gps_error e), w'. split; [reflexivity |].
      right. exists e. repeat split; apply Hl.
  - intros fuel' e. unfold read_gps_for, try_except.
    destruct (bind (ticks_ms E) _ w) as [[d | e' | |] w']; cbn; discriminate.
  - intros line st. apply process_line_effect.
Qed.

(** One sentence in the first second, the window closed at the third test. *)
Lemma read_gps_never_raises_witness :
  exists d w',
    read_gps_for (one_sentence rmc_sentence_13) 10 3000 initial_world = (Ret d, w') /\
    ((error d = None /\ reads_answered (one_sentence rmc_sentence_13) initial_world w') \/
     (exists e, last_read_raised (one_sentence rmc_sentence_13) initial_world w' e /\
                d = gps_error e /\ gps_fix_valid d = false /\ satellites d = 0 /\
                error d = Some (exn_msg e))).
Proof.
  apply (read_gps_never_raises (one_sentence rmc_sentence_13) 3000 initial_world 2 10).
  - lia.
  - vm_compute. reflexivity.
Defined.

End ReadGpsFacts.

(** ** Statements of main.py and what they leave alone *)

Section WorldFacts.

Variable E : env.

Lemma deepsleep_count_app (l1 l2 : list event) :
  deepsleep_count (l1 ++ l2) = (deepsleep_count l1 + deepsleep_count l2)%nat.
Proof. unfold deepsleep_count. rewrite filter_app, length_app. reflexivity. Qed.

Lemma frame_refl (w : world) : frame w w.
Proof.
  split; try reflexivity. exists []. split; [symmetry; apply app_nil_r | reflexivity].
Qed.

Lemma frame_preorder : PreOrder frame.
Proof.
  split.
  - exact frame_refl.
  - intros a b c [[e1 [H1 C1]] H2 H3 H4] [[e2 [H5 C2]] H6 H7 H8].
    split; try congruence.
    exists (e1 ++ e2). split.
    + rewrite H5, H1. symmetry. apply app_assoc.
    + rewrite deepsleep_count_app, C1, C2. reflexivity.
Qed.

#[local] Existing Instance frame_preorder.

Lemma ask_frame {A} (d : device) (o : nat -> result A) : keeps frame (ask d o).
Proof.
  intros w. cbn. split; try reflexivity.
  exists []. split; [symmetry; apply app_nil_r | reflexivity].
Qed.

Lemma ask_mild {A} (d : device) (o : nat -> result A) : mild (ask d o).
Proof.
  intros w. unfold ask. cbn. destruct (o (calls w d)) as [a | e];
    [left; exists a | right; exists e]; reflexivity.
Qed.

Lemma logged_frame (ev : event) :
  is_deepsleep ev = false -> keeps frame (modify (logged ev)).
Proof.
  intros H w. cbn. split; try reflexivity. exists [ev]. split; [reflexivity |].
  unfold deepsleep_count. cbn. rewrite H. reflexivity.
Qed.

Lemma modify_frame (f : world -> world) :
  (forall w, trace (f w) = trace w /\
             engine (sensor_data (f w)) = engine (sensor_data w) /\
             engine_off_time (f w) = engine_off_time w /\
             is_shutting_down (f w) = is_shutting_down w) ->
  keeps frame (modify f).
Proof.
  intros H w. destruct (H w) as [H1 [H2 [H3 H4]]]. cbn.
  split; try assumption.
  exists []. split; [rewrite H1; symmetry; apply app_nil_r | reflexivity].
Qed.

Lemma lcd_run (ev : event) (w : world) :
  lcd_ok E -> lcd E ev w = (Ret tt, called Lcd (logged ev w)).
Proof.
  intros H. unfold lcd, bind, emit, modify, ask. cbn. rewrite H. reflexivity.
Qed.

Lemma lcd_safe (ev : event) : lcd_ok E -> safe (lcd E ev).
Proof. intros H w. exists tt. rewrite (lcd_run ev w H). reflexivity. Qed.

Ltac unfold_calls :=
  unfold lcd, fs, WLAN, sta_active_on, sta_active, sta_isconnected, sta_connect,
    sock, sock_recv_decode, i2c_readfrom_mem, uart_readline, ticks_ms, time_time,
    sleep, emit.

Ltac w_mild :=
  repeat match goal with
    | H : mild ?m |- mild ?m => exact H
    | H : safe ?m |- mild ?m => apply safe_mild; exact H
    | |- mild (ret _) => apply mild_ret
    | |- mild (raise _) => apply mild_raise
    | |- mild (eval _) => apply mild_eval
    | |- mild get => apply safe_mild, safe_get
    | |- mild (modify _) => apply safe_mild, safe_modify
    | |- mild (ask _ _) => apply ask_mild
    | |- mild (bind _ _) => apply mild_bind; [| intros ?]
    | |- mild (try_except_in _ _ _) => apply mild_try_except_in; [| intros ?]
    | |- mild (try_except _ _) => apply mild_try_except; [| intros ?]
    | |- mild (if ?b then _ else _) => destruct b
    | |- mild (match ?x with _ => _ end) => destruct x
    | |- mild _ => progress unfold_calls
    end.

Ltac w_safe :=
  repeat match goal with
    | H : safe ?m |- safe ?m => exact H
    | H : lcd_ok _ |- safe (lcd _ _) => apply lcd_safe; exact H
    | |- safe (ret _) => apply safe_ret
    | |- safe get => apply safe_get
    | |- safe (modify _) => apply safe_modify
    | |- safe (sleep _) => apply safe_modify
    | |- safe (bind _ _) => apply safe_bind; [| intros ?]
    | |- safe (try_except _ _) => apply safe_try_except; [w_mild | intros ?]
    | |- safe (if ?b then _ else _) => destruct b
    | |- safe (match ?x with _ => _ end) => destruct x
    end.

Ltac w_keeps :=
  repeat match goal with
    | H : keeps frame ?m |- keeps frame ?m => exact H
    | |- keeps _ (ret _) => apply keeps_ret; exact _
    | |- keeps _ (raise _) => apply keeps_raise; exact _
    | |- keeps _ (eval _) => apply keeps_eval; exact _
    | |- keeps _ get => apply keeps_get; exact _
    | |- keeps _ (ask _ _) => apply ask_frame
    | |- keeps _ (modify (logged _)) => apply logged_frame; reflexivity
    | |- keeps _ (modify _) => apply modify_frame; intros ?; repeat split
    | |- keeps _ (bind _ _) => apply keeps_bind; [exact _ | | intros ?]
    | |- keeps _ (try_except_in _ _ _) =>
        apply keeps_try_except_in; [exact _ | | intros ?]
    | |- keeps _ (try_except _ _) => apply keeps_try_except; [exact _ | | intros ?]
    | |- keeps _ (if ?b then _ else _) => destruct b
    | |- keeps _ (match ?x with _ => _ end) => destruct x
    | |- keeps _ _ => progress unfold_calls
    end.

Lemma wifi_wait_mild (timeout : nat) : mild (wifi_wait E timeout).
Proof. induction timeout as [| n IH]; cbn [wifi_wait]; w_mild. Qed.

Lemma wifi_wait_frame (timeout : nat) : keeps frame (wifi_wait E timeout).
Proof. induction timeout as [| n IH]; cbn [wifi_wait]; w_keeps. Qed.

(** [check_wifi] always returns a truth value: whatever the station does,
    an exception ends as [False]. *)
Lemma check_wifi_safe : safe (check_wifi E).
Proof.
  pose proof (wifi_wait_mild 10). unfold check_wifi. w_safe.
Qed.

Lemma check_wifi_frame : keeps frame (check_wifi E).
Proof. pose proof (wifi_wait_frame 10). unfold check_wifi. w_keeps. Qed.

(** [upload_files_ftp] always returns a truth value. *)
Lemma upload_files_ftp_safe : safe (upload_files_ftp E).
Proof. unfold upload_files_ftp. w_safe. Qed.

Lemma upload_files_ftp_frame : keeps frame (upload_files_ftp E).
Proof. unfold upload_files_ftp. w_keeps. Qed.

(** With a working display, [enter_deep_sleep] draws its screen, waits a
    second and powers the chip down. *)
Lemma enter_deep_sleep_halts (w : world) :
  lcd_ok E ->
  exists w',
    enter_deep_sleep E w = (Halt, w') /\
    trace w' = trace w ++ deep_sleep_events /\
    is_shutting_down w' = is_shutting_down w.
Proof.
  intros H. unfold enter_deep_sleep.
  repeat (erewrite bind_run by (apply lcd_run; exact H)).
  eexists. split; [reflexivity |]. cbn.
  split; [| reflexivity].
  rewrite <- !app_assoc. reflexivity.
Qed.

(** The proximity test of a statement, as an expression. *)
Lemma close_to_home_if_valid_run
    (distance : float -> float -> float -> float -> result num)
    (g : gps_dict) (w : world) (close : bool) :
  (if gps_fix_valid g
   then is_close_to_home_with distance (secrets E) g
   else Ok false) = Ok close ->
  close_to_home_if_valid_with E distance g w = (Ret close, w).
Proof.
  intros H. unfold close_to_home_if_valid_with.
  destruct (gps_fix_valid g).
  - rewrite H. reflexivity.
  - injection H as <-. reflexivity.
Qed.

(** The shutdown sequence with a working display and a proximity test that
    answers, whatever distance function it calls: it raises nothing,
    whatever the Wi-Fi station, the socket and the filesystem do, and it
    ends in [enter_deep_sleep]. *)
Lemma shutdown_sequence_sleeps
    (distance : float -> float -> float -> float -> result num)
    (w : world) (close : bool) :
  lcd_ok E ->
  (if gps_fix_valid (gps (sensor_data w))
   then is_close_to_home_with distance (secrets E) (gps (sensor_data w))
   else Ok false) = Ok close ->
  exists w' evs,
    handle_shutdown_sequence_with E distance w = (Halt, w') /\
    trace w' = trace w ++ evs ++ deep_sleep_events /\
    deepsleep_count evs = O /\
    is_shutting_down w' = true.
Proof.
  intros Hlcd Hprox. unfold handle_shutdown_sequence_with.
  erewrite bind_run by reflexivity.
  do 6 (erewrite bind_run by (apply lcd_run; exact Hlcd)).
  erewrite bind_run by reflexivity.
  match goal with
  | |- context [bind (close_to_home_if_valid_with E distance ?g) _ ?w1] =>
      pose proof (close_to_home_if_valid_run distance g w1 close) as Hclose;
      remember w1 as w2 eqn:Hw2
  end.
  assert (Hg : gps (sensor_data w2) = gps (sensor_data w)) by (subst w2; reflexivity).
  rewrite Hg in *. specialize (Hclose Hprox).
  erewrite bind_run by exact Hclose. clear Hclose.
  assert (Htrace : exists evs, trace w2 = trace w ++ evs /\ deepsleep_count evs = O).
  { subst w2. cbn. eexists. rewrite <- !app_assoc. split; reflexivity. }
  assert (Hsd : is_shutting_down w2 = true) by (subst w2; reflexivity).
  clear Hw2 Hg.
  match goal with
  | |- context [bind ?m (fun _ => enter_deep_sleep E) w2] =>
      assert (Hs : safe m)
        by (pose proof check_wifi_safe; pose proof upload_files_ftp_safe; w_safe);
      assert (Hf : keeps frame m)
        by (pose proof check_wifi_frame; pose proof upload_files_ftp_frame; w_keeps);
      specialize (Hs w2); specialize (Hf w2);
      destruct (m w2) as [o w3] eqn:Hm
  end.
  destruct Hs as [u Hu]. cbn in Hu. subst o. cbn in Hf.
  erewrite bind_run by exact Hm.
  destruct (enter_deep_sleep_halts w3 Hlcd) as [w' [Hrun [Htr Hsd']]].
  destruct Hf as [[evs [Hevs Cevs]] _ _ Hsd''].
  destruct Htrace as [evs0 [Hevs0 Cevs0]].
  exists w', (evs0 ++ evs). split; [exact Hrun |].
  split; [| split].
  - rewrite Htr, Hevs, Hevs0. rewrite <- !app_assoc. reflexivity.
  - rewrite deepsleep_count_app, Cevs0, Cevs. reflexivity.
  - rewrite Hsd', Hsd''. exact Hsd.
Qed.

Lemma for_each_frame {A} (l : list A) (body : A -> stmt unit) :
  (forall x, keeps frame (body x)) -> keeps frame (for_each l body).
Proof. intros H. induction l as [| x l IH]; cbn [for_each]; w_keeps. apply H. Qed.

Lemma cleanup_old_logs_frame : keeps frame (cleanup_old_logs E).
Proof.
  unfold cleanup_old_logs.
  assert (Hf : forall cutoff l, keeps frame (for_each l (cleanup_file E cutoff))).
  { intros cutoff l. apply for_each_frame. intros x. unfold cleanup_file. w_keeps. }
  w_keeps. apply Hf.
Qed.

Lemma log_sensor_data_frame : keeps frame (log_sensor_data E).
Proof.
  pose proof cleanup_old_logs_frame.
  unfold log_sensor_data, close_to_home_if_valid, close_to_home_if_valid_with. w_keeps.
Qed.

Lemma read_gps_loop_frame (start_time timeout : Z) (fuel : nat) :
  forall st, keeps frame (read_gps_loop E fuel start_time timeout st).
Proof.
  induction fuel as [| fuel IH]; intros st; cbn [read_gps_loop].
  - intros w. apply frame_refl.
  - w_keeps; apply IH.
Qed.

Lemma read_gps_frame (fuel : nat) : keeps frame (read_gps E fuel).
Proof.
  unfold read_gps, read_gps_for.
  assert (H := fun s => read_gps_loop_frame s 3000 fuel initial_locals).
  w_keeps. apply H.
Qed.

Lemma read_battery_status_frame : keeps frame (read_battery_status E).
Proof. unfold read_battery_status. cbv zeta. w_keeps. Qed.

Lemma refresh_readings_frame (fuel : nat) (current_time : Z) :
  keeps frame (refresh_readings E fuel current_time).
Proof.
  pose proof (read_gps_frame fuel). pose proof read_battery_status_frame.
  pose proof log_sensor_data_frame. pose proof check_wifi_frame.
  unfold refresh_readings, show_home_status, refresh_wifi, close_to_home_if_valid,
    close_to_home_if_valid_with.
  w_keeps.
Qed.

Lemma engine_is_on_run (w : world) :
  engine_is_on E w = (Ret (engine_sample E w), called I2c w).
Proof.
  unfold engine_is_on, try_except, bind, i2c_readfrom_mem, ask, engine_sample.
  destruct (i2c_readfrom_mem_at E (calls w I2c) AXP2101_ADDR 0 1) as [[| b0 l] | e];
    reflexivity.
Qed.

End WorldFacts.

(** C1.  Whenever [handle_shutdown_sequence] is invoked, with a display
    that works and a proximity test that answers (the fix is invalid, or
    [is_close_to_home] returns: the statement holds for every distance
    function in the place of [calculate_distance_feet]), no exception
    propagates out of it, whatever the Wi-Fi station and the upload (socket,
    filesystem) do or raise, and it ends by handing off to
    [enter_deep_sleep]: the run ends in deep sleep, the trace ends with the
    events of [enter_deep_sleep], and [is_shutting_down] is set. *)
Theorem handle_shutdown_sequence_completes
    (distance : float -> float -> float -> float -> result num)
    (E : env) (w : world) (close : bool) :
  lcd_ok E ->
  (if gps_fix_valid (gps (sensor_data w))
   then is_close_to_home_with distance (secrets E) (gps (sensor_data w))
   else Ok false) = Ok close ->
  exists w' evs,
    handle_shutdown_sequence_with E distance w = (Halt, w') /\
    (forall e, fst (handle_shutdown_sequence_with E distance w) <> Raise e) /\
    trace w' = trace w ++ evs ++ deep_sleep_events /\
    is_shutting_down w' = true.
Proof.
  intros Hlcd Hprox.
  destruct (shutdown_sequence_sleeps E distance w close Hlcd Hprox)
    as [w' [evs [Hrun [Htr [_ Hsd]]]]].
  exists w', evs. split; [exact Hrun |].
  split; [intros e; rewrite Hrun; discriminate |].
  split; assumption.
Qed.

(** The van parked at home, the proximity test answering for a distance of
    0 ft.  On one bench the station never associates, on the other it does
    and the FTP host cannot be reached. *)
Lemma handle_shutdown_sequence_completes_witness :
  (exists w' evs,
     handle_shutdown_sequence_with idle_bench distance_at_home parked_at_home
       = (Halt, w') /\
     (forall e,
        fst (handle_shutdown_sequence_with idle_bench distance_at_home parked_at_home)
          <> Raise e) /\
     trace w' = trace parked_at_home ++ evs ++ deep_sleep_events /\
     is_shutting_down w' = true) /\
  (exists w' evs,
     handle_shutdown_sequence_with upload_failing_bench distance_at_home parked_at_home
       = (Halt, w') /\
     (forall e,
        fst (handle_shutdown_sequence_with upload_failing_bench distance_at_home
               parked_at_home) <> Raise e) /\
     trace w' = trace parked_at_home ++ evs ++ deep_sleep_events /\
     is_shutting_down w' = true).
Proof.
  split.
  - apply (handle_shutdown_sequence_completes distance_at_home idle_bench parked_at_home
             (num_le (Real 0) HOME_RADIUS_FT)).
    + intros n. reflexivity.
    + reflexivity.
  - apply (handle_shutdown_sequence_completes distance_at_home upload_failing_bench
             parked_at_home (num_le (Real 0) HOME_RADIUS_FT)).
    + intros n. reflexivity.
    + reflexivity.
Defined.

(** ** The power state machine in [update_sensors] *)

Section PowerFacts.

Variable E : env.

#[local] Existing Instance frame_preorder.

Lemma frame_power_state (w w' : world) :
  frame w w' -> power_state_of w' = power_state_of w.
Proof.
  intros [_ H1 H2 H3]. unfold power_state_of. rewrite H1, H2, H3. reflexivity.
Qed.

(** A tick that is due runs the power tracking on the reading it took. *)
Lemma update_sensors_due (fuel : nat) (w : world) :
  tick_due E w ->
  update_sensors E fuel w =
  bind (track_power_state E (tick_time E w))
    (fun shutting_down : bool =>
       if shutting_down then ret tt
       else refresh_readings E fuel (tick_time E w))
    (called Clock w).
Proof.
  intros Hdue. unfold update_sensors.
  rewrite (bind_run _ _ _ _ _ (ticks_ms_run E w)).
  erewrite bind_run by reflexivity.
  unfold tick_due, tick_time in *. cbn [sensor_data called].
  rewrite Hdue. reflexivity.
Qed.

(** A tick that is not due changes nothing but the count of readings. *)
Lemma update_sensors_not_due (fuel : nat) (w : world) :
  sensor_update_not_due (tick_time E w) (last_update (sensor_data w)) = true ->
  update_sensors E fuel w = (Ret tt, called Clock w).
Proof.
  intros Hdue. unfold update_sensors.
  rewrite (bind_run _ _ _ _ _ (ticks_ms_run E w)).
  erewrite bind_run by reflexivity.
  unfold tick_time in *. cbn [sensor_data called].
  rewrite Hdue. reflexivity.
Qed.

(** What the power tracking does when it does not start the shutdown. *)
Lemma track_power_state_run (now : Z) (w : world) :
  (engine_sample E w = false ->
   engine (sensor_data w) = false ->
   shutdown_timer_expired now (engine_off_time w) = false) ->
  track_power_state E now w =
  (Ret false,
   let w1 := set_sensor_data (set_engine (engine_sample E w)) (called I2c w) in
   if engine_sample E w then set_engine_off_time None w1
   else if engine (sensor_data w) then set_engine_off_time (Some now) w1
   else w1).
Proof.
  intros Hno. unfold track_power_state.
  erewrite bind_run by reflexivity.
  rewrite (bind_run _ _ _ _ _ (engine_is_on_run E w)).
  erewrite bind_run by reflexivity.
  destruct (engine_sample E w) eqn:Hs; [reflexivity |].
  erewrite bind_run by reflexivity.
  destruct (engine (sensor_data w)) eqn:He; [reflexivity |].
  cbn [andb negb engine_off_time set_sensor_data called].
  rewrite (Hno eq_refl eq_refl). reflexivity.
Qed.

(** EngineOn, sample false at [t0]: the state becomes EngineOffTimer(t0). *)
Lemma engine_off_starts_timer (fuel : nat) (w : world) :
  tick_due E w ->
  power_state_of w = EngineOn ->
  engine_sample E w = false ->
  power_state_of (snd (update_sensors E fuel w)) = EngineOffTimer (tick_time E w).
Proof.
  intros Hdue Hst Hs.
  assert (Hsd : is_shutting_down w = false /\ engine (sensor_data w) = true).
  { unfold power_state_of in Hst.
    destruct (is_shutting_down w); [discriminate |].
    destruct (engine (sensor_data w)); [split; reflexivity |].
    destruct (engine_off_time w); discriminate. }
  destruct Hsd as [Hsd He].
  rewrite (update_sensors_due fuel w Hdue).
  erewrite bind_run
    by (apply track_power_state_run; cbn [sensor_data called]; congruence).
  cbv zeta. change (engine_sample E (called Clock w)) with (engine_sample E w).
  rewrite Hs. cbn [sensor_data called]. rewrite He.
  rewrite (frame_power_state _ _ (refresh_readings_frame E fuel _ _)).
  unfold power_state_of. cbn. rewrite Hsd. reflexivity.
Qed.

(** EngineOffTimer(t0), sample true (at any time): the state returns to
    EngineOn and the timer is discarded. *)
Lemma engine_back_discards_timer (fuel : nat) (w : world) (t0 : Z) :
  tick_due E w ->
  power_state_of w = EngineOffTimer t0 ->
  engine_sample E w = true ->
  power_state_of (snd (update_sensors E fuel w)) = EngineOn /\
  engine_off_time (snd (update_sensors E fuel w)) = None.
Proof.
  intros Hdue Hst Hs.
  assert (Hsd : is_shutting_down w = false).
  { unfold power_state_of in Hst. destruct (is_shutting_down w); [discriminate |].
    reflexivity. }
  rewrite (update_sensors_due fuel w Hdue).
  erewrite bind_run
    by (apply track_power_state_run;
        change (engine_sample E (called Clock w)) with (engine_sample E w);
        congruence).
  cbv zeta. change (engine_sample E (called Clock w)) with (engine_sample E w).
  rewrite Hs.
  pose proof (refresh_readings_frame E fuel (tick_time E w)
                (set_engine_off_time None
                   (set_sensor_data (set_engine true) (called I2c (called Clock w)))))
    as Hf.
  split.
  - rewrite (frame_power_state _ _ Hf). unfold power_state_of. cbn.
    rewrite Hsd. reflexivity.
  - destruct Hf as [_ _ H _]. rewrite H. reflexivity.
Qed.

(** What the power tracking does when the timer has expired. *)
Lemma track_power_state_expired (now : Z) (w : world) :
  engine_sample E w = false ->
  engine (sensor_data w) = false ->
  shutdown_timer_expired now (engine_off_time w) = true ->
  track_power_state E now w =
  bind (handle_shutdown_sequence E) (fun _ => ret true)
    (set_sensor_data (set_engine false) (called I2c w)).
Proof.
  intros Hs He Hexp. unfold track_power_state.
  erewrite bind_run by reflexivity.
  rewrite (bind_run _ _ _ _ _ (engine_is_on_run E w)).
  erewrite bind_run by reflexivity.
  rewrite Hs.
  erewrite bind_run by reflexivity.
  rewrite He. cbn [andb negb engine_off_time set_sensor_data called].
  rewrite Hexp. reflexivity.
Qed.

(** EngineOffTimer(t0) with [t0] not 0, sample false once more than 30 s
    have passed: with a display that works and a proximity test that
    answers, the shutdown sequence runs, once, and the chip sleeps. *)
Lemma timer_expired_shuts_down (fuel : nat) (w : world) (t0 : Z) (close : bool) :
  tick_due E w ->
  power_state_of w = EngineOffTimer t0 ->
  t0 <> 0 ->
  engine_sample E w = false ->
  shutdown_delay_passed (tick_time E w) t0 = true ->
  lcd_ok E ->
  (if gps_fix_valid (gps (sensor_data w))
   then is_close_to_home (secrets E) (gps (sensor_data w))
   else Ok false) = Ok close ->
  exists w' evs,
    update_sensors E fuel w = (Halt, w') /\
    trace w' = trace w ++ evs /\
    deepsleep_count evs = 1%nat /\
    power_state_of w' = ShuttingDown.
Proof.
  intros Hdue Hst Ht0 Hs Hpass Hlcd Hprox.
  assert (Hw : engine (sensor_data w) = false /\ engine_off_time w = Some t0).
  { unfold power_state_of in Hst. destruct (is_shutting_down w); [discriminate |].
    destruct (engine (sensor_data w)); [discriminate |].
    destruct (engine_off_time w); [| discriminate].
    injection Hst as ->. split; reflexivity. }
  destruct Hw as [He Hoff].
  assert (Hexp : shutdown_timer_expired (tick_time E w)
                   (engine_off_time (called Clock w)) = true).
  { cbn [engine_off_time called]. rewrite Hoff.
    unfold shutdown_timer_expired, truthy_int. rewrite Hpass.
    destruct (Z.eqb_spec t0 0) as [| _]; [contradiction | reflexivity]. }
  rewrite (update_sensors_due fuel w Hdue).
  unfold bind at 1.
  rewrite (track_power_state_expired (tick_time E w) (called Clock w) Hs He Hexp).
  destruct (shutdown_sequence_sleeps E calculate_distance_feet_f
              (set_sensor_data (set_engine false) (called I2c (called Clock w)))
              close Hlcd Hprox) as [w' [evs [Hrun [Htr [Hc Hsd]]]]].
  fold (handle_shutdown_sequence E) in Hrun.
  unfold bind. rewrite Hrun.
  exists w', (evs ++ deep_sleep_events).
  split; [reflexivity |]. split; [exact Htr |]. split.
  - rewrite deepsleep_count_app, Hc. reflexivity.
  - unfold power_state_of. rewrite Hsd. reflexivity.
Qed.

(** EngineOffTimer(0): the timer that started on the reading 0 never
    expires.  Whatever the time of a later false sample, the tick starts no
    shutdown and leaves the state as it is. *)
Lemma timer_started_at_zero_never_expires (fuel : nat) (w : world) :
  tick_due E w ->
  power_state_of w = EngineOffTimer 0 ->
  engine_sample E w = false ->
  power_state_of (snd (update_sensors E fuel w)) = EngineOffTimer 0 /\
  exists evs, trace (snd (update_sensors E fuel w)) = trace w ++ evs /\
              deepsleep_count evs = O.
Proof.
  intros Hdue Hst Hs.
  assert (Hw : engine (sensor_data w) = false /\ engine_off_time w = Some 0).
  { unfold power_state_of in Hst. destruct (is_shutting_down w); [discriminate |].
    destruct (engine (sensor_data w)); [discriminate |].
    destruct (engine_off_time w); [| discriminate].
    injection Hst as ->. split; reflexivity. }
  destruct Hw as [He Hoff].
  rewrite (update_sensors_due fuel w Hdue).
  erewrite bind_run
    by (apply track_power_state_run; intros _ _;
        cbn [engine_off_time called]; rewrite Hoff; reflexivity).
  cbv zeta. change (engine_sample E (called Clock w)) with (engine_sample E w).
  rewrite Hs. cbn [sensor_data called]. rewrite He.
  pose proof (refresh_readings_frame E fuel (tick_time E w)
                (set_sensor_data (set_engine false) (called I2c (called Clock w))))
    as Hf.
  split.
  - rewrite (frame_power_state _ _ Hf). unfold power_state_of in *. cbn.
    rewrite He in Hst. exact Hst.
  - destruct Hf as [Htr _ _ _]. exact Htr.
Qed.

End PowerFacts.

(** C2, at a failing input.  The engine runs (EngineOn) and is switched
    off as the counter wraps: the false sample is taken on the reading 0 and
    the state becomes EngineOffTimer(0).  At the next sample, 41 s later
    and still false, [diff(now, 0) > 30000] holds, yet no shutdown starts:
    the state stays EngineOffTimer(0) and the chip is not sent to sleep.
    Had the first sample been taken one millisecond later, on the reading
    1, the same second tick would have run the shutdown sequence once. *)
Theorem update_sensors_timer_at_zero_no_shutdown :
  let E := engine_off_bench (2 ^ 30) in
  let tick1 := update_sensors E 10 engine_running in
  let tick2 := update_sensors E 10 (snd tick1) in
  let E' := engine_off_bench (2 ^ 30 + 1) in
  let tick1' := update_sensors E' 10 engine_running in
  let tick2' := update_sensors E' 10 (snd tick1') in
  (power_state_of engine_running = EngineOn /\
   tick_time E engine_running = 0 /\
   fst tick1 = Ret tt /\
   power_state_of (snd tick1) = EngineOffTimer 0) /\
  (tick_time E (snd tick1) = 41000 /\
   engine_sample E (snd tick1) = false /\
   shutdown_delay_passed 41000 0 = true /\
   fst tick2 = Ret tt /\
   power_state_of (snd tick2) = EngineOffTimer 0 /\
   deepsleep_count (trace (snd tick2)) = 0%nat) /\
  (power_state_of (snd tick1') = EngineOffTimer 1 /\
   tick_time E' (snd tick1') = 41000 /\
   fst tick2' = Halt /\
   power_state_of (snd tick2') = ShuttingDown /\
   deepsleep_count (trace (snd tick2')) = 1%nat).
Proof. vm_compute. repeat split. Qed.

(** C9, at a failing input.  The device starts without an SD card:
    [init_sd_card] returns false and startup goes on.  Once 60 s have
    passed, the sensor update calls [log_sensor_data], which opens the
    day's log file for reading and then for writing: a log append is
    attempted although logging was reported disabled. *)
Theorem main_logs_without_sd_card :
  let run := main no_sd_card 5 2 initial_world in
  fst (init_sd_card no_sd_card initial_world) = Ret false /\
  fst (main_startup no_sd_card 5 initial_world) = Ret tt /\
  fst run = Ret tt /\
  log_write_attempts (trace (snd run)) = 1%nat /\
  In (file_open "/sd/van_log_2026-01-01.json" "w") (trace (snd run)).
Proof.
  cbv zeta. repeat split; try (vm_compute; reflexivity).
  vm_compute. do 14 right. left. reflexivity.
Qed.

(* ================================================================== *)
(** * Further properties of the code                                    *)
(* ================================================================== *)

(** Evaluation of a statement, one collaborator call at a time. *)
Ltac unfold_calls :=
  unfold lcd, fs, WLAN, sta_active_on, sta_active, sta_isconnected, sta_connect,
    sock, sock_recv_decode, i2c_readfrom_mem, uart_readline, ticks_ms, time_time,
    sleep, emit.

Ltac run_mild :=
  repeat match goal with
    | H : mild ?m |- mild ?m => exact H
    | H : safe ?m |- mild ?m => apply safe_mild; exact H
    | |- mild (ret _) => apply mild_ret
    | |- mild (raise _) => apply mild_raise
    | |- mild (eval _) => apply mild_eval
    | |- mild get => apply safe_mild, safe_get
    | |- mild (modify _) => apply safe_mild, safe_modify
    | |- mild (ask _ _) => apply ask_mild
    | |- mild (bind _ _) => apply mild_bind; [| intros ?]
    | |- mild (try_except_in _ _ _) => apply mild_try_except_in; [| intros ?]
    | |- mild (try_except _ _) => apply mild_try_except; [| intros ?]
    | |- mild (if ?b then _ else _) => destruct b
    | |- mild (match ?x with _ => _ end) => destruct x
    | |- mild _ => progress unfold_calls
    end.

Ltac run_safe :=
  repeat match goal with
    | H : safe ?m |- safe ?m => exact H
    | |- safe (ret _) => apply safe_ret
    | |- safe get => apply safe_get
    | |- safe (modify _) => apply safe_modify
    | |- safe (sleep _) => apply safe_modify
    | |- safe (bind _ _) => apply safe_bind; [| intros ?]
    | |- safe (try_except _ _) => apply safe_try_except; [run_mild | intros ?]
    | |- safe (if ?b then _ else _) => destruct b
    | |- safe (match ?x with _ => _ end) => destruct x
    end.

(** ** The power state machine, tick by tick *)

Section PowerTicks.

#[local] Existing Instance frame_preorder.

(** The timer starts at the reading of the tick that sees the engine off. *)
Lemma engine_off_starts_timer_witness :
  power_state_of (snd (update_sensors (engine_off_bench (2 ^ 30)) 10 engine_running))
  = EngineOffTimer (tick_time (engine_off_bench (2 ^ 30)) engine_running).
Proof.
  apply (engine_off_starts_timer (engine_off_bench (2 ^ 30)) 10 engine_running);
    vm_compute; reflexivity.
Defined.

(** The engine comes back 40 s after it was switched off. *)
Lemma engine_back_discards_timer_witness :
  power_state_of (snd (update_sensors (engine_on_bench 41000) 10 timer_running))
    = EngineOn /\
  engine_off_time (snd (update_sensors (engine_on_bench 41000) 10 timer_running))
    = None.
Proof.
  apply (engine_back_discards_timer (engine_on_bench 41000) 10 timer_running 1000);
    vm_compute; reflexivity.
Defined.

(** The engine is still off 40 s after it was switched off; no fix. *)
Lemma timer_expired_shuts_down_witness :
  exists w' evs,
    update_sensors (engine_off_bench 41000) 10 timer_running = (Halt, w') /\
    trace w' = trace timer_running ++ evs /\
    deepsleep_count evs = 1%nat /\
    power_state_of w' = ShuttingDown.
Proof.
  apply (timer_expired_shuts_down (engine_off_bench 41000) 10 timer_running 1000 false).
  - vm_compute. reflexivity.
  - reflexivity.
  - discriminate.
  - reflexivity.
  - vm_compute. reflexivity.
  - intros n. reflexivity.
  - reflexivity.
Defined.

(** While the engine stays off and the shutdown test of line 713 is false
    (no timer, a timer younger than 30 s, or the timer value 0), a tick
    leaves the power state as it is and sends nothing to sleep.  In
    particular a device that starts with the engine off (the state after
    every wake from deep sleep: [engine] false, no timer) starts no timer
    and never shuts down until the engine has been seen on. *)
Lemma engine_off_waits (E : env) (fuel : nat) (w : world) :
  tick_due E w ->
  engine (sensor_data w) = false ->
  engine_sample E w = false ->
  shutdown_timer_expired (tick_time E w) (engine_off_time w) = false ->
  power_state_of (snd (update_sensors E fuel w)) = power_state_of w /\
  exists evs, trace (snd (update_sensors E fuel w)) = trace w ++ evs /\
              deepsleep_count evs = O.
Proof.
  intros Hdue He Hs Hexp.
  rewrite (update_sensors_due E fuel w Hdue).
  erewrite bind_run by (apply track_power_state_run; intros _ _; exact Hexp).
  cbv zeta. change (engine_sample E (called Clock w)) with (engine_sample E w).
  rewrite Hs. cbn [sensor_data called]. rewrite He.
  pose proof (refresh_readings_frame E fuel (tick_time E w)
                (set_sensor_data (set_engine false) (called I2c (called Clock w))))
    as Hf.
  split.
  - rewrite (frame_power_state _ _ Hf). unfold power_state_of. cbn.
    rewrite He. reflexivity.
  - destruct Hf as [Htr _ _ _]. exact Htr.
Qed.

(** After a wake from deep sleep with the engine off: 41 s later, still
    off, still no timer. *)
Lemma engine_off_waits_witness :
  power_state_of (snd (update_sensors (engine_off_bench 41000) 10 initial_world))
    = power_state_of initial_world /\
  exists evs,
    trace (snd (update_sensors (engine_off_bench 41000) 10 initial_world))
      = trace initial_world ++ evs /\
    deepsleep_count evs = O.
Proof.
  apply (engine_off_waits (engine_off_bench 41000) 10 initial_world);
    vm_compute; reflexivity.
Defined.

(** A tick less than 5 s after the last sensor update does nothing but
    read the counter, also when the counter has wrapped in between: no
    sample is taken, nothing is written and no collaborator is called. *)
Lemma update_sensors_waits_five_seconds (E : env) (fuel : nat) (w : world) (d : Z) :
  0 <= d < SENSOR_UPDATE_INTERVAL ->
  tick_time E w = ticks_wrap (last_update (sensor_data w) + d) ->
  update_sensors E fuel w = (Ret tt, called Clock w) /\
  sensor_data (called Clock w) = sensor_data w /\
  engine_off_time (called Clock w) = engine_off_time w /\
  trace (called Clock w) = trace w.
Proof.
  intros Hd Ht. split; [| repeat split].
  apply update_sensors_not_due. rewrite Ht.
  unfold sensor_update_not_due. rewrite ticks_diff_elapsed.
  - apply Z.ltb_lt. lia.
  - unfold SENSOR_UPDATE_INTERVAL in Hd. lia.
Qed.

(** The last update was 2 s before the wrap; the tick comes 1 s after it. *)
Lemma update_sensors_waits_five_seconds_witness :
  let w := set_sensor_data (set_last_update (2 ^ 30 - 2000)) initial_world in
  update_sensors (engine_off_bench 1000) 10 w = (Ret tt, called Clock w) /\
  sensor_data (called Clock w) = sensor_data w /\
  engine_off_time (called Clock w) = engine_off_time w /\
  trace (called Clock w) = trace w.
Proof.
  intros w.
  apply (update_sensors_waits_five_seconds (engine_off_bench 1000) 10 w 3000).
  - vm_compute. split; [discriminate | reflexivity].
  - vm_compute. reflexivity.
Defined.

End PowerTicks.

(** ** The power chip: [engine_is_on] and [read_battery_status] *)

Section HardwareFacts.

Variable E : env.

Lemma land_bit5 (b : Z) : truthy_int (Z.land b 0x20) = Z.testbit b 5.
Proof.
  unfold truthy_int.
  assert (H : Z.land b 0x20 = if Z.testbit b 5 then 2 ^ 5 else 0).
  { apply Z.bits_inj'. intros n Hn. rewrite Z.land_spec.
    change 0x20 with (2 ^ 5). rewrite (Z.pow2_bits_eqb 5 n) by lia.
    destruct (Z.eqb_spec 5 n) as [<- | Hne].
    - rewrite andb_true_r. destruct (Z.testbit b 5) eqn:Hb.
      + rewrite Z.pow2_bits_true by lia. reflexivity.
      + rewrite Z.bits_0. reflexivity.
    - rewrite andb_false_r. destruct (Z.testbit b 5).
      + rewrite Z.pow2_bits_false by lia. reflexivity.
      + rewrite Z.bits_0. reflexivity. }
  rewrite H. destruct (Z.testbit b 5); reflexivity.
Qed.

(** [engine_is_on] never raises and makes one read of the power chip.  It
    answers bit 5 of the status byte (VBUS present), whatever the other bits
    are, and [False] when the read raises or returns no byte. *)
Lemma engine_is_on_vbus_bit (w : world) :
  exists b,
    engine_is_on E w = (Ret b, called I2c w) /\
    (forall b0 rest,
       i2c_readfrom_mem_at E (calls w I2c) AXP2101_ADDR 0x00 1 = Ok (b0 :: rest) ->
       b = Z.testbit b0 5) /\
    (forall e,
       i2c_readfrom_mem_at E (calls w I2c) AXP2101_ADDR 0x00 1 = Err e ->
       b = false) /\
    (i2c_readfrom_mem_at E (calls w I2c) AXP2101_ADDR 0x00 1 = Ok [] -> b = false).
Proof.
  exists (engine_sample E w). split; [apply engine_is_on_run |].
  unfold engine_sample.
  repeat split.
  - intros b0 rest ->. apply land_bit5.
  - intros e ->. reflexivity.
  - intros ->. reflexivity.
Qed.

(** [read_battery_status] never raises: it returns a dictionary or [None],
    writes no global and adds nothing to the trace; the percentage it
    reports lies between 0 and 100. *)
Lemma read_battery_status_never_raises (w : world) :
  exists r w',
    read_battery_status E w = (Ret r, w') /\
    trace w' = trace w /\
    sensor_data w' = sensor_data w /\
    forall b, r = Some b -> 0 <= percentage b <= 100.
Proof.
  unfold read_battery_status, try_except, bind, i2c_readfrom_mem, ask, eval, ret, raise.
  cbv zeta.
  destruct (i2c_readfrom_mem_at E (calls w I2c) AXP2101_ADDR 0 1) as [r0 | e0];
    [| do 2 eexists; repeat split; discriminate].
  destruct (index r0 0) as [pmu | e];
    [| do 2 eexists; repeat split; discriminate].
  match goal with
  | |- context [i2c_readfrom_mem_at E ?n AXP2101_ADDR 1 1] =>
      destruct (i2c_readfrom_mem_at E n AXP2101_ADDR 1 1) as [r1 | e1]
  end; [| do 2 eexists; repeat split; discriminate].
  destruct (index r1 0) as [chg | e];
    [| do 2 eexists; repeat split; discriminate].
  match goal with
  | |- context [i2c_readfrom_mem_at E ?n AXP2101_ADDR 52 2] =>
      destruct (i2c_readfrom_mem_at E n AXP2101_ADDR 52 2) as [r2 | e2]
  end; [| do 2 eexists; repeat split; discriminate].
  destruct (unpack_be16 r2) as [raw | e];
    [| do 2 eexists; repeat split; discriminate].
  match goal with
  | |- context [int_of_float ?f] => destruct (int_of_float f) as [pct | e]
  end; [| do 2 eexists; repeat split; discriminate].
  do 2 eexists. split; [reflexivity |]. repeat split.
  - injection H as <-. cbn. lia.
  - injection H as <-. cbn. lia.
Qed.

Lemma percentage_within_one_liion (raw : Z) :
  3000 <= raw <= 4200 -> percentage_within_one raw = true.
Proof.
  intros H.
  assert (Hall : forallb (fun n => percentage_within_one (3000 + Z.of_nat n)) (seq 0 1201)
                 = true) by (vm_compute; reflexivity).
  rewrite forallb_forall in Hall.
  replace raw with (3000 + Z.of_nat (Z.to_nat (raw - 3000))) by lia.
  apply Hall. apply in_seq. lia.
Qed.

(** With a battery in the Li-ion range (3.0 V to 4.2 V) and the three reads
    answered, [read_battery_status] returns a dictionary.  Its percentage
    is computed in floating point; it is the exact percentage
    [(mV - 3000) / 12] rounded down, or one point below it. *)
Lemma read_battery_status_liion (w : world) (p c hi lo : Z) :
  i2c_readfrom_mem_at E (calls w I2c) AXP2101_ADDR 0x00 1 = Ok [p] ->
  i2c_readfrom_mem_at E (S (calls w I2c)) AXP2101_ADDR 0x01 1 = Ok [c] ->
  i2c_readfrom_mem_at E (S (S (calls w I2c))) AXP2101_ADDR 0x34 2 = Ok [hi; lo] ->
  3000 <= hi * 256 + lo <= 4200 ->
  exists b w',
    read_battery_status E w = (Ret (Some b), w') /\
    (hi * 256 + lo - 3000) / 12 - 1 <= percentage b <= (hi * 256 + lo - 3000) / 12 /\
    pmu_status_raw b = p /\
    charging_state b = charge_states (Z.land c 0x07).
Proof.
  intros H0 H1 H2 Hraw.
  pose proof (percentage_within_one_liion _ Hraw) as Hp.
  unfold percentage_within_one, voltage_percentage_of in Hp. cbv zeta in Hp.
  unfold read_battery_status, try_except, bind, i2c_readfrom_mem, ask, eval, ret, raise.
  cbv zeta. rewrite H0. cbn [index nth_error].
  cbn [calls called device_eqb]. rewrite H1. cbn [index nth_error].
  cbn [calls called device_eqb]. rewrite H2. cbn [unpack_be16].
  destruct (int_of_float
              ((float_of_int (hi * 256 + lo) * 0.001 - 3.0) / 1.2 * float_of_int 100)%float)
    as [pct | e]; [| discriminate].
  cbn [rbind] in Hp. apply andb_prop in Hp. destruct Hp as [Hlo Hhi].
  apply Z.leb_le in Hlo, Hhi.
  do 2 eexists. split; [reflexivity |]. cbn. repeat split; lia.
Qed.

End HardwareFacts.

(** A battery at 3.7 V, charging at constant current. *)
Lemma read_battery_status_liion_witness :
  exists b w',
    read_battery_status battery_bench initial_world = (Ret (Some b), w') /\
    (14 * 256 + 116 - 3000) / 12 - 1 <= percentage b <= (14 * 256 + 116 - 3000) / 12 /\
    pmu_status_raw b = 0x20 /\
    charging_state b = charge_states (Z.land 2 0x07).
Proof.
  apply (read_battery_status_liion battery_bench initial_world 0x20 2 14 116);
    [reflexivity | reflexivity | reflexivity | lia].
Defined.


(** ** The SD card, the Wi-Fi station and the FTP session *)

Section NetworkFacts.

Variable E : env.

(** [init_sd_card] never raises.  It makes at most five filesystem calls
    (card, mount, open, write, remove) and returns [True] exactly when all
    five succeed. *)
Lemma init_sd_card_true_iff (w : world) :
  exists b w',
    init_sd_card E w = (Ret b, w') /\
    (calls w' Fs <= calls w Fs + 5)%nat /\
    (b = true <->
     forall k, (k < 5)%nat -> fs_cmd_at E (calls w Fs + k) = Ok tt).
Proof.
  assert (Hno : forall k e, (k < 5)%nat -> fs_cmd_at E (calls w Fs + k) = Err e ->
            (false = true <->
             forall k, (k < 5)%nat -> fs_cmd_at E (calls w Fs + k) = Ok tt)).
  { intros k e Hk He. split; [discriminate |]. intros H. rewrite (H k Hk) in He.
    discriminate. }
  assert (Hfs : forall ev w0, fs E ev w0 =
            (match fs_cmd_at E (calls w0 Fs) with
             | Ok a => Ret a
             | Err e => Raise e
             end, called Fs (logged ev w0))) by reflexivity.
  unfold init_sd_card, try_except. cbv zeta.
  unfold bind at 1. rewrite Hfs.
  destruct (fs_cmd_at E (calls w Fs)) as [[] | e0] eqn:H0.
  2: { do 2 eexists. split; [reflexivity |]. split; [cbn; lia |].
       apply (Hno 0%nat e0); [lia |]. rewrite Nat.add_0_r. exact H0. }
  unfold bind at 1. rewrite Hfs. cbn [calls called logged device_eqb].
  destruct (fs_cmd_at E (S (calls w Fs))) as [[] | e1] eqn:H1.
  2: { do 2 eexists. split; [reflexivity |]. split; [cbn; lia |].
       apply (Hno 1%nat e1); [lia |]. rewrite Nat.add_1_r. exact H1. }
  unfold bind at 1. rewrite Hfs. cbn [calls called logged device_eqb].
  destruct (fs_cmd_at E (S (S (calls w Fs)))) as [[] | e2] eqn:H2.
  2: { do 2 eexists. split; [reflexivity |]. split; [cbn; lia |].
       apply (Hno 2%nat e2); [lia |].
       replace (calls w Fs + 2)%nat with (S (S (calls w Fs))) by lia. exact H2. }
  unfold bind at 1. rewrite Hfs. cbn [calls called logged device_eqb].
  destruct (fs_cmd_at E (S (S (S (calls w Fs))))) as [[] | e3] eqn:H3.
  2: { do 2 eexists. split; [reflexivity |]. split; [cbn; lia |].
       apply (Hno 3%nat e3); [lia |].
       replace (calls w Fs + 3)%nat with (S (S (S (calls w Fs)))) by lia. exact H3. }
  unfold bind at 1. rewrite Hfs. cbn [calls called logged device_eqb].
  destruct (fs_cmd_at E (S (S (S (S (calls w Fs)))))) as [[] | e4] eqn:H4.
  2: { do 2 eexists. split; [reflexivity |]. split; [cbn; lia |].
       apply (Hno 4%nat e4); [lia |].
       replace (calls w Fs + 4)%nat with (S (S (S (S (calls w Fs))))) by lia. exact H4. }
  do 2 eexists. split; [reflexivity |]. split; [cbn; lia |].
  split; [| reflexivity]. intros _ k Hk.
  destruct k as [| [| [| [| [| k]]]]]; try lia.
  - rewrite Nat.add_0_r. exact H0.
  - rewrite Nat.add_1_r. exact H1.
  - replace (calls w Fs + 2)%nat with (S (S (calls w Fs))) by lia. exact H2.
  - replace (calls w Fs + 3)%nat with (S (S (S (calls w Fs)))) by lia. exact H3.
  - replace (calls w Fs + 4)%nat with (S (S (S (S (calls w Fs))))) by lia. exact H4.
Qed.

Lemma time_slept_app (l1 l2 : list event) :
  time_slept (l1 ++ l2) = time_slept l1 + time_slept l2.
Proof.
  induction l1 as [| ev l1 IH]; [reflexivity |].
  change (time_slept ((ev :: l1) ++ l2)) with (sleep_ms ev + time_slept (l1 ++ l2)).
  change (time_slept (ev :: l1)) with (sleep_ms ev + time_slept l1).
  rewrite IH. lia.
Qed.

Lemma time_slept_repeat (k : nat) :
  time_slept (repeat (time_sleep 1000) k) = 1000 * Z.of_nat k.
Proof.
  induction k as [| k IH]; [reflexivity |].
  cbn [repeat]. change (time_slept (time_sleep 1000 :: repeat (time_sleep 1000) k))
    with (1000 + time_slept (repeat (time_sleep 1000) k)).
  rewrite IH. lia.
Qed.

(** The wait loop of [check_wifi]: one query per round, a second of sleep
    after each query answered [False]. *)
Lemma wifi_wait_rounds (timeout : nat) :
  forall w, exists o w' k,
    wifi_wait E timeout w = (o, w') /\
    (k <= timeout)%nat /\
    trace w' = trace w ++ repeat (time_sleep 1000) k /\
    (calls w Wlan <= calls w' Wlan)%nat /\
    (forall b, o = Ret (Some b) ->
       b = true /\
       exists i, (calls w Wlan <= i < calls w' Wlan)%nat /\
                 wlan_query_at E i = Ok true) /\
    ((forall i, (calls w Wlan <= i)%nat -> wlan_query_at E i = Ok false) ->
     o = Ret None /\ k = timeout).
Proof.
  induction timeout as [| n IH]; intros w; cbn [wifi_wait].
  - exists (Ret None), w, 0%nat. split; [reflexivity |]. split; [lia |].
    split; [symmetry; apply app_nil_r |]. split; [lia |].
    split; [discriminate |]. intros _. split; reflexivity.
  - unfold bind at 1, sta_isconnected, ask.
    destruct (wlan_query_at E (calls w Wlan)) as [[|] | e] eqn:Hq.
    + exists (Ret (Some true)), (called Wlan w), 0%nat.
      split; [reflexivity |]. split; [lia |].
      split; [symmetry; apply app_nil_r |]. split; [cbn; lia |].
      split.
      * intros b Hb. injection Hb as <-. split; [reflexivity |].
        exists (calls w Wlan). split; [cbn; lia | exact Hq].
      * intros H. rewrite (H (calls w Wlan)) in Hq by lia. discriminate.
    + destruct (IH (logged (time_sleep 1000) (called Wlan w)))
        as [o [w' [k [Hrun [Hk [Htr [Hc [Hb Hf]]]]]]]].
      exists o, w', (S k). split; [exact Hrun |]. split; [lia |].
      split; [rewrite Htr; cbn; rewrite <- app_assoc; reflexivity |].
      cbn in Hc. split; [lia |]. split.
      * intros b Ho. destruct (Hb b Ho) as [-> [i [Hi Hqi]]].
        split; [reflexivity |]. exists i. cbn in Hi. split; [lia | exact Hqi].
      * intros H. destruct Hf as [-> ->]; [| split; reflexivity].
        intros i Hi. apply H. cbn in Hi. lia.
    + exists (Raise e), (called Wlan w), 0%nat.
      split; [reflexivity |]. split; [lia |].
      split; [symmetry; apply app_nil_r |]. split; [cbn; lia |].
      split; [discriminate |].
      intros H. rewrite (H (calls w Wlan)) in Hq by lia. discriminate.
Qed.

Lemma WLAN_run (w : world) :
  WLAN E w =
  (match wlan_cmd_at E (calls w Wlan) with
   | Ok a => Ret a
   | Err e => Raise e
   end, called Wlan w).
Proof. reflexivity. Qed.

Lemma sta_active_on_run (w : world) :
  sta_active_on E w =
  (match wlan_cmd_at E (calls w Wlan) with
   | Ok a => Ret a
   | Err e => Raise e
   end, called Wlan (logged (WLAN_active true) w)).
Proof. reflexivity. Qed.

Lemma sta_isconnected_run (w : world) :
  sta_isconnected E w =
  (match wlan_query_at E (calls w Wlan) with
   | Ok a => Ret a
   | Err e => Raise e
   end, called Wlan w).
Proof. reflexivity. Qed.

Lemma sta_connect_run (ssid password : string) (w : world) :
  sta_connect E ssid password w =
  (match wlan_cmd_at E (calls w Wlan) with
   | Ok a => Ret a
   | Err e => Raise e
   end, called Wlan (logged (WLAN_connect ssid password) w)).
Proof. reflexivity. Qed.

(** What a call of [check_wifi] does. *)
Lemma check_wifi_run (w : world) :
  exists b w' evs,
    check_wifi E w = (Ret b, w') /\
    trace w' = trace w ++ evs /\
    0 <= time_slept evs <= 10000 /\
    (b = true ->
     exists i, (calls w Wlan <= i < calls w' Wlan)%nat /\
               wlan_query_at E i = Ok true) /\
    ((forall i, (calls w Wlan <= i)%nat -> wlan_cmd_at E i = Ok tt) ->
     (forall i, (calls w Wlan <= i)%nat -> wlan_query_at E i = Ok false) ->
     b = false /\
     evs = [WLAN_active true;
            WLAN_connect (WIFI_SSID (secrets E)) (WIFI_PASS (secrets E))]
           ++ repeat (time_sleep 1000) 10).
Proof.
  unfold check_wifi. unfold bind at 1. unfold try_except.
  pose proof (WLAN_run w) as Hr.
  destruct (wlan_cmd_at E (calls w Wlan)) as [[] | e0] eqn:H0.
  2: { rewrite (bind_raise _ _ _ _ _ Hr).
       exists false. eexists. exists []. split; [reflexivity |].
       split; [symmetry; apply app_nil_r |]. split; [cbn; lia |].
       split; [discriminate |]. intros Hc _. rewrite Hc in H0 by lia. discriminate. }
  rewrite (bind_run _ _ _ _ _ Hr). clear Hr.
  pose proof (sta_active_on_run (called Wlan w)) as Hr.
  cbn [calls called logged device_eqb] in Hr.
  destruct (wlan_cmd_at E (S (calls w Wlan))) as [[] | e1] eqn:H1.
  2: { rewrite (bind_raise _ _ _ _ _ Hr).
       exists false. eexists. exists [WLAN_active true]. split; [reflexivity |].
       split; [reflexivity |]. split; [cbn; lia |].
       split; [discriminate |]. intros Hc _. rewrite Hc in H1 by lia. discriminate. }
  rewrite (bind_run _ _ _ _ _ Hr). clear Hr.
  pose proof (sta_isconnected_run (called Wlan (logged (WLAN_active true) (called Wlan w))))
    as Hr.
  cbn [calls called logged device_eqb] in Hr.
  destruct (wlan_query_at E (S (S (calls w Wlan)))) as [[|] | e2] eqn:H2.
  3: { rewrite (bind_raise _ _ _ _ _ Hr).
       exists false. eexists. exists [WLAN_active true]. split; [reflexivity |].
       split; [reflexivity |]. split; [cbn; lia |].
       split; [discriminate |]. intros _ Hq. rewrite Hq in H2 by lia. discriminate. }
  { rewrite (bind_run _ _ _ _ _ Hr).
    exists true. eexists. exists [WLAN_active true]. split; [reflexivity |].
    split; [reflexivity |]. split; [cbn; lia |].
    split.
    - intros _. exists (S (S (calls w Wlan))). split; [cbn; lia | exact H2].
    - intros _ Hq. rewrite Hq in H2 by lia. discriminate. }
  rewrite (bind_run _ _ _ _ _ Hr). clear Hr.
  pose proof (sta_connect_run (WIFI_SSID (secrets E)) (WIFI_PASS (secrets E))
                (called Wlan (called Wlan (logged (WLAN_active true) (called Wlan w)))))
    as Hr.
  cbn [calls called logged device_eqb] in Hr.
  destruct (wlan_cmd_at E (S (S (S (calls w Wlan))))) as [[] | e3] eqn:H3.
  2: { rewrite (bind_raise _ _ _ _ _ Hr).
       exists false. eexists.
       exists [WLAN_active true;
               WLAN_connect (WIFI_SSID (secrets E)) (WIFI_PASS (secrets E))].
       split; [reflexivity |].
       split; [cbn; rewrite <- app_assoc; reflexivity |]. split; [cbn; lia |].
       split; [discriminate |]. intros Hc _. rewrite Hc in H3 by lia. discriminate. }
  rewrite (bind_run _ _ _ _ _ Hr). clear Hr.
  match goal with
  | |- context [wifi_wait E 10 ?w1] =>
      destruct (wifi_wait_rounds 10 w1) as [o [w' [k [Hrun [Hk [Htr [Hc [Hb Hf]]]]]]]];
      pose proof (wifi_wait_mild E 10 w1) as Hm;
      rewrite Hrun in *
  end.
  cbn [trace calls called logged device_eqb] in Htr, Hc, Hf, Hb.
  assert (Hsl : 0 <= time_slept ([WLAN_active true;
                     WLAN_connect (WIFI_SSID (secrets E)) (WIFI_PASS (secrets E))]
                     ++ repeat (time_sleep 1000) k) <= 10000).
  { rewrite time_slept_app, time_slept_repeat. unfold time_slept.
    cbn [fold_right sleep_ms]. lia. }
  assert (Htr' : trace w' = trace w ++ [WLAN_active true;
                     WLAN_connect (WIFI_SSID (secrets E)) (WIFI_PASS (secrets E))]
                     ++ repeat (time_sleep 1000) k).
  { rewrite Htr. rewrite <- !app_assoc. reflexivity. }
  assert (Hgive : (forall i, (calls w Wlan <= i)%nat -> wlan_query_at E i = Ok false) ->
                  o = Ret None /\ k = 10%nat).
  { intros Hq. apply Hf. intros i Hi. apply Hq. lia. }
  destruct o as [[b |] | e | |].
  - destruct (Hb b eq_refl) as [-> [i [Hi Hqi]]].
    exists true, w'. eexists. split; [reflexivity |]. split; [exact Htr' |].
    split; [exact Hsl |]. split.
    + intros _. exists i. split; [lia | exact Hqi].
    + intros _ Hq. destruct (Hgive Hq) as [Hn _]. discriminate.
  - exists false, w'. eexists. split; [reflexivity |]. split; [exact Htr' |].
    split; [exact Hsl |]. split; [discriminate |].
    intros _ Hq. destruct (Hgive Hq) as [_ ->]. split; reflexivity.
  - exists false, w'. eexists. split; [reflexivity |]. split; [exact Htr' |].
    split; [exact Hsl |]. split; [discriminate |].
    intros _ Hq. destruct (Hgive Hq) as [Hn _]. discriminate.
  - exfalso. destruct Hm as [[a Ha] | [e Ha]]; discriminate.
  - exfalso. destruct Hm as [[a Ha] | [e Ha]]; discriminate.
Qed.

(** [check_wifi] always returns a truth value.  It returns [True] only
    when a query of the station made during the call answered connected,
    and it sleeps at most ten seconds in all. *)
Lemma check_wifi_true_only_if_connected (w : world) :
  exists b w' evs,
    check_wifi E w = (Ret b, w') /\
    trace w' = trace w ++ evs /\
    0 <= time_slept evs <= 10000 /\
    (b = true ->
     exists i, (calls w Wlan <= i < calls w' Wlan)%nat /\
               wlan_query_at E i = Ok true).
Proof.
  destruct (check_wifi_run w) as [b [w' [evs [Hrun [Htr [Hsl [Hb _]]]]]]].
  exists b, w', evs. repeat split; try assumption; apply Hsl.
Qed.

(** With a station that takes its commands and never reports a link,
    [check_wifi] asks it to connect once, waits ten times one second and
    returns [False]. *)
Lemma check_wifi_gives_up_after_ten_seconds (w : world) :
  (forall i, (calls w Wlan <= i)%nat -> wlan_cmd_at E i = Ok tt) ->
  (forall i, (calls w Wlan <= i)%nat -> wlan_query_at E i = Ok false) ->
  exists w',
    check_wifi E w = (Ret false, w') /\
    trace w' = trace w ++
      [WLAN_active true; WLAN_connect (WIFI_SSID (secrets E)) (WIFI_PASS (secrets E))]
      ++ repeat (time_sleep 1000) 10.
Proof.
  intros Hcmd Hq.
  destruct (check_wifi_run w) as [b [w' [evs [Hrun [Htr [_ [_ Hgive]]]]]]].
  destruct (Hgive Hcmd Hq) as [-> ->].
  exists w'. split; assumption.
Qed.

Lemma only_adds_preorder (P : event -> bool) : PreOrder (only_adds P).
Proof.
  split.
  - intros w. exists []. split; [symmetry; apply app_nil_r | reflexivity].
  - intros a b c [e1 [H1 P1]] [e2 [H2 P2]]. exists (e1 ++ e2). split.
    + rewrite H2, H1. symmetry. apply app_assoc.
    + rewrite forallb_app, P1, P2. reflexivity.
Qed.

#[local] Existing Instance only_adds_preorder.

Lemma ask_only_adds {A} (P : event -> bool) (d : device) (o : nat -> result A) :
  keeps (only_adds P) (ask d o).
Proof. intros w. exists []. split; [symmetry; apply app_nil_r | reflexivity]. Qed.

Lemma logged_only_adds (P : event -> bool) (ev : event) :
  P ev = true -> keeps (only_adds P) (modify (logged ev)).
Proof.
  intros H w. exists [ev]. split; [reflexivity |]. cbn. rewrite H. reflexivity.
Qed.

Ltac adds_tac :=
  repeat match goal with
    | |- keeps _ (ret _) => apply keeps_ret; exact _
    | |- keeps _ (raise _) => apply keeps_raise; exact _
    | |- keeps _ (eval _) => apply keeps_eval; exact _
    | |- keeps _ get => apply keeps_get; exact _
    | |- keeps _ (ask _ _) => apply ask_only_adds
    | |- keeps _ (modify (logged _)) => apply logged_only_adds
    | |- keeps _ (bind _ _) => apply keeps_bind; [exact _ | | intros ?]
    | |- keeps _ (try_except _ _) => apply keeps_try_except; [exact _ | | intros ?]
    | |- keeps _ (if ?b then _ else _) => destruct b
    | |- keeps _ (match ?x with _ => _ end) => destruct x
    | |- keeps _ _ => progress unfold_calls
    end.

(** [upload_files_ftp] transfers nothing.  However the session goes, all
    the call does is connect to port 21 of the host, send USER, PASS and
    CWD, list the card and close: it opens no file and sends no file. *)
Lemma upload_files_ftp_transfers_nothing (w : world) :
  exists b w' evs,
    upload_files_ftp E w = (Ret b, w') /\
    trace w' = trace w ++ evs /\
    forallb (ftp_session_event (secrets E)) evs = true.
Proof.
  assert (Hk : keeps (only_adds (ftp_session_event (secrets E))) (upload_files_ftp E)).
  { unfold upload_files_ftp. adds_tac;
      unfold ftp_session_event; rewrite ?String.eqb_refl, ?Z.eqb_refl, ?orb_true_r;
      reflexivity. }
  destruct (upload_files_ftp_safe E w) as [b Hb].
  destruct (Hk w) as [evs [Htr Hev]].
  destruct (upload_files_ftp E w) as [o w'] eqn:Hrun. cbn in Hb, Htr. subst o.
  exists b, w', evs. repeat split; assumption.
Qed.

Lemma sock_safe (ev : option event) :
  (forall i, sock_cmd_at E i = Ok tt) -> safe (sock E ev).
Proof.
  intros H w. exists tt. unfold sock. destruct ev; cbn; rewrite H; reflexivity.
Qed.

Lemma sock_recv_decode_safe :
  (forall i, exists s, sock_recv_at E i = Ok s) -> safe (sock_recv_decode E).
Proof.
  intros H w. destruct (H (calls w Sock)) as [s Hs]. exists s.
  unfold sock_recv_decode, ask. cbn. rewrite Hs. reflexivity.
Qed.

Lemma bind_returns {A B} (m : stmt A) (k : A -> stmt B) (v : B) :
  safe m -> (forall a w, fst (k a w) = Ret v) -> forall w, fst (bind m k w) = Ret v.
Proof.
  intros Hm Hk w. unfold bind. destruct (Hm w) as [a Ha].
  destruct (m w) as [o w1]. cbn in Ha. subst o. apply Hk.
Qed.

(** [upload_files_ftp] returns [True] whenever no call of the socket
    raises, whatever the server replies: a login the server rejects is
    reported as a successful upload. *)
Lemma upload_files_ftp_reports_success (w : world) :
  (forall i, sock_cmd_at E i = Ok tt) ->
  (forall i, exists s, sock_recv_at E i = Ok s) ->
  fst (upload_files_ftp E w) = Ret true.
Proof.
  intros Hcmd Hrecv.
  pose proof (fun ev => sock_safe ev Hcmd) as Hs.
  pose proof (sock_recv_decode_safe Hrecv) as Hr.
  assert (Htry : forall (m : stmt bool) h,
            (forall w0, fst (m w0) = Ret true) ->
            forall w0, fst (try_except m h w0) = Ret true).
  { intros m h Hm w0. unfold try_except. specialize (Hm w0).
    destruct (m w0) as [o w1]. cbn in Hm. subst o. reflexivity. }
  unfold upload_files_ftp. revert w. apply Htry.
  repeat (apply bind_returns; [first [apply Hs | apply Hr] | intros ?]).
  apply bind_returns.
  - match goal with |- safe (if ?b then _ else _) => destruct b end; [| apply safe_ret].
    apply safe_bind; [apply Hs | intros ?].
    apply safe_bind; [apply Hr | intros ?].
    run_safe.
  - intros _. apply bind_returns; [apply Hs |]. intros _ w. reflexivity.
Qed.

(** Away from home (no valid fix, or a position the proximity test
    rejects) the shutdown sequence stays offline: with a working display it
    shows its screen, waits a second and sleeps, and it calls neither the
    Wi-Fi station nor a socket. *)
Lemma shutdown_away_from_home_stays_offline (w : world) :
  lcd_ok E ->
  gps_fix_valid (gps (sensor_data w)) = false \/
  is_close_to_home (secrets E) (gps (sensor_data w)) = Ok false ->
  exists w',
    handle_shutdown_sequence E w = (Halt, w') /\
    trace w' = trace w ++ away_from_home_events ++ deep_sleep_events /\
    calls w' Wlan = calls w Wlan /\
    calls w' Sock = calls w Sock /\
    is_shutting_down w' = true.
Proof.
  intros Hlcd Haway. unfold handle_shutdown_sequence, handle_shutdown_sequence_with.
  fold (close_to_home_if_valid E).
  erewrite bind_run by reflexivity.
  do 6 (erewrite bind_run by (apply lcd_run; exact Hlcd)).
  erewrite bind_run by reflexivity.
  match goal with
  | |- context [bind (close_to_home_if_valid E ?g) _ ?w1] =>
      assert (Hc : close_to_home_if_valid E g w1 = (Ret false, w1))
  end.
  { unfold close_to_home_if_valid, close_to_home_if_valid_with.
    fold (is_close_to_home (secrets E)).
    cbn [sensor_data gps called logged set_is_shutting_down].
    destruct Haway as [-> | Hno]; [reflexivity |].
    destruct (gps_fix_valid (gps (sensor_data w))); [| reflexivity].
    rewrite Hno. reflexivity. }
  rewrite (bind_run _ _ _ _ _ Hc). clear Hc.
  unfold bind at 1.
  do 2 (erewrite bind_run by (apply lcd_run; exact Hlcd)).
  rewrite sleep_run. unfold enter_deep_sleep.
  do 6 (erewrite bind_run by (apply lcd_run; exact Hlcd)).
  erewrite bind_run by apply sleep_run.
  erewrite bind_run by reflexivity.
  eexists. split; [reflexivity |].
  cbn [trace calls is_shutting_down logged called set_is_shutting_down device_eqb].
  repeat split.
  unfold away_from_home_events, deep_sleep_events. rewrite <- !app_assoc. reflexivity.
Qed.

(** The link poll of lines 757-759 is not guarded.  When the device is
    not to connect (not close to home, or the last attempt is less than
    30 s old) and the Wi-Fi driver raises, [refresh_wifi] raises that
    exception: the reading of the link is not written. *)
Lemma refresh_wifi_station_failure_escapes (now : Z) (w : world) (c : bool) (e : exn) :
  close_to_home_if_valid E (gps (sensor_data w)) w = (Ret c, w) ->
  c && wifi_retry_due now (last_wifi_attempt w) = false ->
  wlan_cmd_at E (calls w Wlan) = Err e ->
  refresh_wifi E now w = (Raise e, called Wlan w).
Proof.
  intros Hc Hdue Herr. unfold refresh_wifi.
  erewrite bind_run by reflexivity.
  rewrite (bind_run _ _ _ _ _ Hc). rewrite Hdue.
  apply bind_raise. unfold WLAN, ask. rewrite Herr. reflexivity.
Qed.

End NetworkFacts.

(** The idle bench: the station takes its commands and reports no link. *)
Lemma check_wifi_gives_up_after_ten_seconds_witness :
  exists w',
    check_wifi idle_bench initial_world = (Ret false, w') /\
    trace w' = trace initial_world ++
      [WLAN_active true;
       WLAN_connect (WIFI_SSID (secrets idle_bench)) (WIFI_PASS (secrets idle_bench))]
      ++ repeat (time_sleep 1000) 10.
Proof.
  apply (check_wifi_gives_up_after_ten_seconds idle_bench initial_world);
    intros i _; reflexivity.
Defined.

(** The server rejects the login; the upload is reported as done. *)
Lemma upload_files_ftp_reports_success_witness :
  fst (upload_files_ftp login_rejected_bench initial_world) = Ret true.
Proof.
  apply (upload_files_ftp_reports_success login_rejected_bench initial_world).
  - intros i. reflexivity.
  - intros i. eexists. reflexivity.
Defined.

(** No fix on the idle bench. *)
Lemma shutdown_away_from_home_stays_offline_witness :
  exists w',
    handle_shutdown_sequence idle_bench initial_world = (Halt, w') /\
    trace w' = trace initial_world ++ away_from_home_events ++ deep_sleep_events /\
    calls w' Wlan = calls initial_world Wlan /\
    calls w' Sock = calls initial_world Sock /\
    is_shutting_down w' = true.
Proof.
  apply (shutdown_away_from_home_stays_offline idle_bench initial_world).
  - intros n. reflexivity.
  - left. reflexivity.
Defined.

(** No fix, and a driver that raises. *)
Lemma refresh_wifi_station_failure_escapes_witness :
  refresh_wifi wlan_failing_bench 5000 initial_world
  = (Raise (Exn OSError "Wifi Internal Error"), called Wlan initial_world).
Proof.
  apply (refresh_wifi_station_failure_escapes wlan_failing_bench 5000 initial_world
           false (Exn OSError "Wifi Internal Error")); reflexivity.
Defined.

(** ** The NMEA decoder *)

Section DecoderFacts.

Lemma stays_complete_preorder : PreOrder stays_complete.
Proof.
  split.
  - intros st H. exact H.
  - intros a b c H1 H2 H. apply H2, H1, H.
Qed.

#[local] Existing Instance stays_complete_preorder.

Lemma is_digit_not_space (c : ascii) : is_digit c = true -> is_space c = false.
Proof.
  unfold is_digit, is_space. cbv zeta. intros H.
  apply andb_prop in H. destruct H as [H1 H2].
  apply N.leb_le in H1, H2.
  destruct (N.eqb_spec (N_of_ascii c) 32) as [Heq | _]; [lia |].
  destruct (N.leb_spec 9 (N_of_ascii c)); [| reflexivity].
  destruct (N.leb_spec (N_of_ascii c) 13); [lia | reflexivity].
Qed.

Lemma lstrip_digits (s : string) : all_chars is_digit s = true -> lstrip s = s.
Proof.
  destruct s as [| c s]; [reflexivity |]. cbn. intros H.
  apply andb_prop in H. destruct H as [H _].
  rewrite (is_digit_not_space c H). reflexivity.
Qed.

Lemma rstrip_digits (s : string) : all_chars is_digit s = true -> rstrip s = s.
Proof.
  induction s as [| c s IH]; [reflexivity |]. cbn. intros H.
  apply andb_prop in H. destruct H as [Hc Hs].
  rewrite (IH Hs). destruct s; [| reflexivity].
  rewrite (is_digit_not_space c Hc). reflexivity.
Qed.

Lemma digit_val_nonneg (c : ascii) : is_digit c = true -> 0 <= digit_val c.
Proof.
  unfold is_digit, digit_val. cbv zeta. intros H.
  apply andb_prop in H. destruct H as [H _]. apply N.leb_le in H. lia.
Qed.

Lemma digits_val_nonneg (s : string) :
  forall acc, 0 <= acc -> all_chars is_digit s = true -> 0 <= digits_val acc s.
Proof.
  induction s as [| c s IH]; intros acc Hacc H; cbn [digits_val]; [exact Hacc |].
  cbn [all_chars] in H. apply andb_prop in H. destruct H as [Hc Hs].
  apply IH; [| exact Hs]. pose proof (digit_val_nonneg c Hc). lia.
Qed.

Lemma is_digit_not_underscore (c : ascii) :
  is_digit c = true -> Ascii.eqb c "_" = false.
Proof.
  destruct c as [[] [] [] [] [] [] [] []]; intros H; try discriminate H; reflexivity.
Qed.

Lemma without_underscores_digits (s : string) :
  forall prev, all_chars is_digit s = true -> Ascii.eqb prev "_" = false ->
               without_underscores prev s = Some s.
Proof.
  induction s as [| c s IH]; intros prev H Hp; cbn [without_underscores].
  - rewrite Hp. reflexivity.
  - cbn [all_chars] in H. apply andb_prop in H. destruct H as [Hc Hs].
    rewrite (is_digit_not_underscore c Hc), Hc, andb_false_r.
    rewrite (IH c Hs (is_digit_not_underscore c Hc)). reflexivity.
Qed.

(** [int] of a string that passed [isdigit] is its decimal value. *)
Lemma int_of_str_isdigit (s : string) :
  isdigit s = true -> int_of_str s = Ok (digits_val 0 s) /\ 0 <= digits_val 0 s.
Proof.
  intros H. pose proof H as Hd. unfold isdigit in Hd.
  apply andb_prop in Hd. destruct Hd as [_ Hall].
  split; [| apply digits_val_nonneg; [lia | exact Hall]].
  unfold int_of_str, strip. rewrite (lstrip_digits s Hall), (rstrip_digits s Hall).
  rewrite (without_underscores_digits s "000" Hall eq_refl).
  cbv zeta.
  destruct s as [| c s']; [discriminate |].
  assert (Hc : is_digit c = true).
  { cbn in Hall. apply andb_prop in Hall. apply Hall. }
  destruct c as [[] [] [] [] [] [] [] []]; try discriminate Hc; rewrite H; reflexivity.
Qed.

Ltac complete_tac :=
  repeat match goal with
    | |- keeps _ (ret _) => apply keeps_ret; exact _
    | |- keeps _ (raise _) => apply keeps_raise; exact _
    | |- keeps _ (eval _) => apply keeps_eval; exact _
    | |- keeps _ get => apply keeps_get; exact _
    | |- keeps _ (bind _ _) => apply keeps_bind; [exact _ | | intros ?]
    | |- keeps _ (try_except_in _ _ _) =>
        apply keeps_try_except_in; [exact _ | | intros ?]
    | |- keeps _ (try_except _ _) => apply keeps_try_except; [exact _ | | intros ?]
    end.

Lemma count_line_complete : keeps stays_complete (modify count_line).
Proof. apply keeps_modify. intros st H. exact H. Qed.

Lemma found_complete (f : gps_locals -> gps_locals) :
  (forall st, gps_data (f st) = gps_data st) -> keeps stays_complete (modify f).
Proof. intros Hf. apply keeps_modify. intros st H. rewrite Hf. exact H. Qed.

Lemma update_fix_complete (f : rmc_fix) :
  keeps stays_complete (modify (set_gps_data (update_fix f))).
Proof.
  apply keeps_modify. intros st [_ Hsat]. split; [| exact Hsat].
  cbn. repeat split; discriminate.
Qed.

Lemma set_satellites_complete (n : Z) :
  0 <= n -> keeps stays_complete (modify (set_gps_data (set_satellites n))).
Proof.
  intros Hn. apply keeps_modify. intros st [H _]. split; [exact H | exact Hn].
Qed.

Lemma rmc_branch_complete (line_str : string) :
  keeps stays_complete (rmc_branch line_str).
Proof.
  unfold rmc_branch. cbv zeta.
  destruct (llen (split "," line_str) >=? 13); [| complete_tac].
  complete_tac.
  match goal with |- keeps _ (if ?b then _ else _) => destruct b end;
    [| complete_tac].
  complete_tac.
  match goal with |- keeps _ (match ?x with _ => _ end) => destruct x end;
    complete_tac.
  - apply update_fix_complete.
  - apply found_complete. reflexivity.
Qed.

Lemma gga_branch_complete (line_str : string) :
  keeps stays_complete (gga_branch line_str).
Proof.
  unfold gga_branch. cbv zeta.
  destruct (llen (split "," line_str) >=? 8); [| complete_tac].
  complete_tac.
  - destruct (llen (split "," line_str) >? 7); complete_tac.
  - match goal with
    | |- keeps _ (if truthy_str ?s && isdigit ?s then _ else _) =>
        destruct (truthy_str s); [destruct (isdigit s) eqn:Hd |]; cbn [andb]
    end; [| complete_tac | complete_tac].
    destruct (int_of_str_isdigit _ Hd) as [-> Hn]. cbn [eval].
    intros st [H _]. split; [exact H | exact Hn].
Qed.

Lemma process_line_complete (line : string) :
  keeps stays_complete (process_line line).
Proof.
  unfold process_line, line_body. complete_tac. cbv zeta.
  destruct (startswith (strip _) "$"); [| complete_tac].
  complete_tac.
  - apply count_line_complete.
  - destruct (startswith_any _ _); [apply rmc_branch_complete |].
    destruct (startswith_any _ _); [apply gga_branch_complete | complete_tac].
  - match goal with |- keeps _ (match ?b with _ => _ end) => destruct b end;
      complete_tac.
    match goal with |- keeps _ (if ?b then _ else _) => destruct b end; complete_tac.
Qed.

Variable E : env.

Lemma read_gps_loop_complete (start_time timeout : Z) (fuel : nat) :
  forall st w d w',
    fix_complete (gps_data st) ->
    read_gps_loop E fuel start_time timeout st w = (Ret d, w') ->
    fix_complete d.
Proof.
  induction fuel as [| fuel IH]; intros st w d w' Hst Hrun; cbn [read_gps_loop] in Hrun;
    [discriminate |].
  rewrite (bind_run _ _ _ _ _ (ticks_ms_run E w)) in Hrun.
  destruct (gps_window_open (clock E (calls w Clock)) start_time timeout).
  2: { injection Hrun as <- _. exact Hst. }
  pose proof (uart_readline_run E (called Clock w)) as Hu.
  destruct (uart_readline_at E (calls (called Clock w) Uart)) as [line | e].
  2: { rewrite (bind_raise _ _ _ _ _ Hu) in Hrun. discriminate. }
  rewrite (bind_run _ _ _ _ _ Hu) in Hrun. clear Hu.
  assert (Hsleep : forall w1,
            bind (sleep 10) (fun _ => read_gps_loop E fuel start_time timeout st) w1
              = (Ret d, w') -> fix_complete d).
  { intros w1 H. rewrite (bind_run _ _ _ _ _ (sleep_run 10 w1)) in H.
    apply (IH _ _ _ _ Hst H). }
  destruct line as [bytes |]; [| apply (Hsleep _ Hrun)].
  destruct (truthy_str bytes); [| apply (Hsleep _ Hrun)].
  pose proof (process_line_complete bytes st Hst) as Hst'.
  destruct (process_line bytes st) as [o st'] eqn:Hp. cbn [snd] in Hst'.
  destruct o as [[| d0] | e | |]; try (apply (IH _ _ _ _ Hst' Hrun)).
  apply process_line_returns_current in Hp. subst d0.
  injection Hrun as <- _. exact Hst'.
Qed.

(** What [read_gps] returns is a complete dictionary: the keys [latitude],
    [longitude], [speed] and [time] are present when [gps_fix_valid] is true
    (so the subscripts of lines 739 and 741 raise no [KeyError]) and absent
    when it is false, and [satellites] is not negative.  A window that
    closes makes the call return. *)
Lemma read_gps_fix_complete (timeout : Z) (w : world) (k fuel : nat) :
  (k < fuel)%nat ->
  gps_window_open (clock E (S (calls w Clock) + k)) (clock E (calls w Clock)) timeout
    = false ->
  exists d w', read_gps_for E fuel timeout w = (Ret d, w') /\ fix_complete d.
Proof.
  intros Hfuel Hclosed.
  assert (Hno : fix_complete no_fix) by (split; [repeat split | cbn; lia]).
  unfold read_gps_for, try_except.
  rewrite (bind_run _ _ _ _ _ (ticks_ms_run E w)).
  destruct (read_gps_loop_ends E (clock E (calls w Clock)) timeout k fuel
              initial_locals (called Clock w) Hfuel Hclosed eq_refl)
    as [w' [[d [Hrun _]] | [e [Hrun _]]]]; rewrite Hrun.
  - exists d, w'. split; [reflexivity |].
    apply (read_gps_loop_complete _ _ _ initial_locals _ _ _ Hno Hrun).
  - exists (gps_error e), w'. split; [reflexivity |].
    split; [repeat split | cbn; lia].
Qed.

Lemma count_char_nonneg (sep : ascii) (s : string) : 0 <= count_char sep s.
Proof.
  induction s as [| c s IH]; cbn [count_char]; [lia |].
  destruct (Ascii.eqb sep c); lia.
Qed.

Lemma split_length (sep : ascii) (s : string) :
  llen (split sep s) = count_char sep s + 1.
Proof.
  unfold llen. induction s as [| c s IH]; [reflexivity |].
  pose proof (count_char_nonneg sep s) as Hc.
  cbn [split count_char]. rewrite (Ascii.eqb_sym sep c).
  destruct (Ascii.eqb c sep).
  - cbn [List.length]. lia.
  - destruct (split sep s) as [| p ps]; cbn [List.length] in *; lia.
Qed.

(** An RMC sentence with fewer than 13 fields (fewer than 12 commas) is
    dropped whole: the position, the satellite count and the two flags stay
    as they were, whatever the sentence reports. *)
Lemma rmc_short_sentence_ignored (line s : string) (st : gps_locals) :
  decode_ascii line = Ok s ->
  startswith (strip s) "$" = true ->
  startswith_any (strip s) ["$GPRMC"; "$GNRMC"] = true ->
  count_char "," (strip s) < 12 ->
  exists c, process_line line st = (Ret c, count_line st).
Proof.
  intros Hdec Hdollar Hrmc Hshort.
  unfold process_line, try_except, line_body. rewrite Hdec. cbn [eval].
  erewrite bind_run by reflexivity. cbv zeta. rewrite Hdollar.
  erewrite bind_run by reflexivity. rewrite Hrmc.
  unfold rmc_branch. cbv zeta. rewrite split_length.
  destruct (Z.geb_spec (count_char "," (strip s) + 1) 13) as [Hge | _]; [lia |].
  erewrite bind_run by reflexivity.
  cbv iota. erewrite bind_run by reflexivity.
  destruct (gprmc_found (count_line st) && gpgga_found (count_line st));
    eexists; reflexivity.
Qed.

(** An RMC sentence whose status field is not [A] (a void fix, status V)
    changes nothing but the line count, whatever position it carries. *)
Lemma rmc_void_status_ignored (line s status : string) (st : gps_locals) :
  decode_ascii line = Ok s ->
  startswith (strip s) "$" = true ->
  startswith_any (strip s) ["$GPRMC"; "$GNRMC"] = true ->
  nth_error (split "," (strip s)) 2 = Some status ->
  status <> "A" ->
  exists c, process_line line st = (Ret c, count_line st).
Proof.
  intros Hdec Hdollar Hrmc Hnth Hvoid.
  assert (Hend : forall st0 : gps_locals, exists c,
            (let (o, s') :=
               (st1 <- get;;
                (if gprmc_found st1 && gpgga_found st1
                 then ret (ReturnFix (gps_data st1))
                 else ret Continue)) st0 in
             match o with
             | Ret a => (Ret a, s')
             | Raise _ => ret Continue s'
             | Halt => (Halt, s')
             | OutOfFuel => (OutOfFuel, s')
             end) = (Ret c, st0)).
  { intros st0. erewrite bind_run by reflexivity.
    destruct (gprmc_found st0 && gpgga_found st0); eexists; reflexivity. }
  unfold process_line, try_except, line_body. rewrite Hdec. cbn [eval].
  erewrite bind_run by reflexivity. cbv zeta. rewrite Hdollar.
  erewrite bind_run by reflexivity. rewrite Hrmc.
  unfold rmc_branch. cbv zeta.
  destruct (llen (split "," (strip s)) >=? 13) eqn:Hlen.
  2: { erewrite bind_run by reflexivity. cbv iota. apply Hend. }
  destruct (split "," (strip s))
    as [| p0 [| p1 [| p2 [| p3 [| p4 [| p5 [| p6 [| p7 rest]]]]]]]];
    try discriminate Hlen.
  cbn [nth_error] in Hnth. injection Hnth as ->.
  cbn [index nth_error eval].
  rewrite !bind_ret_l.
  apply String.eqb_neq in Hvoid. rewrite Hvoid. cbn [andb].
  erewrite bind_run by reflexivity. cbv iota. apply Hend.
Qed.

End DecoderFacts.

(** The read of [one_sentence]: the window of 3 s closes at the fourth
    reading of the counter. *)
Lemma read_gps_fix_complete_witness :
  exists d w',
    read_gps_for (one_sentence rmc_sentence_13) 10 3000 initial_world = (Ret d, w') /\
    fix_complete d.
Proof.
  apply (read_gps_fix_complete (one_sentence rmc_sentence_13) 3000 initial_world 3 10).
  - lia.
  - vm_compute. reflexivity.
Defined.

(** The RMC sentence of NMEA 2.1, 12 fields. *)
Lemma rmc_short_sentence_ignored_witness :
  exists c,
    process_line (rmc_sentence_12 ++ crlf) initial_locals
    = (Ret c, count_line initial_locals).
Proof.
  apply (rmc_short_sentence_ignored (rmc_sentence_12 ++ crlf) (rmc_sentence_12 ++ crlf));
    vm_compute; reflexivity.
Defined.

(** ** A fix that is not a number *)

Section NanFacts.

Variable E : env.

(** [float] accepts the text [nan], so a corrupted RMC field can put a NaN
    coordinate into a valid fix.  On such a fix the distance is NaN and the
    [int(distance_ft)] of line 743 raises [ValueError]. *)
Lemma show_home_status_nan_raises (w : world) (lat lon : float) :
  gps_fix_valid (gps (sensor_data w)) = true ->
  latitude (gps (sensor_data w)) = Some lat ->
  longitude (gps (sensor_data w)) = Some lon ->
  is_nan lat || is_nan lon = true ->
  distance_raises lat lon (HOME_LAT (secrets E)) (HOME_LON (secrets E)) = false ->
  show_home_status E w = (Raise nan_to_int_error, w).
Proof.
  intros Hv Hlat Hlon Hnan Hd.
  assert (Hdist : calculate_distance_feet_f lat lon
                    (HOME_LAT (secrets E)) (HOME_LON (secrets E)) = Ok NaN).
  { unfold calculate_distance_feet_f. rewrite Hd, Hnan. reflexivity. }
  assert (Htl : truthy_float lat = true /\ truthy_float lon = true \/
                is_close_to_home (secrets E) (gps (sensor_data w)) = Ok false).
  { destruct (truthy_float lat) eqn:H1; destruct (truthy_float lon) eqn:H2;
      try (left; split; reflexivity); right;
      unfold is_close_to_home, is_close_to_home_with;
      rewrite Hv, Hlat, Hlon; cbn [truthy_opt_float negb orb]; rewrite ?H1, ?H2;
      reflexivity. }
  assert (Hclose : is_close_to_home (secrets E) (gps (sensor_data w)) = Ok false).
  { destruct Htl as [[H1 H2] | H]; [| exact H].
    unfold is_close_to_home, is_close_to_home_with.
    rewrite Hv, Hlat, Hlon. cbn [truthy_opt_float negb orb]. rewrite H1, H2.
    cbn [negb orb getitem rbind]. rewrite Hdist. reflexivity. }
  unfold show_home_status.
  erewrite bind_run by reflexivity. cbv zeta. rewrite Hv, Hclose, Hlat, Hlon.
  cbn [eval getitem]. erewrite bind_run by reflexivity.
  erewrite bind_run by reflexivity. erewrite bind_run by reflexivity.
  rewrite Hdist. cbn [eval]. erewrite bind_run by reflexivity.
  reflexivity.
Qed.

(** One corrupted sentence stops the monitor.  When the engine is on and
    the GPS read of a due tick returns a valid fix with a NaN coordinate,
    [update_sensors] raises [ValueError]; nothing in [update_sensors] or in
    the loop of [main] catches it.  The fix has been stored by then. *)
Lemma update_sensors_nan_fix_raises (fuel : nat) (w : world) (g : gps_dict)
    (lat lon : float) :
  tick_due E w ->
  engine_sample E w = true ->
  fst (read_gps E fuel
         (snd ((b <- read_battery_status E ;; modify (set_sensor_data (set_battery b)))
                 (set_engine_off_time None
                    (set_sensor_data (set_engine true) (called I2c (called Clock w)))))))
    = Ret g ->
  gps_fix_valid g = true ->
  latitude g = Some lat ->
  longitude g = Some lon ->
  is_nan lat || is_nan lon = true ->
  distance_raises lat lon (HOME_LAT (secrets E)) (HOME_LON (secrets E)) = false ->
  fst (update_sensors E fuel w) = Raise nan_to_int_error /\
  gps (sensor_data (snd (update_sensors E fuel w))) = g /\
  forall n, fst (main_loop E fuel (S n) w) = Raise nan_to_int_error.
Proof.
  intros Hdue Hs Hg Hv Hlat Hlon Hnan Hd.
  assert (Hsafe : safe (read_battery_status E)).
  { unfold read_battery_status. cbv zeta. run_safe. }
  assert (Hrun : exists wg, update_sensors E fuel w
                 = (Raise nan_to_int_error, set_sensor_data (set_gps g) wg)).
  { rewrite (update_sensors_due E fuel w Hdue).
    erewrite bind_run
      by (apply track_power_state_run;
          change (engine_sample E (called Clock w)) with (engine_sample E w);
          congruence).
    cbv zeta. change (engine_sample E (called Clock w)) with (engine_sample E w).
    rewrite Hs. unfold refresh_readings.
    match type of Hg with
    | context [bind _ _ ?w0] =>
        destruct (Hsafe w0) as [b Hb]; unfold bind at 1 in Hg;
        unfold bind at 1; destruct (read_battery_status E w0) as [ob wb];
        cbn [fst] in Hb; subst ob
    end.
    erewrite bind_run by reflexivity.
    cbn [snd modify] in Hg.
    destruct (read_gps E fuel (set_sensor_data (set_battery b) wb)) as [og wg] eqn:Hrg.
    cbn [fst] in Hg. subst og.
    rewrite (bind_run _ _ _ _ _ Hrg).
    erewrite bind_run by reflexivity.
    exists wg. apply bind_raise.
    apply (show_home_status_nan_raises _ lat lon); assumption. }
  destruct Hrun as [wg Hrun].
  split; [rewrite Hrun; reflexivity |].
  split; [rewrite Hrun; reflexivity |].
  intros n. cbn [main_loop]. rewrite (bind_raise _ _ _ _ _ Hrun). reflexivity.
Qed.

End NanFacts.

(** The first tick on the bench that sends the corrupted sentence. *)
Lemma update_sensors_nan_fix_raises_witness :
  fst (update_sensors nan_bench 10 initial_world) = Raise nan_to_int_error /\
  gps (sensor_data (snd (update_sensors nan_bench 10 initial_world))) = nan_fix /\
  forall n, fst (main_loop nan_bench 10 (S n) initial_world) = Raise nan_to_int_error.
Proof.
  eapply (update_sensors_nan_fix_raises nan_bench 10 initial_world nan_fix);
    vm_compute; reflexivity.
Defined.

(** A receiver without a fix yet. *)
Lemma rmc_void_status_ignored_witness :
  exists c,
    process_line (rmc_sentence_void ++ crlf) initial_locals
    = (Ret c, count_line initial_locals).
Proof.
  apply (rmc_void_status_ignored (rmc_sentence_void ++ crlf)
           (rmc_sentence_void ++ crlf) "V");
    try (vm_compute; reflexivity).
  discriminate.
Defined.

(** ** Where the distance raises *)

Section DistanceFacts.

Import Binary64.

Local Open Scope float_scope.
Local Open Scope bool_scope.

Lemma radians_infinite (d : float) :
  is_infinity d = true -> is_infinity (radians d) = true.
Proof.
  unfold radians. rewrite !is_infinity_spec, mul_spec.
  destruct (Prim2SF d) as [s | s | | s mm e]; try discriminate.
  intros _. reflexivity.
Qed.

Lemma radians_half_infinite (d : float) :
  is_infinity d = true -> is_infinity (radians d / 2) = true.
Proof.
  unfold radians. rewrite !is_infinity_spec, div_spec, mul_spec.
  destruct (Prim2SF d) as [s | s | | s mm e]; try discriminate.
  intros _. reflexivity.
Qed.

(** A function of [math] whose value at an infinity is NaN raises there. *)
Lemma math_1_infinite (f : float -> float) (x : float) :
  is_infinity x = true -> is_nan (f x) = true -> math_1 f x = Err domain_error.
Proof.
  intros Hx Hf. unfold math_1. cbv zeta. rewrite Hf.
  replace (is_nan x) with false; [reflexivity |].
  symmetry. rewrite is_nan_spec. rewrite is_infinity_spec in Hx.
  destruct (Prim2SF x); congruence.
Qed.

Lemma sqrt_negative (x : float) : (x <? 0) = true -> sqrt x = Err domain_error.
Proof.
  intros Hx. unfold sqrt, math_1. cbv zeta.
  rewrite !is_nan_spec, sqrt_spec.
  rewrite ltb_spec in Hx. change (Prim2SF 0) with (S754_zero false) in Hx.
  destruct (Prim2SF x) as [s | s | | s mm e]; try discriminate;
    destruct s; try discriminate; reflexivity.
Qed.

(** An infinite coordinate, or an infinite difference of two coordinates
    (two finite ones of opposite signs can have one), reaches [math.sin] or
    [math.cos] as an infinity: the call raises [ValueError], with a C library
    whose sine and cosine of an infinity are NaN. *)
Lemma calculate_distance_feet_overflow (m : libm) (lat1 lon1 lat2 lon2 : float) :
  (forall x, is_infinity x = true ->
     is_nan (libm_sin m x) = true /\ is_nan (libm_cos m x) = true) ->
  distance_raises lat1 lon1 lat2 lon2 = true ->
  calculate_distance_feet m lat1 lon1 lat2 lon2 = Err domain_error.
Proof.
  intros Hm Hr.
  unfold calculate_distance_feet. cbv zeta.
  destruct (math_1_cases (libm_sin m) (radians (lat2 - lat1) / 2))
    as [H1 | [s H1]]; rewrite H1; [reflexivity |].
  destruct (math_1_cases (libm_cos m) (radians lat1))
    as [H2 | [c1 H2]]; rewrite H2; [reflexivity |].
  destruct (math_1_cases (libm_cos m) (radians lat2))
    as [H3 | [c2 H3]]; rewrite H3; [reflexivity |].
  destruct (math_1_cases (libm_sin m) (radians (lon2 - lon1) / 2))
    as [H4 | [t H4]]; rewrite H4; [reflexivity |].
  exfalso. unfold distance_raises in Hr.
  repeat (apply orb_true_iff in Hr; destruct Hr as [Hr | Hr]).
  - apply radians_half_infinite in Hr.
    rewrite (math_1_infinite _ _ Hr (proj1 (Hm _ Hr))) in H1. discriminate.
  - apply radians_infinite in Hr.
    rewrite (math_1_infinite _ _ Hr (proj2 (Hm _ Hr))) in H2. discriminate.
  - apply radians_infinite in Hr.
    rewrite (math_1_infinite _ _ Hr (proj2 (Hm _ Hr))) in H3. discriminate.
  - apply radians_half_infinite in Hr.
    rewrite (math_1_infinite _ _ Hr (proj1 (Hm _ Hr))) in H4. discriminate.
Qed.

(** [math.sqrt(1 - a)] raises [ValueError] when rounding has carried the
    term [a] above 1, so that [1 - a] is negative. *)
Lemma calculate_distance_feet_above_one
    (m : libm) (lat1 lon1 lat2 lon2 s c1 c2 t : float) :
  math_1 (libm_sin m) (radians (lat2 - lat1) / 2) = Ok s ->
  math_1 (libm_cos m) (radians lat1) = Ok c1 ->
  math_1 (libm_cos m) (radians lat2) = Ok c2 ->
  math_1 (libm_sin m) (radians (lon2 - lon1) / 2) = Ok t ->
  (1 - (s * s + c1 * c2 * t * t) <? 0) = true ->
  calculate_distance_feet m lat1 lon1 lat2 lon2 = Err domain_error.
Proof.
  intros Hs Hc1 Hc2 Ht Ha.
  unfold calculate_distance_feet. cbv zeta.
  rewrite Hs, Hc1, Hc2, Ht. cbn [rbind].
  rewrite (sqrt_negative _ Ha).
  destruct (math_1_cases PrimFloat.sqrt (s * s + c1 * c2 * t * t)) as [H | [r H]];
    unfold sqrt at 1; rewrite H; reflexivity.
Qed.

End DistanceFacts.

(** The finite latitudes 1e308 and -1e308. *)
Lemma calculate_distance_feet_overflow_witness :
  Binary64.calculate_distance_feet small_angle_libm 1e308 0 (-1e308) 0 =
  Err Binary64.domain_error.
Proof.
  apply (calculate_distance_feet_overflow small_angle_libm 1e308 0 (-1e308) 0).
  - intros x Hx. unfold small_angle_libm.
    cbn [Binary64.libm_sin Binary64.libm_cos]. rewrite Hx. split; reflexivity.
  - reflexivity.
Defined.

(** From (-2.5, -1.0) to (2.5, 179.0), nearly opposite on the globe: the
    term [a] is 1.0000000000000002. *)
Lemma calculate_distance_feet_above_one_witness :
  Binary64.calculate_distance_feet antipodes_libm (-2.5) (-1) 2.5 179 =
  Err Binary64.domain_error.
Proof.
  apply (calculate_distance_feet_above_one antipodes_libm (-2.5) (-1) 2.5 179
           0.043619387365336 0.9990482215818578 0.9990482215818578 1);
    reflexivity.
Defined.

(** ** The daily log files *)

Section LogFacts.

Variable E : env.

Lemma cleans_preorder : PreOrder cleans.
Proof.
  split.
  - intros w. repeat split. exists []. split; [symmetry; apply app_nil_r | reflexivity].
  - intros a b c [L1 [S1 [e1 [H1 P1]]]] [L2 [S2 [e2 [H2 P2]]]].
    split; [congruence |]. split; [congruence |].
    exists (e1 ++ e2). split.
    + rewrite H2, H1. symmetry. apply app_assoc.
    + rewrite forallb_app, P1, P2. reflexivity.
Qed.

#[local] Existing Instance cleans_preorder.

Lemma ask_cleans {A} (d : device) (o : nat -> result A) : keeps cleans (ask d o).
Proof.
  intros w. repeat split. exists []. split; [symmetry; apply app_nil_r | reflexivity].
Qed.

Lemma logged_cleans (ev : event) :
  cleanup_event ev = true -> keeps cleans (modify (logged ev)).
Proof.
  intros H w. repeat split. exists [ev]. split; [reflexivity |].
  cbn. rewrite H. reflexivity.
Qed.

Ltac cleans_tac :=
  repeat match goal with
    | |- keeps _ (ret _) => apply keeps_ret; exact _
    | |- keeps _ (raise _) => apply keeps_raise; exact _
    | |- keeps _ (eval _) => apply keeps_eval; exact _
    | |- keeps _ get => apply keeps_get; exact _
    | |- keeps _ (ask _ _) => apply ask_cleans
    | |- keeps _ (modify (logged _)) => apply logged_cleans
    | |- keeps _ (bind _ _) => apply keeps_bind; [exact _ | | intros ?]
    | |- keeps _ (try_except _ _) => apply keeps_try_except; [exact _ | | intros ?]
    | |- keeps _ (if ?b then _ else _) => destruct b
    | |- keeps _ (match ?x with _ => _ end) => destruct x
    | |- keeps _ _ => progress unfold_calls
    end.

Lemma drop_append (p s : string) (n : nat) :
  drop (String.length p + n) (p ++ s) = drop n s.
Proof. induction p as [| c p IH]; [reflexivity | exact IH]. Qed.

Lemma length_append (p s : string) :
  String.length (p ++ s) = (String.length p + String.length s)%nat.
Proof. induction p as [| c p IH]; [reflexivity | cbn; rewrite IH; reflexivity]. Qed.

Lemma endswith_append (p s suf : string) :
  endswith s suf = true -> endswith (p ++ s) suf = true.
Proof.
  unfold endswith. intros H. apply andb_prop in H. destruct H as [Hlen Heq].
  apply Nat.leb_le in Hlen. rewrite length_append.
  apply andb_true_intro. split; [apply Nat.leb_le; lia |].
  replace (String.length p + String.length s - String.length suf)%nat
    with (String.length p + (String.length s - String.length suf))%nat by lia.
  rewrite drop_append. exact Heq.
Qed.

Lemma cleanup_file_cleans (cutoff : Z) (filename : string) :
  startswith filename "van_log_" && endswith filename ".json" = true ->
  keeps cleans (cleanup_file E cutoff filename).
Proof.
  intros H. apply andb_prop in H. destruct H as [Hs He].
  assert (Hev : cleanup_event (os_remove (SD_MOUNT_PATH ++ "/" ++ filename)) = true).
  { unfold cleanup_event. apply andb_true_intro. split.
    - exact Hs.
    - apply (endswith_append "/sd/" filename ".json" He). }
  unfold cleanup_file. cbv zeta. cleans_tac. exact Hev.
Qed.

Lemma for_each_cleans {A} (l : list A) (body : A -> stmt unit) :
  (forall x, In x l -> keeps cleans (body x)) -> keeps cleans (for_each l body).
Proof.
  induction l as [| x l IH]; intros H; cbn [for_each].
  - apply keeps_ret. exact _.
  - apply keeps_bind; [exact _ | apply H; left; reflexivity |].
    intros _. apply IH. intros y Hy. apply H. right. exact Hy.
Qed.

Lemma cleanup_file_safe (cutoff : Z) (filename : string) :
  safe (cleanup_file E cutoff filename).
Proof. unfold cleanup_file. cbv zeta. run_safe. Qed.

Lemma for_each_safe {A} (l : list A) (body : A -> stmt unit) :
  (forall x, safe (body x)) -> safe (for_each l body).
Proof.
  intros H. induction l as [| x l IH]; cbn [for_each]; [apply safe_ret |].
  apply safe_bind; [apply H | intros _; exact IH].
Qed.

Lemma cleanup_old_logs_safe : safe (cleanup_old_logs E).
Proof.
  pose proof (fun cutoff l => for_each_safe l (cleanup_file E cutoff)
                                (cleanup_file_safe cutoff)) as Hf.
  unfold cleanup_old_logs. cbv zeta.
  apply safe_bind; [intros w; eexists; reflexivity | intros now].
  apply safe_bind; [apply safe_get | intros w0].
  destruct (cleanup_not_due now (last_cleanup_time w0)); [apply safe_ret |].
  apply safe_try_except; [| intros e; apply safe_ret].
  apply mild_bind; [run_mild | intros ts].
  apply mild_bind; [run_mild | intros _].
  apply mild_bind; [run_mild | intros files].
  apply mild_bind; [apply safe_mild, Hf | intros _].
  run_mild.
Qed.

Lemma cleanup_old_logs_cleans : keeps cleans (cleanup_old_logs E).
Proof.
  unfold cleanup_old_logs. cbv zeta.
  apply keeps_bind; [exact _ | apply ask_cleans | intros now].
  apply keeps_bind; [exact _ | apply keeps_get; exact _ | intros w0].
  destruct (cleanup_not_due now (last_cleanup_time w0)); [apply keeps_ret; exact _ |].
  apply keeps_try_except; [exact _ | | intros e; apply keeps_ret; exact _].
  apply keeps_bind; [exact _ | apply ask_cleans | intros ts].
  apply keeps_bind; [exact _ | apply logged_cleans; reflexivity | intros _].
  apply keeps_bind; [exact _ | apply ask_cleans | intros files].
  apply keeps_bind; [exact _ | | intros _].
  - apply for_each_cleans. intros f Hf. apply filter_In in Hf.
    apply cleanup_file_cleans. apply Hf.
  - apply keeps_modify. intros w. repeat split.
    exists []. split; [symmetry; apply app_nil_r | reflexivity].
Qed.

(** [cleanup_old_logs] never raises, and all it does to the card is list
    it and remove files whose names start with [van_log_] and end with
    [.json]: no other file is removed, none is opened or written.  It leaves
    [sensor_data] and the time of the last log entry as they were. *)
Lemma cleanup_old_logs_removes_only_logs (w : world) :
  exists w' evs,
    cleanup_old_logs E w = (Ret tt, w') /\
    trace w' = trace w ++ evs /\
    forallb cleanup_event evs = true /\
    sensor_data w' = sensor_data w /\
    last_log_time w' = last_log_time w.
Proof.
  destruct (cleanup_old_logs_safe w) as [[] Hr].
  destruct (cleanup_old_logs_cleans w) as [Hl [Hs [evs [Htr Hev]]]].
  destruct (cleanup_old_logs E w) as [o w'] eqn:Hrun. cbn in Hr, Hl, Hs, Htr. subst o.
  exists w', evs. repeat split; assumption.
Qed.

Lemma try_except_run {S A} (m : M S A) (h : exn -> M S A) (s s' : S) (a : A) :
  m s = (Ret a, s') -> try_except m h s = (Ret a, s').
Proof. intros H. unfold try_except. rewrite H. reflexivity. Qed.

Lemma fs_run (ev : event) (w : world) :
  fs E ev w =
  (match fs_cmd_at E (calls w Fs) with
   | Ok a => Ret a
   | Err e => Raise e
   end, called Fs (logged ev w)).
Proof. reflexivity. Qed.

(** Lines 514-519: the read of today's file. *)
Lemma read_existing_logs_run (name : string) (w : world) :
  fs_cmd_at E (calls w Fs) = Ok tt ->
  try_except
    (fs E (file_open name "r") ;;
     emit (ujson_load name) ;;
     ask Fs (fs_load_at E))
    (fun _ => ret []) w
  = (Ret (loaded_logs E w),
     called Fs (logged (ujson_load name) (called Fs (logged (file_open name "r") w)))).
Proof.
  intros Hopen. unfold try_except, loaded_logs.
  pose proof (fs_run (file_open name "r") w) as Hr. rewrite Hopen in Hr.
  rewrite (bind_run _ _ _ _ _ Hr).
  erewrite bind_run by reflexivity.
  unfold ask. cbn [calls called logged device_eqb].
  destruct (fs_load_at E (S (calls w Fs))); reflexivity.
Qed.

(** A log entry is appended to what [ujson.load] returned.  On a card
    whose calls succeed, a due [log_sensor_data] with a proximity test that
    evaluates opens today's file, writes back the list it loaded followed by
    one entry holding the readings of [sensor_data], and records the time.
    A file that does not load (it is missing, or it does not parse) is
    replaced by a file holding that one entry. *)
Lemma log_sensor_data_appends (w : world) (close : bool) :
  log_not_due (tick_time E w) (last_log_time w) = false ->
  (if gps_fix_valid (gps (sensor_data w))
   then is_close_to_home (secrets E) (gps (sensor_data w))
   else Ok false) = Ok close ->
  (forall i, fs_cmd_at E i = Ok tt) ->
  exists w' evs,
    log_sensor_data E w = (Ret tt, w') /\
    trace w' = trace w ++
      [file_open (log_filename_of E (time_at E (calls w Rtc))) "r";
       ujson_load (log_filename_of E (time_at E (calls w Rtc)));
       file_open (log_filename_of E (time_at E (calls w Rtc))) "w";
       ujson_dump (log_filename_of E (time_at E (calls w Rtc)))
         (loaded_logs E w ++ [entry_of E w close])] ++ evs /\
    last_log_time w' = tick_time E w.
Proof.
  intros Hdue Hclose Hfs. unfold log_sensor_data.
  rewrite (bind_run _ _ _ _ _ (ticks_ms_run E w)).
  erewrite bind_run by reflexivity.
  cbn [last_log_time called]. unfold tick_time in *. rewrite Hdue.
  set (name := log_filename_of E (time_at E (calls w Rtc))).
  set (w3 := called Fs (logged (ujson_load name)
               (called Fs (logged (file_open name "r") (called Rtc (called Clock w)))))).
  set (w5 := set_last_log_time (clock E (calls w Clock))
               (called Fs (logged (ujson_dump name (loaded_logs E w ++ [entry_of E w close]))
                 (called Fs (logged (file_open name "w") w3))))).
  destruct (cleanup_old_logs_safe w5) as [[] Hr].
  destruct (cleanup_old_logs_cleans w5) as [Hl [_ [evs [Htr _]]]].
  destruct (cleanup_old_logs E w5) as [o w'] eqn:Hrun. cbn [fst snd] in Hr, Hl, Htr.
  subst o.
  exists w', evs. split.
  - apply try_except_run.
    erewrite bind_run by reflexivity. cbv zeta.
    erewrite bind_run by reflexivity.
    assert (Hc : close_to_home_if_valid E (gps (sensor_data w))
                   (called Rtc (called Clock w))
                 = (Ret close, called Rtc (called Clock w))).
    { unfold close_to_home_if_valid, close_to_home_if_valid_with.
      fold (is_close_to_home (secrets E)).
      destruct (gps_fix_valid (gps (sensor_data w))).
      - rewrite Hclose. reflexivity.
      - injection Hclose as <-. reflexivity. }
    cbn [sensor_data called].
    rewrite (bind_run _ _ _ _ _ Hc).
    rewrite (bind_run _ _ _ _ _
               (read_existing_logs_run _ (called Rtc (called Clock w)) (Hfs _))).
    assert (Hok : forall ev w0, fs E ev w0 = (Ret tt, called Fs (logged ev w0))).
    { intros ev w0. rewrite fs_run, Hfs. reflexivity. }
    rewrite (bind_run _ _ _ _ _ (Hok _ _)).
    rewrite (bind_run _ _ _ _ _ (Hok _ _)).
    erewrite bind_run by reflexivity.
    exact Hrun.
  - split; [| rewrite Hl; reflexivity].
    rewrite Htr. unfold w5, w3. cbn [trace logged called set_last_log_time].
    rewrite <- !app_assoc. reflexivity.
Qed.

Lemma date_field_ok_year (n : Z) : 0 <= n <= 9999 -> date_field_ok 4 n = true.
Proof.
  intros H.
  assert (Hall : forallb (fun k => date_field_ok 4 (Z.of_nat k)) (seq 0 (Z.to_nat 10000)) = true)
    by (vm_compute; reflexivity).
  rewrite forallb_forall in Hall.
  replace n with (Z.of_nat (Z.to_nat n)) by lia.
  apply Hall. apply in_seq. lia.
Qed.

Lemma date_field_ok_two (n : Z) : 0 <= n <= 99 -> date_field_ok 2 n = true.
Proof.
  intros H.
  assert (Hall : forallb (fun k => date_field_ok 2 (Z.of_nat k)) (seq 0 100) = true)
    by (vm_compute; reflexivity).
  rewrite forallb_forall in Hall.
  replace n with (Z.of_nat (Z.to_nat n)) by lia.
  apply Hall. apply in_seq. lia.
Qed.

Lemma date_field_ok_inv (width : nat) (n : Z) :
  date_field_ok width n = true ->
  String.length (format_0d width n) = width /\
  count_char "-" (format_0d width n) = 0 /\
  int_of_str (format_0d width n) = Ok n.
Proof.
  unfold date_field_ok. cbv zeta. intros H.
  apply andb_prop in H. destruct H as [H H3].
  apply andb_prop in H. destruct H as [H1 H2].
  apply Nat.eqb_eq in H1. apply Z.eqb_eq in H2.
  destruct (int_of_str (format_0d width n)) as [v | e]; [| discriminate].
  apply Z.eqb_eq in H3. subst v. repeat split; assumption.
Qed.

Lemma take_append (a b : string) : take (String.length a) (a ++ b) = a.
Proof. induction a as [| c a IH]; [destruct b; reflexivity | cbn; rewrite IH; reflexivity]. Qed.

Lemma count_char_append (c : ascii) (a b : string) :
  count_char c (a ++ b) = count_char c a + count_char c b.
Proof. induction a as [| x a IH]; [reflexivity | cbn; rewrite IH; lia]. Qed.

Lemma split_no_sep (sep : ascii) (a : string) :
  count_char sep a = 0 -> split sep a = [a].
Proof.
  induction a as [| c a IH]; [reflexivity |]. cbn [count_char split].
  pose proof (count_char_nonneg sep a) as Hn.
  rewrite (Ascii.eqb_sym sep c). destruct (Ascii.eqb c sep); [lia |].
  intros H. rewrite IH by lia. reflexivity.
Qed.

Lemma split_append_sep (sep : ascii) (a b : string) :
  count_char sep a = 0 -> split sep (a ++ String sep b) = a :: split sep b.
Proof.
  induction a as [| c a IH].
  - intros _. cbn. rewrite Ascii.eqb_refl. reflexivity.
  - cbn [count_char split append].
    pose proof (count_char_nonneg sep a) as Hn.
    rewrite (Ascii.eqb_sym sep c). destruct (Ascii.eqb c sep); [lia |].
    intros H. rewrite IH by lia. reflexivity.
Qed.

(** The cleanup reads back the names the logger writes.  For a date with
    a year of at most four digits, the name [van_log_YYYY-MM-DD.json] built
    by [log_sensor_data] passes the filter of [cleanup_old_logs], its date
    is parsed back to the same year, month and day, and the file (the very
    path that was written) is removed exactly when [mktime] of that day is
    before the cutoff; nothing raises. *)
Lemma log_file_name_parsed_back (timestamp cutoff : Z) (w : world) (y m d : Z) :
  localtime E timestamp = (y, m, d) ->
  0 <= y <= 9999 ->
  0 <= m <= 99 ->
  0 <= d <= 99 ->
  startswith ("van_log_" ++ get_date_string E timestamp ++ ".json") "van_log_"
    && endswith ("van_log_" ++ get_date_string E timestamp ++ ".json") ".json" = true /\
  cleanup_file E cutoff ("van_log_" ++ get_date_string E timestamp ++ ".json") w
  = removed_if_old cutoff (log_filename_of E timestamp) (mktime E y m d) w.
Proof.
  intros Hloc Hy Hm Hd.
  destruct (date_field_ok_inv 4 y (date_field_ok_year y Hy)) as [LY [CY IY]].
  destruct (date_field_ok_inv 2 m (date_field_ok_two m Hm)) as [LM [CM IM]].
  destruct (date_field_ok_inv 2 d (date_field_ok_two d Hd)) as [LD [CD ID]].
  unfold log_filename_of. unfold get_date_string. rewrite Hloc.
  set (Y := format_0d 4 y) in *. set (Mo := format_0d 2 m) in *.
  set (D := format_0d 2 d) in *.
  set (date := (Y ++ "-" ++ Mo ++ "-" ++ D)%string).
  assert (Hlen : String.length date = 10%nat).
  { unfold date. rewrite !length_append. cbn [String.length]. lia. }
  assert (Hcount : count_char "-" date = 2).
  { unfold date. rewrite !count_char_append. cbn [count_char Ascii.eqb Bool.eqb].
    rewrite CY, CM, CD. reflexivity. }
  assert (Hsplit : split "-" date = [Y; Mo; D]).
  { unfold date. change ("-" ++ Mo ++ "-" ++ D)%string with (String "-" (Mo ++ "-" ++ D)).
    rewrite (split_append_sep "-" Y _ CY).
    change ("-" ++ D)%string with (String "-" D).
    rewrite (split_append_sep "-" Mo _ CM).
    rewrite (split_no_sep "-" D CD). reflexivity. }
  assert (Hslice : slice 8 (String.length ("van_log_" ++ date ++ ".json") - 5)
                     ("van_log_" ++ date ++ ".json") = date).
  { rewrite !length_append, Hlen. cbn [String.length Nat.add Nat.sub].
    unfold slice. cbn [Nat.sub append drop].
    rewrite <- Hlen. apply take_append. }
  split.
  - apply andb_true_intro. split.
    { unfold startswith. cbn [append prefix].
      repeat match goal with
             | |- context [ascii_dec ?a ?b] => destruct (ascii_dec a b); [| congruence]
             end.
      destruct (date ++ ".json")%string; reflexivity. }
    apply (endswith_append "van_log_" (date ++ ".json") ".json").
    apply (endswith_append date ".json" ".json"). reflexivity.
  - unfold cleanup_file. cbv zeta. rewrite Hslice.
    unfold len. rewrite Hlen, Hcount. cbn [Z.of_nat Z.eqb Pos.eqb Pos.of_succ_nat
                                           Pos.succ andb].
    rewrite Hsplit, IY, IM, ID. unfold try_except. cbn [eval].
    rewrite !bind_ret_l.
    unfold removed_if_old.
    destruct (mktime E y m d) as [file_timestamp | e]; cbn [eval]; [| reflexivity].
    rewrite bind_ret_l.
    destruct (file_timestamp <? cutoff); [| reflexivity].
    rewrite fs_run. destruct (fs_cmd_at E (calls w Fs)) as [[] | e]; reflexivity.
Qed.

End LogFacts.

(** Today's file does not parse: it is written back with one entry. *)
Lemma log_sensor_data_appends_witness :
  exists w' evs,
    log_sensor_data corrupt_log_bench initial_world = (Ret tt, w') /\
    trace w' = trace initial_world ++
      [file_open (log_filename_of corrupt_log_bench
                    (time_at corrupt_log_bench (calls initial_world Rtc))) "r";
       ujson_load (log_filename_of corrupt_log_bench
                     (time_at corrupt_log_bench (calls initial_world Rtc)));
       file_open (log_filename_of corrupt_log_bench
                    (time_at corrupt_log_bench (calls initial_world Rtc))) "w";
       ujson_dump (log_filename_of corrupt_log_bench
                     (time_at corrupt_log_bench (calls initial_world Rtc)))
         (loaded_logs corrupt_log_bench initial_world
            ++ [entry_of corrupt_log_bench initial_world false])] ++ evs /\
    last_log_time w' = tick_time corrupt_log_bench initial_world.
Proof.
  apply (log_sensor_data_appends corrupt_log_bench initial_world false).
  - vm_compute. reflexivity.
  - reflexivity.
  - intros i. reflexivity.
Defined.

(** New Year's Day 2026 on the idle bench. *)
Lemma log_file_name_parsed_back_witness :
  startswith ("van_log_" ++ get_date_string idle_bench 820454400 ++ ".json") "van_log_"
    && endswith ("van_log_" ++ get_date_string idle_bench 820454400 ++ ".json") ".json"
    = true /\
  cleanup_file idle_bench 900000000
    ("van_log_" ++ get_date_string idle_bench 820454400 ++ ".json") initial_world
  = removed_if_old 900000000 (log_filename_of idle_bench 820454400)
      (mktime idle_bench 2026 1 1) initial_world.
Proof.
  apply (log_file_name_parsed_back idle_bench 820454400 900000000 initial_world 2026 1 1);
    [reflexivity | lia | lia | lia].
Defined.
